(** * Booking, payment and cancellation handlers of the event site

    A shallow embedding of the tRPC routers that book seats on away-game
    buses (eventPaymentRouter: requestSwishPayment, cancelBooking,
    swishPaymentCallback, swishRefundCallback, getCancellableParticipant)
    and of the public read model (publicRouter: getAwayGames, getAwayGame
    with the busesWithPaidPassengers include).

    Conventions of the embedding.
    - A JavaScript [Date] is its time value: milliseconds since the epoch,
      a [Z].  date-fns works on the local calendar; the handlers are read
      in a time zone without a clock change around the event (UTC), where
      [subDays d n] is exactly [n * 24h] earlier and [subHours] likewise.
    - Prices and amounts are the integers the ledger stores ([Z]).
    - A JavaScript string is the sequence of its code units; every code
      unit the handlers themselves write is below 256 and is one [ascii].
    - The Prisma client is a record of tables; a table is the list of its
      rows in insertion order, and [findFirst] without [orderBy] returns
      the first matching row of that list.
    - What a handler does to the outside world (payment gateway, mail
      service, clock, a failing insert) is read from a [World] record. *)

From Stdlib Require Import ZArith List String Ascii Bool Lia Arith PeanoNat.
From Stdlib Require Import DecimalString Permutation.
Import ListNotations.

Local Open Scope string_scope.
Local Open Scope Z_scope.

(** ** JavaScript strings *)

Module JS.

(** [s.replaceAll(a, b)] for one-character [a] and [b]. *)
Fixpoint replaceAll (a b : ascii) (s : string) : string :=
  match s with
  | EmptyString => EmptyString
  | String c rest =>
      String (if Ascii.eqb c a then b else c) (replaceAll a b rest)
  end.

(** [s.split(sep)] for a one-character separator: never empty. *)
Fixpoint split (sep : ascii) (s : string) : list string :=
  match s with
  | EmptyString => [EmptyString]
  | String c rest =>
      if Ascii.eqb c sep then EmptyString :: split sep rest
      else match split sep rest with
           | seg :: segs => String c seg :: segs
           | [] => [String c EmptyString]
           end
  end.

(** [arr.pop()] read as a value: the last element, if any. *)
Definition pop (l : list string) : option string :=
  match rev l with
  | [] => None
  | x :: _ => Some x
  end.

(** [s.slice(0, n)]. *)
Definition slice0 (n : nat) (s : string) : string := substring 0 n s.

(** A number inside a template literal. *)
Definition ofNat (n : nat) : string := NilZero.string_of_uint (Nat.to_uint n).

(** Two decimal digits, zero padded (date-fns tokens [hh] and [mm]). *)
Definition twoDigits (n : Z) : string :=
  let s := ofNat (Z.to_nat n) in
  if n <? 10 then "0" ++ s else s.

End JS.

(** ** Dates (date-fns) *)

Module DateFns.

Definition msPerHour : Z := 3600000.
Definition msPerDay : Z := 24 * msPerHour.

Definition subDays (date : Z) (amount : Z) : Z := date - amount * msPerDay.
Definition subHours (date : Z) (amount : Z) : Z := date - amount * msPerHour.

(** [isBefore(date, dateToCompare)]: strictly earlier. *)
Definition isBefore (date dateToCompare : Z) : bool := date <? dateToCompare.

(** [isWithinInterval(date, {start, end})]: both ends belong to the
    interval; an interval whose start is after its end is a RangeError
    ([None]). *)
Definition isWithinInterval (date start end_ : Z) : option bool :=
  if end_ <? start then None
  else Some ((start <=? date) && (date <=? end_)).

(** [format(date, "hh:mm")]: the hour on the 12-hour clock, two digits,
    and the minute, two digits; no day period. *)
Definition format_hh_mm (date : Z) : string :=
  let minuteOfDay := (date / 60000) mod 1440 in
  let h := (minuteOfDay / 60) mod 12 in
  let h12 := if h =? 0 then 12 else h in
  JS.twoDigits h12 ++ ":" ++ JS.twoDigits (minuteOfDay mod 60).

End DateFns.

(** ** The ledger: enums and rows *)

(** Modelled from the spec: the Prisma enum SwishPaymentStatus is generated
    from a schema that is not among the sources; the handlers name its
    members CREATED and PAID, the spec lists the rest. *)
Module SwishPaymentStatus.
Inductive t := CREATED | PAID | DECLINED | ERROR | CANCELLED.
Definition eqb (a b : t) : bool :=
  match a, b with
  | CREATED, CREATED | PAID, PAID | DECLINED, DECLINED
  | ERROR, ERROR | CANCELLED, CANCELLED => true
  | _, _ => false
  end.
End SwishPaymentStatus.

(** Modelled from the spec: the Prisma enum SwishRefundStatus, as above. *)
Module SwishRefundStatus.
Inductive t := CREATED | PAID | DECLINED | ERROR.
Definition eqb (a b : t) : bool :=
  match a, b with
  | CREATED, CREATED | PAID, PAID | DECLINED, DECLINED | ERROR, ERROR => true
  | _, _ => false
  end.
End SwishRefundStatus.

Module VastraEvent.
Record t := mk {
  id : string;
  name : string;
  date : Z;
  defaultPrice : Z;
  memberPrice : Z;
  youthPrice : Z;
  youthMemberPrice : Z
}.
End VastraEvent.

Module Bus.
Record t := mk {
  id : string;
  name : string;
  seats : Z;
  eventId : string
}.
End Bus.

(** participantSchema: what a signup sends for one traveller.  [consent] is
    the literal [true] and carries no information. *)
Module ParticipantInput.
Record t := mk {
  name : string;
  email : string;
  phone : string;
  note : option string;
  busId : string;
  member : bool;
  youth : bool
}.
End ParticipantInput.

Module Participant.
Record t := mk {
  id : nat;
  name : string;
  email : string;
  phone : string;
  note : option string;
  busId : string;
  member : bool;
  youth : bool;
  payAmount : Z;
  eventId : string;
  cancellationToken : nat
}.
End Participant.

(** A SwishPayment row.  [participants] is the row's side of the
    many-to-many relation with Participant: the ids it is connected to. *)
Module SwishPayment.
Record t := mk {
  id : nat;
  paymentId : string;
  paymentRequestUrl : string;
  paymentReference : option string;
  payerAlias : string;
  payeeAlias : string;
  amount : Z;
  message : string;
  status : SwishPaymentStatus.t;
  errorCode : option string;
  errorMessage : option string;
  createdAt : Z;
  updatedAt : Z;
  participants : list nat
}.
End SwishPayment.

Module SwishRefund.
Record t := mk {
  id : nat;
  refundId : string;
  paymentId : nat;
  paymentReference : option string;
  payerAlias : string;
  payeeAlias : string;
  amount : Z;
  message : string;
  status : SwishRefundStatus.t;
  createdAt : Z;
  updatedAt : Z;
  participantId : nat
}.
End SwishRefund.

(** [ctx.prisma]: the tables, and the source of fresh row ids. *)
Module Prisma.
Record t := mk {
  vastraEvent : list VastraEvent.t;
  bus : list Bus.t;
  participant : list Participant.t;
  swishPayment : list SwishPayment.t;
  swishRefund : list SwishRefund.t;
  nextId : nat
}.
End Prisma.

(** Inserting a row: the table grows at its end and the id source moves on. *)
Definition insertParticipant (p : Participant.t) (db : Prisma.t) : Prisma.t :=
  Prisma.mk (Prisma.vastraEvent db) (Prisma.bus db)
            (Prisma.participant db ++ [p])
            (Prisma.swishPayment db) (Prisma.swishRefund db)
            (S (Prisma.nextId db)).

Definition insertSwishPayment (r : SwishPayment.t) (db : Prisma.t) : Prisma.t :=
  Prisma.mk (Prisma.vastraEvent db) (Prisma.bus db) (Prisma.participant db)
            (Prisma.swishPayment db ++ [r]) (Prisma.swishRefund db)
            (S (Prisma.nextId db)).

Definition insertSwishRefund (r : SwishRefund.t) (db : Prisma.t) : Prisma.t :=
  Prisma.mk (Prisma.vastraEvent db) (Prisma.bus db) (Prisma.participant db)
            (Prisma.swishPayment db) (Prisma.swishRefund db ++ [r])
            (S (Prisma.nextId db)).

(** ** Relations between the tables *)

(** [include: { participants: true }] on a payment row: the rows its ids
    refer to. *)
Definition participantsOf (db : Prisma.t) (ids : list nat) : list Participant.t :=
  flat_map
    (fun i =>
       match find (fun p => Nat.eqb (Participant.id p) i) (Prisma.participant db) with
       | Some p => [p]
       | None => []
       end)
    ids.

(** [include: { swishPayments: true }] on a participant. *)
Definition swishPaymentsOf (db : Prisma.t) (p : Participant.t) : list SwishPayment.t :=
  filter (fun r => existsb (Nat.eqb (Participant.id p)) (SwishPayment.participants r))
         (Prisma.swishPayment db).

(** [include: { swishRefunds: true }] on a participant. *)
Definition swishRefundsOf (db : Prisma.t) (p : Participant.t) : list SwishRefund.t :=
  filter (fun r => Nat.eqb (SwishRefund.participantId r) (Participant.id p))
         (Prisma.swishRefund db).

(** [include: { event: true }] on a participant. *)
Definition eventOf (db : Prisma.t) (p : Participant.t) : option VastraEvent.t :=
  find (fun e => String.eqb (VastraEvent.id e) (Participant.eventId p))
       (Prisma.vastraEvent db).

(** The passengers of a bus. *)
Definition passengersOf (db : Prisma.t) (b : Bus.t) : list Participant.t :=
  filter (fun p => String.eqb (Participant.busId p) (Bus.id b)) (Prisma.participant db).

(** The buses of an event. *)
Definition busesOf (db : Prisma.t) (e : VastraEvent.t) : list Bus.t :=
  filter (fun b => String.eqb (Bus.eventId b) (VastraEvent.id e)) (Prisma.bus db).

(** ** tRPC results, the outside world, and what a handler leaves behind *)

Module TRPC.
Inductive Code := BAD_REQUEST | NOT_FOUND | INTERNAL_SERVER_ERROR.
Record Error := mkError { code : Code; message : option string }.
Inductive Result (A : Type) : Type :=
| Ok (value : A)
| Throw (error : Error).
Arguments Ok {A} value.
Arguments Throw {A} error.
End TRPC.

(** The payload [createPaymentIntentPayload] builds for the gateway. *)
Module PaymentIntent.
Record t := mk {
  payeeAlias : string;
  payerAlias : string;
  amount : Z;
  message : string;
  callbackUrl : string
}.
End PaymentIntent.

(** [refundData] of cancelBooking. *)
Module RefundData.
Record t := mk {
  originalPaymentReference : string;
  callbackUrl : string;
  payerAlias : string;
  amount : Z;
  currency : string;
  message : string
}.
End RefundData.

(** What the gateway answers: the call throws, or it returns a response
    whose [location] header may be absent. *)
Module Gateway.
Inductive Reply := Rejected | Accepted (location : option string).
End Gateway.

(** What one invocation of a handler sees of the outside world. *)
Module World.
Record t := mk {
  (** [new Date()] *)
  now : Z;
  (** [env.API_URL] *)
  API_URL : string;
  (** [createPaymentIntentPayload] of ~/utils/payment, which is not among
      the sources: message, payer alias, amount and callback end point in,
      gateway payload out. *)
  createPaymentIntentPayload : string -> string -> Z -> string -> PaymentIntent.t;
  (** [createPaymentRequest] and [createRefundRequest] of ~/utils/swishHelpers. *)
  createPaymentRequest : PaymentIntent.t -> Gateway.Reply;
  createRefundRequest : RefundData.t -> Gateway.Reply;
  (** whether [participant.create] fails on this ledger for this traveller *)
  participantCreateFails : Prisma.t -> ParticipantInput.t -> bool;
  (** whether [resend.sendEmail] rejects for this participant *)
  sendEmailFails : Participant.t -> bool
}.
End World.

Inductive Effect :=
| PaymentRequested (data : PaymentIntent.t)
| RefundRequested (data : RefundData.t)
| EmailSent (to : string) (participant : Participant.t)
| ConsoleError (what : string).

Record Outcome (A : Type) : Type := mkOutcome {
  prisma : Prisma.t;
  effects : list Effect;
  result : TRPC.Result A
}.
Arguments mkOutcome {A} prisma effects result.
Arguments prisma {A} o.
Arguments effects {A} o.
Arguments result {A} o.

Definition throw {A : Type} (db : Prisma.t) (fx : list Effect)
           (c : TRPC.Code) (m : option string) : Outcome A :=
  mkOutcome db fx (TRPC.Throw (TRPC.mkError c m)).

(** ** eventPaymentRouter: cost of a booking *)

Definition getParticipantCost (participant : ParticipantInput.t)
           (event : VastraEvent.t) : Z :=
  if ParticipantInput.youth participant && ParticipantInput.member participant
  then VastraEvent.youthMemberPrice event
  else if ParticipantInput.youth participant
          && negb (ParticipantInput.member participant)
  then VastraEvent.youthPrice event
  else if negb (ParticipantInput.youth participant)
          && ParticipantInput.member participant
  then VastraEvent.memberPrice event
  else VastraEvent.defaultPrice event.

Definition calculateCost (participants : list ParticipantInput.t)
           (event : VastraEvent.t) : Z :=
  fold_left (fun acc participant => acc + getParticipantCost participant event)
            participants 0.

(** ** eventPaymentRouter.requestSwishPayment *)

(** [ctx.prisma.participant.create({ data: { ...participant, payAmount,
    eventId } })]: the id and the cancellation token are generated. *)
Definition participantCreate (w : World.t) (participant : ParticipantInput.t)
           (payAmount : Z) (eventId : string) (db : Prisma.t)
  : option (Prisma.t * Participant.t) :=
  if World.participantCreateFails w db participant then None
  else
    let row :=
      Participant.mk (Prisma.nextId db)
        (ParticipantInput.name participant) (ParticipantInput.email participant)
        (ParticipantInput.phone participant) (ParticipantInput.note participant)
        (ParticipantInput.busId participant) (ParticipantInput.member participant)
        (ParticipantInput.youth participant)
        payAmount eventId (Prisma.nextId db) in
    Some (insertParticipant row db, row).

(** The writes of a [$transaction([...])], one after the other on the
    ledger the previous one left. *)
Fixpoint runAll {A : Type} (ops : list (Prisma.t -> option (Prisma.t * A)))
         (db : Prisma.t) : option (Prisma.t * list A) :=
  match ops with
  | [] => Some (db, [])
  | op :: rest =>
      match op db with
      | None => None
      | Some (db1, a) =>
          match runAll rest db1 with
          | None => None
          | Some (db2, l) => Some (db2, a :: l)
          end
      end
  end.

(** [ctx.prisma.$transaction([...])]: every write is committed, or the
    ledger is the one before the first write and the call throws. *)
Definition transaction {A : Type} (ops : list (Prisma.t -> option (Prisma.t * A)))
           (db : Prisma.t) : Prisma.t * option (list A) :=
  match runAll ops db with
  | Some (db', l) => (db', Some l)
  | None => (db, None)
  end.

Module SignupInput.
Record t := mk {
  participants : list ParticipantInput.t;
  eventId : string
}.
End SignupInput.

(** The payer-facing message of a signup: ["${event.name}. ${n} resenärer"]
    cut to 50 code units, slashes replaced. *)
Definition signupMessage (event : VastraEvent.t) (n : nat) : string :=
  JS.replaceAll "/"%char "-"%char
    (JS.slice0 50
       (VastraEvent.name event ++ ". " ++ JS.ofNat n ++ " resen"
          ++ String (ascii_of_nat 228) "rer")).

Definition requestSwishPayment (w : World.t) (input : SignupInput.t)
           (db : Prisma.t) : Outcome string :=
  match SignupInput.participants input with
  | [] =>
      (* participantSchema.array().min(1): the input is refused *)
      throw db [] TRPC.BAD_REQUEST None
  | payer :: _ =>
      match find (fun e => String.eqb (VastraEvent.id e) (SignupInput.eventId input))
                 (Prisma.vastraEvent db) with
      | None => throw db [] TRPC.BAD_REQUEST (Some "Event not found")
      | Some event =>
          let cost := calculateCost (SignupInput.participants input) event in
          let message :=
            signupMessage event (List.length (SignupInput.participants input)) in
          let data :=
            World.createPaymentIntentPayload w message
              (ParticipantInput.phone payer) cost "swishEventCallback" in
          let failed := ConsoleError "Error creating payment request" in
          match transaction
                  (map (fun participant =>
                          participantCreate w participant
                            (getParticipantCost participant event)
                            (VastraEvent.id event))
                       (SignupInput.participants input))
                  db with
          | (db1, None) =>
              throw db1 [failed] TRPC.INTERNAL_SERVER_ERROR None
          | (db1, Some participants) =>
              match World.createPaymentRequest w data with
              | Gateway.Rejected | Gateway.Accepted None =>
                  throw db1 [PaymentRequested data; failed]
                        TRPC.INTERNAL_SERVER_ERROR None
              | Gateway.Accepted (Some paymentRequestUrl) =>
                  match JS.pop (JS.split "/"%char paymentRequestUrl) with
                  | None =>
                      throw db1 [PaymentRequested data; failed]
                            TRPC.INTERNAL_SERVER_ERROR None
                  | Some paymentRequestId =>
                      let paymentIntent :=
                        SwishPayment.mk (Prisma.nextId db1)
                          paymentRequestId paymentRequestUrl None
                          (ParticipantInput.phone payer)
                          (PaymentIntent.payeeAlias data)
                          cost message SwishPaymentStatus.CREATED None None
                          (World.now w) (World.now w)
                          (map Participant.id participants) in
                      mkOutcome (insertSwishPayment paymentIntent db1)
                                [PaymentRequested data]
                                (TRPC.Ok (SwishPayment.paymentId paymentIntent))
                  end
              end
          end
      end
  end.

(** ** eventPaymentRouter.cancelBooking *)

(** The refund message: "Återbetalning: ", the event name up to its first
    space with slashes replaced, ", " and the participant's name. *)
Definition refundMessage (event : VastraEvent.t) (participant : Participant.t)
  : string :=
  let eventNameShort :=
    hd "" (JS.split " "%char (JS.replaceAll "/"%char "-"%char (VastraEvent.name event))) in
  String (ascii_of_nat 197) "terbetalning: " ++ eventNameShort ++ ", "
    ++ Participant.name participant.

Definition isPaidPayment (p : SwishPayment.t) : bool :=
  SwishPaymentStatus.eqb (SwishPayment.status p) SwishPaymentStatus.PAID.

Definition isPaidRefund (r : SwishRefund.t) : bool :=
  SwishRefundStatus.eqb (SwishRefund.status r) SwishRefundStatus.PAID.

Definition cancelBooking (w : World.t) (token : nat) (db : Prisma.t)
  : Outcome string :=
  match find (fun p => Nat.eqb (Participant.cancellationToken p) token)
             (Prisma.participant db) with
  | None => throw db [] TRPC.BAD_REQUEST (Some "Participant not found")
  | Some participant =>
      match eventOf db participant with
      | None =>
          (* [participant.event.date] on a missing relation: a TypeError *)
          throw db [] TRPC.INTERNAL_SERVER_ERROR None
      | Some event =>
          (* You can't cancel within 48 hours of the departure *)
          let twoDaysBeforeDeparture := DateFns.subDays (VastraEvent.date event) 2 in
          let today := World.now w in
          match DateFns.isWithinInterval today twoDaysBeforeDeparture
                                         (VastraEvent.date event) with
          | None => throw db [] TRPC.INTERNAL_SERVER_ERROR None
          | Some true =>
              throw db [] TRPC.BAD_REQUEST (Some "Du kan inte avboka inom 48h")
          | Some false =>
              let payAmount := Participant.payAmount participant in
              match find isPaidPayment (swishPaymentsOf db participant) with
              | None => throw db [] TRPC.BAD_REQUEST (Some "Payment not found")
              | Some swishPayment =>
                  if payAmount =? 0
                  then throw db [] TRPC.BAD_REQUEST (Some "Payment not found")
                  else
                    let message := refundMessage event participant in
                    let refundData :=
                      RefundData.mk (SwishPayment.paymentId swishPayment)
                        (World.API_URL w ++ "/payment/swishCallback")
                        "1234679304" payAmount "SEK" message in
                    let failed := ConsoleError "Error creating refund request" in
                    match World.createRefundRequest w refundData with
                    | Gateway.Rejected | Gateway.Accepted None =>
                        throw db [RefundRequested refundData; failed]
                              TRPC.INTERNAL_SERVER_ERROR None
                    | Gateway.Accepted (Some refundRequestUrl) =>
                        match JS.pop (JS.split "/"%char refundRequestUrl) with
                        | None =>
                            throw db [RefundRequested refundData; failed]
                                  TRPC.INTERNAL_SERVER_ERROR None
                        | Some refundRequestId =>
                            let refundIntent :=
                              SwishRefund.mk (Prisma.nextId db) refundRequestId
                                (SwishPayment.id swishPayment)
                                (SwishPayment.paymentReference swishPayment)
                                (RefundData.payerAlias refundData)
                                (SwishPayment.payerAlias swishPayment)
                                (RefundData.amount refundData)
                                (RefundData.message refundData)
                                SwishRefundStatus.CREATED
                                (World.now w) (World.now w)
                                (Participant.id participant) in
                            mkOutcome (insertSwishRefund refundIntent db)
                                      [RefundRequested refundData]
                                      (TRPC.Ok (SwishRefund.refundId refundIntent))
                        end
                    end
              end
          end
      end
  end.

(** ** eventPaymentRouter.swishPaymentCallback *)

(** swishCallbackPaymentSchema.  [dateCreated] is the time value of
    [new Date(input.dateCreated)]. *)
Module SwishCallbackPayment.
Record t := mk {
  id : string;
  payeePaymentReference : string;
  paymentReference : string;
  callbackUrl : string;
  payerAlias : string;
  payeeAlias : string;
  currency : string;
  message : string;
  errorMessage : option string;
  status : SwishPaymentStatus.t;
  amount : Z;
  dateCreated : Z;
  datePaid : option string;
  errorCode : option string
}.
End SwishCallbackPayment.

(** [sendConfirmationEmail]: the mail goes to the participant's address, or
    to the fallback address when that is empty. *)
Definition sendConfirmationEmail (participant : Participant.t) : Effect :=
  EmailSent
    (if String.eqb (Participant.email participant) ""
     then "filip.nystrand@gmail.com"
     else Participant.email participant)
    participant.

Definition swishPaymentCallback (w : World.t) (input : SwishCallbackPayment.t)
           (db : Prisma.t) : Outcome Z :=
  match find (fun p => String.eqb (SwishPayment.paymentId p)
                                  (SwishCallbackPayment.id input))
             (Prisma.swishPayment db) with
  | None => throw db [] TRPC.BAD_REQUEST (Some "Payment not found")
  | Some originalPayment =>
      let linked := participantsOf db (SwishPayment.participants originalPayment) in
      let newPayment :=
        SwishPayment.mk (Prisma.nextId db)
          (SwishCallbackPayment.id input)
          (SwishPayment.paymentRequestUrl originalPayment)
          (Some (SwishCallbackPayment.paymentReference input))
          (SwishCallbackPayment.payerAlias input)
          (SwishCallbackPayment.payeeAlias input)
          (SwishCallbackPayment.amount input)
          (SwishCallbackPayment.message input)
          (SwishCallbackPayment.status input)
          (SwishCallbackPayment.errorCode input)
          (SwishCallbackPayment.errorMessage input)
          (SwishCallbackPayment.dateCreated input)
          (World.now w)
          (map Participant.id linked) in
      let db' := insertSwishPayment newPayment db in
      let emails :=
        if isPaidPayment newPayment
        then
          (* Promise.all over the mapped sends: every send is started; the
             first rejection lands in the catch block, which only logs *)
          let sends :=
            map sendConfirmationEmail
                (participantsOf db' (SwishPayment.participants newPayment)) in
          if existsb (World.sendEmailFails w)
                     (participantsOf db' (SwishPayment.participants newPayment))
          then (sends ++ [ConsoleError "Error sending confirmation email"])%list
          else sends
        else [] in
      mkOutcome db' emails (TRPC.Ok 200)
  end.

(** ** eventPaymentRouter.swishRefundCallback *)

Module SwishCallbackRefund.
Record t := mk {
  amount : Z;
  originalPaymentReference : string;
  dateCreated : Z;
  datePaid : option string;
  payerPaymentReference : option string;
  payerAlias : string;
  callbackUrl : string;
  currency : string;
  id : string;
  payeeAlias : option string;
  message : string;
  status : SwishRefundStatus.t
}.
End SwishCallbackRefund.

Definition swishRefundCallback (w : World.t) (input : SwishCallbackRefund.t)
           (db : Prisma.t) : Outcome string :=
  match find (fun r => String.eqb (SwishRefund.refundId r)
                                  (SwishCallbackRefund.id input))
             (Prisma.swishRefund db) with
  | None => throw db [ConsoleError "Refund not found"]
                  TRPC.BAD_REQUEST (Some "Refund not found")
  | Some refundIntent =>
      match find (fun p => Nat.eqb (Participant.id p)
                                   (SwishRefund.participantId refundIntent))
                 (Prisma.participant db) with
      | None => throw db [ConsoleError "Refund has no participant"]
                      TRPC.BAD_REQUEST (Some "Refund has no participant")
      | Some participant =>
          let payeeAlias :=
            match SwishCallbackRefund.payeeAlias input with
            | Some a => if String.eqb a "" then SwishRefund.payeeAlias refundIntent else a
            | None => SwishRefund.payeeAlias refundIntent
            end in
          let row :=
            SwishRefund.mk (Prisma.nextId db)
              (SwishCallbackRefund.id input)
              (SwishRefund.paymentId refundIntent)
              (Some (SwishCallbackRefund.originalPaymentReference input))
              (SwishCallbackRefund.payerAlias input)
              payeeAlias
              (SwishCallbackRefund.amount input)
              (SwishCallbackRefund.message input)
              (SwishCallbackRefund.status input)
              (SwishCallbackRefund.dateCreated input)
              (World.now w)
              (Participant.id participant) in
          mkOutcome (insertSwishRefund row db) [] (TRPC.Ok "ok")
      end
  end.

(** ** eventPaymentRouter.getCancellableParticipant *)

Module Cancellable.
Record participant := mkParticipant {
  name : string;
  email : string;
  cancellationToken : nat;
  eventName : string;
  payAmount : Z;
  departureTime : string;
  note : option string;
  paymentId : string
}.
Record t := mk {
  who : participant;
  hasCancelled : bool;
  cancellationDisabled : bool
}.
End Cancellable.

Definition getCancellableParticipant (w : World.t) (token : nat) (db : Prisma.t)
  : Outcome Cancellable.t :=
  match find (fun p => Nat.eqb (Participant.cancellationToken p) token)
             (Prisma.participant db) with
  | None => throw db [] TRPC.BAD_REQUEST (Some "Participant not found")
  | Some participant =>
      match find isPaidPayment (swishPaymentsOf db participant) with
      | None => throw db [] TRPC.BAD_REQUEST (Some "Payment not found")
      | Some payment =>
          match eventOf db participant with
          | None => throw db [] TRPC.INTERNAL_SERVER_ERROR None
          | Some event =>
              (* You can't cancel within 48 hours of the departure *)
              let twoDaysBeforeDeparture :=
                DateFns.subDays (VastraEvent.date event) 2 in
              let today := World.now w in
              if DateFns.isBefore (VastraEvent.date event) today
              then throw db [] TRPC.BAD_REQUEST
                         (Some "Can't cancel within 48 hours of departure")
              else
                let isBefore48Hours :=
                  DateFns.isBefore today twoDaysBeforeDeparture in
                let hasCancelled :=
                  existsb isPaidRefund (swishRefundsOf db participant) in
                mkOutcome db []
                  (TRPC.Ok
                     (Cancellable.mk
                        (Cancellable.mkParticipant
                           (Participant.name participant)
                           (Participant.email participant)
                           (Participant.cancellationToken participant)
                           (VastraEvent.name event)
                           (Participant.payAmount participant)
                           (DateFns.format_hh_mm (VastraEvent.date event))
                           (Participant.note participant)
                           (SwishPayment.paymentId payment))
                        hasCancelled
                        (negb isBefore48Hours)))
          end
      end
  end.

(** ** publicRouter: the capacity read model *)

(** A bus as [include: busesWithPaidPassengers] returns it: the row and
    [_count.passengers]. *)
Module BusWithCount.
Record t := mk {
  bus : Bus.t;
  count_passengers : Z
}.
End BusWithCount.

(** The [where] of busesWithPaidPassengers: some payment of the passenger
    has status PAID, and none of the passenger's refunds has. *)
Definition paidPassenger (db : Prisma.t) (p : Participant.t) : bool :=
  existsb isPaidPayment (swishPaymentsOf db p)
  && negb (existsb isPaidRefund (swishRefundsOf db p)).

Definition busesWithPaidPassengers (db : Prisma.t) (event : VastraEvent.t)
  : list BusWithCount.t :=
  map (fun b =>
         BusWithCount.mk b
           (Z.of_nat (List.length (filter (paidPassenger db) (passengersOf db b)))))
      (busesOf db event).

Module AwayGame.
Record t := mk {
  event : VastraEvent.t;
  buses : list BusWithCount.t;
  maxSeats : Z;
  bookedSeats : Z
}.
End AwayGame.

Definition withSeatCounts (event : VastraEvent.t) (buses : list BusWithCount.t)
  : AwayGame.t :=
  AwayGame.mk event buses
    (fold_left (fun acc bus => acc + Bus.seats (BusWithCount.bus bus)) buses 0)
    (fold_left (fun acc bus => acc + BusWithCount.count_passengers bus) buses 0).

Definition getAwayGames (w : World.t) (db : Prisma.t) : Outcome (list AwayGame.t) :=
  let res :=
    filter (fun e => DateFns.subHours (World.now w) 8 <=? VastraEvent.date e)
           (Prisma.vastraEvent db) in
  mkOutcome db []
    (TRPC.Ok (map (fun event => withSeatCounts event (busesWithPaidPassengers db event))
                  res)).

Definition getAwayGame (id : string) (db : Prisma.t)
  : Outcome (VastraEvent.t * list BusWithCount.t) :=
  match find (fun e => String.eqb (VastraEvent.id e) id) (Prisma.vastraEvent db) with
  | None => throw db [] TRPC.NOT_FOUND None
  | Some res => mkOutcome db [] (TRPC.Ok (res, busesWithPaidPassengers db res))
  end.

(** ** Derived notions the statements use *)

Definition sumZ (l : list Z) : Z := fold_right Z.add 0 l.

(** The most recently created row of a list of rows: the greatest
    [createdAt]; among equal timestamps the row stored last. *)
Definition mostRecent {A : Type} (createdAt : A -> Z) (rows : list A) : option A :=
  fold_left
    (fun best r =>
       match best with
       | None => Some r
       | Some b => if createdAt b <=? createdAt r then Some r else Some b
       end)
    rows None.

(** The rows a gateway payment id has in the ledger, oldest insertion first. *)
Definition paymentRows (db : Prisma.t) (paymentId : string) : list SwishPayment.t :=
  filter (fun p => String.eqb (SwishPayment.paymentId p) paymentId)
         (Prisma.swishPayment db).

(** The current status of a gateway payment id, as the spec defines the
    derived view: "the status of its most recently created row", by the
    rows' [createdAt]. *)
Definition currentStatus (db : Prisma.t) (paymentId : string)
  : option SwishPaymentStatus.t :=
  option_map SwishPayment.status
             (mostRecent SwishPayment.createdAt (paymentRows db paymentId)).

(** The same view read by insertion sequence: the status of the row stored
    last for the payment id. *)
Definition lastStoredStatus (db : Prisma.t) (paymentId : string)
  : option SwishPaymentStatus.t :=
  option_map SwishPayment.status (hd_error (rev (paymentRows db paymentId))).

(** The capacity rule in the spec's words: the passenger's most recent
    payment request is PAID and the most recent refund request, if any, is
    not PAID. *)
Definition bookedByLatestStatus (db : Prisma.t) (p : Participant.t) : bool :=
  match mostRecent SwishPayment.createdAt (swishPaymentsOf db p) with
  | Some pay => isPaidPayment pay
  | None => false
  end
  && match mostRecent SwishRefund.createdAt (swishRefundsOf db p) with
     | Some r => negb (isPaidRefund r)
     | None => true
     end.

Definition latestStatusSeats (db : Prisma.t) (b : Bus.t) : Z :=
  Z.of_nat (List.length (filter (bookedByLatestStatus db) (passengersOf db b))).

(** The passenger has a payment row with status PAID. *)
Definition hasPaidPayment (db : Prisma.t) (p : Participant.t) : Prop :=
  exists pay, In pay (Prisma.swishPayment db)
              /\ In (Participant.id p) (SwishPayment.participants pay)
              /\ SwishPayment.status pay = SwishPaymentStatus.PAID.

(** The passenger has a refund row with status PAID. *)
Definition hasPaidRefund (db : Prisma.t) (p : Participant.t) : Prop :=
  exists r, In r (Prisma.swishRefund db)
            /\ SwishRefund.participantId r = Participant.id p
            /\ SwishRefund.status r = SwishRefundStatus.PAID.

(** Referential integrity of the payment-participant relation: a connected
    id is the id of a stored participant. *)
Definition linksResolve (db : Prisma.t) : Prop :=
  forall pay i,
    In pay (Prisma.swishPayment db) ->
    In i (SwishPayment.participants pay) ->
    exists p, In p (Prisma.participant db) /\ Participant.id p = i.

(** The relation holds a pair once: no payment row is connected to the
    same participant twice. *)
Definition linksDistinct (db : Prisma.t) : Prop :=
  forall pay, In pay (Prisma.swishPayment db) ->
              NoDup (SwishPayment.participants pay).

(** Row ids come from the id source and are never reused. *)
Definition idsFresh (db : Prisma.t) : Prop :=
  (forall p, In p (Prisma.participant db) -> (Participant.id p < Prisma.nextId db)%nat)
  /\ NoDup (map Participant.id (Prisma.participant db)).

(** The rows of one gateway payment id agree on linkage and request URL. *)
Definition historyConsistent (db : Prisma.t) : Prop :=
  forall a b,
    In a (Prisma.swishPayment db) -> In b (Prisma.swishPayment db) ->
    SwishPayment.paymentId a = SwishPayment.paymentId b ->
    SwishPayment.participants a = SwishPayment.participants b
    /\ SwishPayment.paymentRequestUrl a = SwishPayment.paymentRequestUrl b.

(** The confirmation mails an outcome attempted, by participant. *)
Definition emailsSent {A : Type} (o : Outcome A) : list Participant.t :=
  flat_map (fun e => match e with EmailSent _ p => [p] | _ => [] end) (effects o).

(** The number of confirmation mails an outcome attempted for one
    participant id. *)
Definition emailsSentTo {A : Type} (o : Outcome A) (participantId : nat) : nat :=
  List.length (filter (fun p => Nat.eqb (Participant.id p) participantId)
                      (emailsSent o)).

(** ** A trip used to exercise the handlers *)

Module Trip.

(** Departure: 2023-11-14T22:13:20Z. *)
Definition departure : Z := 1700000000000.
Definition cutoff : Z := departure - 172800000.

Definition event : VastraEvent.t :=
  VastraEvent.mk "e1" "Norrby/IF borta" departure 100 80 60 40.

Definition bus : Bus.t := Bus.mk "b1" "Buss 1" 10 "e1".

Definition ledger : Prisma.t := Prisma.mk [event] [bus] [] [] [] 0.

(** A world at time [now] where everything outside works; the gateway
    names the request or refund it creates [gatewayId]. *)
Definition world (now : Z) (gatewayId : string) : World.t :=
  World.mk now "https://api.test"
    (fun message payerAlias amount callbackEndPoint =>
       PaymentIntent.mk "1231181189" payerAlias amount message
                        ("https://api.test/payment/" ++ callbackEndPoint))
    (fun _ => Gateway.Accepted (Some ("https://mss.test/api/v1/paymentrequests/" ++ gatewayId)))
    (fun _ => Gateway.Accepted (Some ("https://mss.test/api/v1/refunds/" ++ gatewayId)))
    (fun _ _ => false)
    (fun _ => false).

(** The same world with a gateway that rejects payment requests. *)
Definition worldGatewayDown (now : Z) : World.t :=
  World.mk now "https://api.test"
    (World.createPaymentIntentPayload (world now ""))
    (fun _ => Gateway.Rejected)
    (fun _ => Gateway.Rejected)
    (fun _ _ => false)
    (fun _ => false).

(** The same world where storing the traveller named [who] fails. *)
Definition worldInsertFails (now : Z) (who : string) : World.t :=
  World.mk now "https://api.test"
    (World.createPaymentIntentPayload (world now ""))
    (World.createPaymentRequest (world now "P1"))
    (World.createRefundRequest (world now "R1"))
    (fun _ p => String.eqb (ParticipantInput.name p) who)
    (fun _ => false).

(** The same world where the mail service rejects every send. *)
Definition worldMailDown (now : Z) : World.t :=
  World.mk now "https://api.test"
    (World.createPaymentIntentPayload (world now ""))
    (World.createPaymentRequest (world now "P1"))
    (World.createRefundRequest (world now "R1"))
    (fun _ _ => false)
    (fun _ => true).

Definition traveller (name : string) (member youth : bool) : ParticipantInput.t :=
  ParticipantInput.mk name (name ++ "@mail.test") "46701234567" None "b1" member youth.

Definition anna : ParticipantInput.t := traveller "Anna" true false.
Definition bo : ParticipantInput.t := traveller "Bo" false true.

(** Anna and Bo sign up a week before departure. *)
Definition signup : SignupInput.t := SignupInput.mk [anna; bo] "e1".
Definition signupTime : Z := departure - 7 * 86400000.
Definition signedUp : Prisma.t :=
  prisma (requestSwishPayment (world signupTime "P1") signup ledger).

(** The payment request row the signup stored, and Bo's participant row. *)
Definition createdRow : SwishPayment.t :=
  hd (SwishPayment.mk 0 "" "" None "" "" 0 "" SwishPaymentStatus.ERROR
                      None None 0 0 [])
     (Prisma.swishPayment signedUp).
Definition boRow (payAmount : Z) : Participant.t :=
  Participant.mk 1 "Bo" "Bo@mail.test" "46701234567" None "b1" false true
                 payAmount "e1" 1.

(** The gateway reports the payment, created at [created], with [status]. *)
Definition callback (status : SwishPaymentStatus.t) (created : Z)
  : SwishCallbackPayment.t :=
  SwishCallbackPayment.mk "P1" "ref" "REF1" "https://api.test/payment/swishEventCallback"
    "46701234567" "1231181189" "SEK" "Norrby-IF borta. 2 resen" None status 140
    created None None.

Definition paidTime : Z := signupTime + 60000.
Definition paid : Prisma.t :=
  prisma (swishPaymentCallback (world paidTime "")
            (callback SwishPaymentStatus.PAID paidTime) signedUp).
Definition paidRow : SwishPayment.t :=
  hd createdRow (filter isPaidPayment (Prisma.swishPayment paid)).

(** Bo's booking costs nothing. *)
Definition freeEvent : VastraEvent.t :=
  VastraEvent.mk "e1" "Norrby/IF borta" departure 100 80 0 40.
Definition freeLedger : Prisma.t := Prisma.mk [freeEvent] [bus] [] [] [] 0.
Definition freePaid : Prisma.t :=
  prisma (swishPaymentCallback (world paidTime "")
            (callback SwishPaymentStatus.PAID paidTime)
            (prisma (requestSwishPayment (world signupTime "P1") signup freeLedger))).

(** The gateway reports the refund [id], created at [created]. *)
Definition refundCallback (id : string) (status : SwishRefundStatus.t) (created : Z)
  : SwishCallbackRefund.t :=
  SwishCallbackRefund.mk 60 "P1" created None None "1234679304"
    "https://api.test/payment/swishCallback" "SEK" id None "refund" status.

(** Bo cancels three days before departure and the refund is paid out;
    then the cancellation link is used once more. *)
Definition cancelTime : Z := departure - 3 * 86400000.
Definition refunded : Prisma.t :=
  prisma (swishRefundCallback (world (cancelTime + 60000) "")
            (refundCallback "R1" SwishRefundStatus.PAID (cancelTime + 60000))
            (prisma (cancelBooking (world cancelTime "R1") 1 paid))).
Definition cancelledAgain : Prisma.t :=
  prisma (cancelBooking (world (cancelTime + 120000) "R2") 1 refunded).

(** A full booking: nine travellers on the ten-seat bus, all paid, after
    which the first two cancel and are refunded. *)
Definition nine : SignupInput.t :=
  SignupInput.mk
    (map (fun name => traveller name false false)
         ["T1"; "T2"; "T3"; "T4"; "T5"; "T6"; "T7"; "T8"; "T9"])
    "e1".
Definition ninePaid : Prisma.t :=
  prisma (swishPaymentCallback (world paidTime "")
            (callback SwishPaymentStatus.PAID paidTime)
            (prisma (requestSwishPayment (world signupTime "P1") nine ledger))).
Definition cancelAndRefund (token : nat) (refundId : string) (db : Prisma.t)
  : Prisma.t :=
  prisma (swishRefundCallback (world (cancelTime + 60000) "")
            (refundCallback refundId SwishRefundStatus.PAID (cancelTime + 60000))
            (prisma (cancelBooking (world cancelTime refundId) token db))).
Definition sevenLeft : Prisma.t :=
  cancelAndRefund 1 "R2" (cancelAndRefund 0 "R1" ninePaid).

End Trip.

(** ** Statements about a signup *)

(** The writes of the signup transaction, in order. *)
Definition signupWrites (w : World.t) (event : VastraEvent.t)
           (travellers : list ParticipantInput.t)
  : list (Prisma.t -> option (Prisma.t * Participant.t)) :=
  map (fun participant =>
         participantCreate w participant (getParticipantCost participant event)
                           (VastraEvent.id event))
      travellers.

(** Storing a traveller of the request fails: the travellers before it were
    written, and the write of the next one is refused. *)
Definition insertFails (w : World.t) (event : VastraEvent.t)
           (travellers : list ParticipantInput.t) (db : Prisma.t) : Prop :=
  exists earlier p later dbk written,
    travellers = (earlier ++ p :: later)%list
    /\ runAll (signupWrites w event earlier) db = Some (dbk, written)
    /\ World.participantCreateFails w dbk p = true.

(** A participant row stored for a traveller of an event. *)
Definition storedFor (event : VastraEvent.t) (input : ParticipantInput.t)
           (row : Participant.t) : Prop :=
  Participant.name row = ParticipantInput.name input
  /\ Participant.email row = ParticipantInput.email input
  /\ Participant.phone row = ParticipantInput.phone input
  /\ Participant.busId row = ParticipantInput.busId input
  /\ Participant.member row = ParticipantInput.member input
  /\ Participant.youth row = ParticipantInput.youth input
  /\ Participant.payAmount row = getParticipantCost input event
  /\ Participant.eventId row = VastraEvent.id event.

(** The resource a gateway reply names: its location and the id that is
    the location's last path segment. *)
Definition createdResource (r : Gateway.Reply) : option (string * string) :=
  match r with
  | Gateway.Accepted (Some url) =>
      option_map (fun id => (url, id)) (JS.pop (JS.split "/"%char url))
  | _ => None
  end.

(** The gateway payload of a signup. *)
Definition signupPayload (w : World.t) (event : VastraEvent.t)
           (payer : ParticipantInput.t) (travellers : list ParticipantInput.t)
  : PaymentIntent.t :=
  World.createPaymentIntentPayload w
    (signupMessage event (List.length travellers))
    (ParticipantInput.phone payer) (calculateCost travellers event)
    "swishEventCallback".

(** The ways a signup can go. *)
Inductive SignupRun (w : World.t) (input : SignupInput.t) (db : Prisma.t)
  : Outcome string -> Prop :=
| SignupRefused :
    SignupInput.participants input = [] ->
    SignupRun w input db (throw db [] TRPC.BAD_REQUEST None)
| SignupNoEvent payer rest :
    SignupInput.participants input = payer :: rest ->
    find (fun e => String.eqb (VastraEvent.id e) (SignupInput.eventId input))
         (Prisma.vastraEvent db) = None ->
    SignupRun w input db (throw db [] TRPC.BAD_REQUEST (Some "Event not found"))
| SignupRolledBack payer rest event :
    SignupInput.participants input = payer :: rest ->
    find (fun e => String.eqb (VastraEvent.id e) (SignupInput.eventId input))
         (Prisma.vastraEvent db) = Some event ->
    insertFails w event (SignupInput.participants input) db ->
    SignupRun w input db
      (throw db [ConsoleError "Error creating payment request"]
             TRPC.INTERNAL_SERVER_ERROR None)
| SignupGatewayFailed payer rest event db1 created :
    SignupInput.participants input = payer :: rest ->
    find (fun e => String.eqb (VastraEvent.id e) (SignupInput.eventId input))
         (Prisma.vastraEvent db) = Some event ->
    runAll (signupWrites w event (SignupInput.participants input)) db
    = Some (db1, created) ->
    createdResource
      (World.createPaymentRequest w
         (signupPayload w event payer (SignupInput.participants input))) = None ->
    SignupRun w input db
      (throw db1
         [PaymentRequested (signupPayload w event payer (SignupInput.participants input));
          ConsoleError "Error creating payment request"]
         TRPC.INTERNAL_SERVER_ERROR None)
| SignupCreated payer rest event db1 created url paymentId :
    SignupInput.participants input = payer :: rest ->
    find (fun e => String.eqb (VastraEvent.id e) (SignupInput.eventId input))
         (Prisma.vastraEvent db) = Some event ->
    runAll (signupWrites w event (SignupInput.participants input)) db
    = Some (db1, created) ->
    createdResource
      (World.createPaymentRequest w
         (signupPayload w event payer (SignupInput.participants input)))
    = Some (url, paymentId) ->
    SignupRun w input db
      (mkOutcome
         (insertSwishPayment
            (SwishPayment.mk (Prisma.nextId db1) paymentId url None
               (ParticipantInput.phone payer)
               (PaymentIntent.payeeAlias
                  (signupPayload w event payer (SignupInput.participants input)))
               (calculateCost (SignupInput.participants input) event)
               (signupMessage event (List.length (SignupInput.participants input)))
               SwishPaymentStatus.CREATED None None (World.now w) (World.now w)
               (map Participant.id created))
            db1)
         [PaymentRequested (signupPayload w event payer (SignupInput.participants input))]
         (TRPC.Ok paymentId)).

(** The status query in the spec's words: for a resolvable token it returns
    the status, with cancellation disabled when the current time is not
    before the 48-hour cutoff or already past departure. *)
Definition cancellableStatusAsClaimed (w : World.t) (token : nat) (db : Prisma.t)
  : Prop :=
  forall participant event,
    find (fun p => Nat.eqb (Participant.cancellationToken p) token)
         (Prisma.participant db) = Some participant ->
    eventOf db participant = Some event ->
    exists c,
      result (getCancellableParticipant w token db) = TRPC.Ok c
      /\ Cancellable.hasCancelled c
         = existsb isPaidRefund (swishRefundsOf db participant)
      /\ Cancellable.cancellationDisabled c
         = (negb (World.now w <? VastraEvent.date event - 172800000)
            || (VastraEvent.date event <? World.now w)).

(** What every handler keeps true of the ledger. *)
Definition ledgerInvariant (db : Prisma.t) : Prop :=
  linksResolve db /\ linksDistinct db /\ idsFresh db.

(** The count a bus is returned with is the number of stored participants
    on that bus that have a PAID payment request and no PAID refund
    request. *)
Definition countsPaidPassengers (db : Prisma.t) (b : BusWithCount.t) : Prop :=
  exists keep,
    BusWithCount.count_passengers b
    = Z.of_nat (List.length (filter keep (Prisma.participant db)))
    /\ forall p,
        keep p = true
        <-> Participant.busId p = Bus.id (BusWithCount.bus b)
            /\ hasPaidPayment db p /\ ~ hasPaidRefund db p.

(** The ledgers the handlers can produce from one without bookings. *)
Inductive Reachable : Prisma.t -> Prop :=
| ReachStart events buses n :
    Reachable (Prisma.mk events buses [] [] [] n)
| ReachSignup w input db :
    Reachable db -> Reachable (prisma (requestSwishPayment w input db))
| ReachCancel w token db :
    Reachable db -> Reachable (prisma (cancelBooking w token db))
| ReachPaymentCallback w input db :
    Reachable db -> Reachable (prisma (swishPaymentCallback w input db))
| ReachRefundCallback w input db :
    Reachable db -> Reachable (prisma (swishRefundCallback w input db)).

(** The refund request cancelBooking sends for a participant's payment. *)
Definition refundDataFor (w : World.t) (event : VastraEvent.t)
           (participant : Participant.t) (payment : SwishPayment.t) : RefundData.t :=
  RefundData.mk (SwishPayment.paymentId payment)
    (World.API_URL w ++ "/payment/swishCallback")
    "1234679304" (Participant.payAmount participant) "SEK"
    (refundMessage event participant).

(** The refund request row cancelBooking stores once the gateway named the
    refund. *)
Definition refundRowFor (w : World.t) (db : Prisma.t) (event : VastraEvent.t)
           (participant : Participant.t) (payment : SwishPayment.t)
           (refundId : string) : SwishRefund.t :=
  SwishRefund.mk (Prisma.nextId db) refundId (SwishPayment.id payment)
    (SwishPayment.paymentReference payment) "1234679304"
    (SwishPayment.payerAlias payment) (Participant.payAmount participant)
    (refundMessage event participant) SwishRefundStatus.CREATED
    (World.now w) (World.now w) (Participant.id participant).

(** The ways a cancellation can go: refused before the gateway is asked,
    failed at the gateway, or refunded. *)
Inductive CancelRun (w : World.t) (token : nat) (db : Prisma.t)
  : Outcome string -> Prop :=
| CancelRefused code message :
    CancelRun w token db (throw db [] code message)
| CancelGatewayFailed participant event payment :
    find (fun p => Nat.eqb (Participant.cancellationToken p) token)
         (Prisma.participant db) = Some participant ->
    eventOf db participant = Some event ->
    find isPaidPayment (swishPaymentsOf db participant) = Some payment ->
    createdResource
      (World.createRefundRequest w (refundDataFor w event participant payment))
    = None ->
    CancelRun w token db
      (throw db [RefundRequested (refundDataFor w event participant payment);
                 ConsoleError "Error creating refund request"]
             TRPC.INTERNAL_SERVER_ERROR None)
| CancelRefunded participant event payment url refundId :
    find (fun p => Nat.eqb (Participant.cancellationToken p) token)
         (Prisma.participant db) = Some participant ->
    eventOf db participant = Some event ->
    ~ (VastraEvent.date event - 172800000 <= World.now w <= VastraEvent.date event) ->
    find isPaidPayment (swishPaymentsOf db participant) = Some payment ->
    Participant.payAmount participant <> 0 ->
    createdResource
      (World.createRefundRequest w (refundDataFor w event participant payment))
    = Some (url, refundId) ->
    CancelRun w token db
      (mkOutcome
         (insertSwishRefund (refundRowFor w db event participant payment refundId) db)
         [RefundRequested (refundDataFor w event participant payment)]
         (TRPC.Ok refundId)).

(** The second ledger has the events and buses of the first and, in each
    booking table, the rows of the first, untouched and in place, followed
    by new ones. *)
Definition extends (db db' : Prisma.t) : Prop :=
  Prisma.vastraEvent db' = Prisma.vastraEvent db
  /\ Prisma.bus db' = Prisma.bus db
  /\ (exists rows, Prisma.participant db' = (Prisma.participant db ++ rows)%list)
  /\ (exists rows, Prisma.swishPayment db' = (Prisma.swishPayment db ++ rows)%list)
  /\ (exists rows, Prisma.swishRefund db' = (Prisma.swishRefund db ++ rows)%list).

(** The second ledger is what some sequence of handler calls makes of the
    first. *)
Inductive Later (db : Prisma.t) : Prisma.t -> Prop :=
| LaterNow : Later db db
| LaterSignup w input db' :
    Later db db' -> Later db (prisma (requestSwishPayment w input db'))
| LaterCancel w token db' :
    Later db db' -> Later db (prisma (cancelBooking w token db'))
| LaterPaymentCallback w input db' :
    Later db db' -> Later db (prisma (swishPaymentCallback w input db'))
| LaterRefundCallback w input db' :
    Later db db' -> Later db (prisma (swishRefundCallback w input db')).

(** ** publicRouter.getStartPage *)

Module StartPage.
Record t := mk {
  memberCount : Z;
  upcomingEvent : option AwayGame.t
}.
End StartPage.

(** [memberCount] is what [getCardSkipperMemberCount()] of
    ~/server/utils/cardSkipper answered. *)
Definition getStartPage (memberCount : Z) (w : World.t) (db : Prisma.t)
  : Outcome StartPage.t :=
  match find (fun e => DateFns.subHours (World.now w) 8 <=? VastraEvent.date e)
             (Prisma.vastraEvent db) with
  | None => mkOutcome db [] (TRPC.Ok (StartPage.mk memberCount None))
  | Some upcomingEvent =>
      mkOutcome db []
        (TRPC.Ok (StartPage.mk memberCount
                    (Some (withSeatCounts upcomingEvent
                             (busesWithPaidPassengers db upcomingEvent)))))
  end.

(** ** AwayGameForm: the passenger forms of a signup *)

Module AwayGameForm.

(** The [passengers] state: the index of each passenger form shown,
    initially [[{ index: 0 }]]. *)
Definition initialPassengers : list nat := [0%nat].

(** "Lägg till passagerare":
    [setPassengers([...passengers, { index: passengers.length + 1 }])]. *)
Definition addPassenger (passengers : list nat) : list nat :=
  (passengers ++ [List.length passengers + 1])%nat%list.

(** [onRemove(x)]: [setPassengers(passengers.filter((p) => p.index !== x))]. *)
Definition removePassenger (x : nat) (passengers : list nat) : list nat :=
  filter (fun index => negb (Nat.eqb index x)) passengers.

(** The remove button is rendered for [index > 0] only. *)
Definition removable (index : nat) : bool := Nat.ltb 0 index.

End AwayGameForm.

(** ** The start page of the trips: the button under a game *)

Module Home.

Inductive button := SignUp | FullyBooked | AlreadyDeparted.

(** The three conditional buttons of a game card, in the order they are
    rendered; [gameExpired] is [isAfter(new Date(), game.date)]. *)
Definition buttons (now : Z) (game : AwayGame.t) : list button :=
  let gameExpired := VastraEvent.date (AwayGame.event game) <? now in
  ((if AwayGame.bookedSeats game <? AwayGame.maxSeats game then [SignUp] else [])
     ++ (if (AwayGame.maxSeats game <=? AwayGame.bookedSeats game) && negb gameExpired
         then [FullyBooked] else [])
     ++ (if gameExpired then [AlreadyDeparted] else []))%list.

End Home.

(** ** wordpressRouter: excerpts and away guides *)

Module Wordpress.

(** What follows the first [>] of a string, if it has one. *)
Fixpoint afterGt (s : string) : option string :=
  match s with
  | EmptyString => None
  | String c rest => if Ascii.eqb c ">"%char then Some rest else afterGt rest
  end.

(** A match of [<([^>]+)>] at the start of a string: an opening bracket, at
    least one character that is not a closing bracket, and the first
    closing bracket after them.  The value is what follows the match. *)
Definition matchTag (s : string) : option string :=
  match s with
  | String c (String d rest) =>
      if Ascii.eqb c "<"%char && negb (Ascii.eqb d ">"%char)
      then afterGt rest
      else None
  | _ => None
  end.

(** [s.replace(/(<([^>]+)>)/gi, "")]: from left to right, a match is dropped
    and the search goes on behind it; where nothing matches the character
    is kept.  [fuel] bounds the steps and is the length of the input. *)
Fixpoint replaceTags (fuel : nat) (s : string) : string :=
  match fuel with
  | O => s
  | S fuel' =>
      match matchTag s with
      | Some rest => replaceTags fuel' rest
      | None =>
          match s with
          | EmptyString => EmptyString
          | String c rest => String c (replaceTags fuel' rest)
          end
      end
  end.

Definition stripHtmlTags (html : string) : string :=
  replaceTags (String.length html) html.

(** [stripHtmlTags(text).split(".").splice(0, n).join(" ") + "."]: the
    excerpt of a chronicle ([n] = 3) or of a news post ([n] = 4). *)
Definition excerpt (n : nat) (text : string) : string :=
  (String.concat " " (firstn n (JS.split "."%char (stripHtmlTags text))) ++ ".")%string.

Record AwayGuide := mkGuide {
  slug : string;
  sport : string;
  division : string
}.

(** One answer of the content system to GetAwayGuidesDocument. *)
Record Page := mkPage {
  nodes : list AwayGuide;
  hasNextPage : bool;
  endCursor : option string
}.

(** The [while (hasNextPage)] loop: [query] answers for the cursor it is
    given; [None] when [fuel] pages did not reach the last one. *)
Fixpoint fetchMore (fuel : nat) (query : option string -> Page)
         (guides : list AwayGuide) (hasNextPage : bool) (endCursor : option string)
  : option (list AwayGuide) :=
  if hasNextPage
  then match fuel with
       | O => None
       | S fuel' =>
           let nextPage := query endCursor in
           fetchMore fuel' query (guides ++ nodes nextPage)%list
                     (Wordpress.hasNextPage nextPage) (Wordpress.endCursor nextPage)
       end
  else Some guides.

(** [divisions.map((division) => ({ division, guides: guides.filter(...) }))
    .filter((division) => division.guides.length > 0)]. *)
Definition byDivision (divisions : list string) (guides : list AwayGuide)
  : list (string * list AwayGuide) :=
  filter (fun group => Nat.ltb 0 (List.length (snd group)))
         (map (fun d => (d, filter (fun guide => String.eqb (division guide) d) guides))
              divisions).

Record AwayGuides := mkAwayGuides {
  fotball : list (string * list AwayGuide);
  bandy : list (string * list AwayGuide);
  slugs : list string
}.

(** getAwayGuides.  [first] is the answer to the query without a cursor;
    [fotballDivisions] and [bandyDivisions] are the lists of
    ~/server/utils/awayGuideSorter, which is not among the sources. *)
Definition getAwayGuides (fuel : nat) (query : option string -> Page)
           (fotballDivisions bandyDivisions : list string)
  : option AwayGuides :=
  let res := query None in
  match fetchMore fuel query (nodes res) (hasNextPage res) (endCursor res) with
  | None => None
  | Some guides =>
      let fotballGuides := filter (fun guide => String.eqb (sport guide) "Fotboll") guides in
      let bandyGuides := filter (fun guide => String.eqb (sport guide) "Bandy") guides in
      Some (mkAwayGuides (byDivision fotballDivisions fotballGuides)
                         (byDivision bandyDivisions bandyGuides)
                         (map slug (nodes res)))
  end.

End Wordpress.

(** No tag starts anywhere in the string. *)
Fixpoint tagFree (s : string) : Prop :=
  Wordpress.matchTag s = None
  /\ match s with
     | EmptyString => True
     | String _ rest => tagFree rest
     end.

(** The pages the content system serves when the cursor of each page is
    followed [k] times from [page]. *)
Fixpoint pagesFrom (k : nat) (query : option string -> Wordpress.Page)
         (page : Wordpress.Page) : list Wordpress.Page :=
  page :: match k with
          | O => []
          | S k' => pagesFrom k' query (query (Wordpress.endCursor page))
          end.

(** Following the cursors from [page], the page reached after [k] steps is
    the first that announces no next page. *)
Fixpoint endsAfter (k : nat) (query : option string -> Wordpress.Page)
         (page : Wordpress.Page) : bool :=
  match k with
  | O => negb (Wordpress.hasNextPage page)
  | S k' => Wordpress.hasNextPage page
            && endsAfter k' query (query (Wordpress.endCursor page))
  end.

(** * Lemmas *)

Section Lists.

Context {A : Type}.

Lemma fold_left_add_sumZ (f : A -> Z) (l : list A) (a : Z) :
  fold_left (fun acc x => acc + f x) l a = a + sumZ (map f l).
Proof.
  revert a; induction l as [|x l IH]; intros a; simpl.
  - lia.
  - rewrite IH. lia.
Qed.

Lemma find_app_some (f : A -> bool) (l l' : list A) (x : A) :
  find f l = Some x -> find f (l ++ l') = Some x.
Proof.
  induction l as [|y l IH]; simpl; [discriminate|].
  destruct (f y); auto.
Qed.

Lemma hd_error_rev_snoc (l : list A) (x : A) :
  hd_error (rev (l ++ [x])) = Some x.
Proof. rewrite rev_app_distr. reflexivity. Qed.

End Lists.

Lemma calculateCost_sum (participants : list ParticipantInput.t)
      (event : VastraEvent.t) :
  calculateCost participants event
  = sumZ (map (fun p => getParticipantCost p event) participants).
Proof. unfold calculateCost. rewrite fold_left_add_sumZ. lia. Qed.

(** What a committed run of the signup writes leaves behind. *)
Lemma runAll_signupWrites (w : World.t) (event : VastraEvent.t) :
  forall travellers db db' created,
    runAll (signupWrites w event travellers) db = Some (db', created) ->
    Prisma.participant db' = (Prisma.participant db ++ created)%list
    /\ Prisma.vastraEvent db' = Prisma.vastraEvent db
    /\ Prisma.bus db' = Prisma.bus db
    /\ Prisma.swishPayment db' = Prisma.swishPayment db
    /\ Prisma.swishRefund db' = Prisma.swishRefund db
    /\ Prisma.nextId db' = (Prisma.nextId db + List.length travellers)%nat
    /\ map Participant.id created
       = seq (Prisma.nextId db) (List.length travellers)
    /\ Forall2 (storedFor event) travellers created.
Proof.
  induction travellers as [|p rest IH]; intros db db' created H; simpl in H.
  - inversion H; subst. rewrite app_nil_r, Nat.add_0_r.
    repeat split; constructor.
  - unfold participantCreate in H at 1.
    destruct (World.participantCreateFails w db p); [discriminate|].
    fold (signupWrites w event rest) in H.
    destruct (runAll (signupWrites w event rest) _) as [[db2 l]|] eqn:E;
      [|discriminate].
    inversion H; subst; clear H.
    apply IH in E.
    destruct E as (Hp & He & Hb & Hs & Hr & Hn & Hi & Hf). simpl in *.
    rewrite Hp, He, Hb, Hs, Hr, Hn, Hi, <- app_assoc. simpl.
    repeat split; try reflexivity; try lia.
    constructor; [|exact Hf]. repeat split.
Qed.

(** The signup transaction is refused exactly when storing some traveller
    fails. *)
Lemma runAll_signupWrites_None (w : World.t) (event : VastraEvent.t) :
  forall travellers db,
    runAll (signupWrites w event travellers) db = None
    <-> insertFails w event travellers db.
Proof.
  induction travellers as [|p rest IH]; intros db.
  - split; [discriminate|].
    intros (earlier & q & later & _ & _ & H & _).
    destruct earlier; discriminate.
  - simpl. unfold participantCreate at 1.
    destruct (World.participantCreateFails w db p) eqn:F.
    + split; [intros _|reflexivity].
      exists [], p, rest, db, []. repeat split; assumption.
    + fold (signupWrites w event rest).
      set (row := Participant.mk _ _ _ _ _ _ _ _ _ _ _).
      destruct (runAll (signupWrites w event rest) (insertParticipant row db))
        as [[db2 l]|] eqn:E.
      * split; [discriminate|].
        intros (earlier & q & later & dbk & written & Hl & Hr & Hf).
        destruct earlier as [|e earlier]; simpl in Hl; inversion Hl; subst.
        { simpl in Hr. inversion Hr; subst. congruence. }
        simpl in Hr. unfold participantCreate in Hr at 1. rewrite F in Hr.
        fold (signupWrites w event earlier) in Hr. fold row in Hr.
        destruct (runAll (signupWrites w event earlier) _) as [[dbj lj]|] eqn:Ej;
          [|discriminate].
        inversion Hr; subst.
        assert (insertFails w event (earlier ++ q :: later)
                            (insertParticipant row db)) as Hfail
            by (exists earlier, q, later, dbk, lj; auto).
        apply IH in Hfail. congruence.
      * split; [intros _|reflexivity].
        apply IH in E.
        destruct E as (earlier & q & later & dbk & written & Hl & Hr & Hf).
        exists (p :: earlier), q, later, dbk, (row :: written).
        subst rest. split; [reflexivity|]. split; [|exact Hf].
        simpl. unfold participantCreate at 1. rewrite F.
        fold (signupWrites w event earlier). fold row. rewrite Hr. reflexivity.
Qed.

(** Every signup goes one of the five ways. *)
Lemma requestSwishPayment_run (w : World.t) (input : SignupInput.t) (db : Prisma.t) :
  SignupRun w input db (requestSwishPayment w input db).
Proof.
  unfold requestSwishPayment.
  destruct (SignupInput.participants input) as [|payer rest] eqn:Hp.
  - now apply SignupRefused.
  - destruct (find _ (Prisma.vastraEvent db)) as [event|] eqn:He.
    + rewrite <- Hp.
      fold (signupWrites w event (SignupInput.participants input)).
      fold (signupPayload w event payer (SignupInput.participants input)).
      unfold transaction.
      destruct (runAll _ db) as [[db1 created]|] eqn:Hr.
      * destruct (World.createPaymentRequest w _) as [|[url|]] eqn:Hg.
        -- eapply SignupGatewayFailed; eauto. now rewrite Hg.
        -- destruct (JS.pop (JS.split "/"%char url)) as [pid|] eqn:Hpop.
           ++ eapply SignupCreated; eauto. rewrite Hg. simpl. now rewrite Hpop.
           ++ eapply SignupGatewayFailed; eauto. rewrite Hg. simpl. now rewrite Hpop.
        -- eapply SignupGatewayFailed; eauto. now rewrite Hg.
      * eapply SignupRolledBack; eauto.
        now apply runAll_signupWrites_None.
    + eapply SignupNoEvent; eauto.
Qed.

Lemma storedFor_payAmount (event : VastraEvent.t) :
  forall travellers created,
    Forall2 (storedFor event) travellers created ->
    map Participant.payAmount created
    = map (fun p => getParticipantCost p event) travellers.
Proof.
  induction 1 as [|p row ps rows H _ IH]; simpl; [reflexivity|].
  destruct H as (_ & _ & _ & _ & _ & _ & Hpay & _). now rewrite Hpay, IH.
Qed.

(** * Signup: cost, atomicity, gateway failure *)

(** C3. The cost of a participant follows the four-way rule on
    (youth, member): both give youthMemberPrice, youth alone youthPrice,
    member alone memberPrice, neither defaultPrice.  A signup that returns
    a payment id has stored every traveller with that cost as pay-amount,
    and the payment request row it stored carries their sum as amount. *)
Theorem signup_cost_rule_and_total :
  (forall participant event,
      getParticipantCost participant event
      = match ParticipantInput.youth participant,
              ParticipantInput.member participant with
        | true, true => VastraEvent.youthMemberPrice event
        | true, false => VastraEvent.youthPrice event
        | false, true => VastraEvent.memberPrice event
        | false, false => VastraEvent.defaultPrice event
        end)
  /\ (forall w input db paymentId,
         result (requestSwishPayment w input db) = TRPC.Ok paymentId ->
         exists event created row,
           find (fun e => String.eqb (VastraEvent.id e) (SignupInput.eventId input))
                (Prisma.vastraEvent db) = Some event
           /\ Prisma.participant (prisma (requestSwishPayment w input db))
              = (Prisma.participant db ++ created)%list
           /\ map Participant.payAmount created
              = map (fun p => getParticipantCost p event)
                    (SignupInput.participants input)
           /\ Prisma.swishPayment (prisma (requestSwishPayment w input db))
              = (Prisma.swishPayment db ++ [row])%list
           /\ SwishPayment.paymentId row = paymentId
           /\ SwishPayment.status row = SwishPaymentStatus.CREATED
           /\ SwishPayment.amount row = sumZ (map Participant.payAmount created)).
Proof.
  split.
  - intros participant event. unfold getParticipantCost.
    destruct (ParticipantInput.youth participant),
             (ParticipantInput.member participant); reflexivity.
  - intros w input db paymentId Hok.
    destruct (requestSwishPayment_run w input db)
      as [ | | | | payer rest event db1 created url pid Hp He Hr Hg ];
      try discriminate Hok.
    simpl in Hok. inversion Hok; subst pid.
    destruct (runAll_signupWrites _ _ _ _ _ _ Hr)
      as (Hpart & _ & _ & Hpay & _ & _ & _ & Hst).
    pose proof (storedFor_payAmount _ _ _ Hst) as Hamounts.
    eexists event, created, _. simpl.
    rewrite Hpart, Hpay, calculateCost_sum, Hamounts.
    repeat split; try reflexivity; assumption.
Qed.

(** The rule at the tier prices 100 / 80 / 60 / 40, and Anna (member) and
    Bo (youth) booked together for 80 + 60. *)
Lemma signup_cost_rule_and_total_witness :
  getParticipantCost (Trip.traveller "A" false false) Trip.event = 100
  /\ getParticipantCost (Trip.traveller "B" true false) Trip.event = 80
  /\ getParticipantCost (Trip.traveller "C" false true) Trip.event = 60
  /\ getParticipantCost (Trip.traveller "D" true true) Trip.event = 40
  /\ exists event created row,
      find (fun e => String.eqb (VastraEvent.id e) "e1")
           (Prisma.vastraEvent Trip.ledger) = Some event
      /\ Prisma.participant Trip.signedUp
         = (Prisma.participant Trip.ledger ++ created)%list
      /\ map Participant.payAmount created
         = map (fun p => getParticipantCost p event) [Trip.anna; Trip.bo]
      /\ Prisma.swishPayment Trip.signedUp
         = (Prisma.swishPayment Trip.ledger ++ [row])%list
      /\ SwishPayment.paymentId row = "P1"
      /\ SwishPayment.status row = SwishPaymentStatus.CREATED
      /\ SwishPayment.amount row = sumZ (map Participant.payAmount created).
Proof.
  repeat (split; [apply (proj1 signup_cost_rule_and_total)|]).
  apply (proj2 signup_cost_rule_and_total
               (Trip.world Trip.signupTime "P1") Trip.signup Trip.ledger "P1").
  vm_compute. reflexivity.
Defined.

(** C4. A signup for an existing event stores its travellers all or
    nothing: the participant table afterwards is the one before followed by
    exactly one new row per traveller, or it is the one before; and when
    storing any traveller fails, also after earlier ones were written, no
    row of the request is kept and the caller gets an internal error. *)
Theorem requestSwishPayment_all_or_nothing :
  forall w input db event,
    find (fun e => String.eqb (VastraEvent.id e) (SignupInput.eventId input))
         (Prisma.vastraEvent db) = Some event ->
    (Prisma.participant (prisma (requestSwishPayment w input db))
     = Prisma.participant db
     \/ exists created,
         Prisma.participant (prisma (requestSwishPayment w input db))
         = (Prisma.participant db ++ created)%list
         /\ List.length created = List.length (SignupInput.participants input)
         /\ Forall2 (storedFor event) (SignupInput.participants input) created)
    /\ (insertFails w event (SignupInput.participants input) db ->
        prisma (requestSwishPayment w input db) = db
        /\ result (requestSwishPayment w input db)
           = TRPC.Throw (TRPC.mkError TRPC.INTERNAL_SERVER_ERROR None)).
Proof.
  intros w input db event He.
  destruct (requestSwishPayment_run w input db)
    as [ Hp | payer rest Hp He' | payer rest ev Hp He' Hf
       | payer rest ev db1 created Hp He' Hr Hg
       | payer rest ev db1 created url pid Hp He' Hr Hg ];
    try (rewrite He in He'; inversion He'; subst ev); simpl.
  - split; [now left|].
    intros (earlier & p & later & _ & _ & Hl & _).
    rewrite Hp in Hl. destruct earlier; discriminate.
  - split; [now left|]. intros _. split; reflexivity.
  - destruct (runAll_signupWrites _ _ _ _ _ _ Hr)
      as (Hpart & _ & _ & _ & _ & _ & _ & Hst).
    split.
    + right. exists created. repeat split; try assumption.
      symmetry. eapply Forall2_length; eauto.
    + intros Hf. apply runAll_signupWrites_None in Hf. congruence.
  - destruct (runAll_signupWrites _ _ _ _ _ _ Hr)
      as (Hpart & _ & _ & _ & _ & _ & _ & Hst).
    split.
    + right. exists created. repeat split; try assumption.
      symmetry. eapply Forall2_length; eauto.
    + intros Hf. apply runAll_signupWrites_None in Hf. congruence.
Qed.

(** Anna and Bo sign up and storing Bo, the last traveller, fails: Anna's
    row, written first, is not kept. *)
Lemma requestSwishPayment_all_or_nothing_witness :
  prisma (requestSwishPayment (Trip.worldInsertFails Trip.signupTime "Bo")
                              Trip.signup Trip.ledger) = Trip.ledger
  /\ result (requestSwishPayment (Trip.worldInsertFails Trip.signupTime "Bo")
                                 Trip.signup Trip.ledger)
     = TRPC.Throw (TRPC.mkError TRPC.INTERNAL_SERVER_ERROR None).
Proof.
  apply (proj2 (requestSwishPayment_all_or_nothing
                  (Trip.worldInsertFails Trip.signupTime "Bo")
                  Trip.signup Trip.ledger Trip.event eq_refl)).
  eexists [Trip.anna], Trip.bo, [], _, _.
  split; [reflexivity|]. split; [vm_compute; reflexivity|reflexivity].
Defined.

(** C8. When the payment gateway is called for a signup and the call fails,
    the travellers stored just before stay in the ledger, one row each, no
    payment request row is stored, and the caller gets an internal error
    and no payment id.  When the event of a validated signup does not
    exist, the signup is refused as "Event not found" and the ledger is
    untouched: nothing was stored and the gateway was not called. *)
Theorem requestSwishPayment_failures :
  forall w input db,
    (forall data,
        In (PaymentRequested data) (effects (requestSwishPayment w input db)) ->
        World.createPaymentRequest w data = Gateway.Rejected ->
        exists event created,
          find (fun e => String.eqb (VastraEvent.id e) (SignupInput.eventId input))
               (Prisma.vastraEvent db) = Some event
          /\ Prisma.participant (prisma (requestSwishPayment w input db))
             = (Prisma.participant db ++ created)%list
          /\ Forall2 (storedFor event) (SignupInput.participants input) created
          /\ Prisma.swishPayment (prisma (requestSwishPayment w input db))
             = Prisma.swishPayment db
          /\ result (requestSwishPayment w input db)
             = TRPC.Throw (TRPC.mkError TRPC.INTERNAL_SERVER_ERROR None))
    /\ (SignupInput.participants input <> [] ->
        find (fun e => String.eqb (VastraEvent.id e) (SignupInput.eventId input))
             (Prisma.vastraEvent db) = None ->
        prisma (requestSwishPayment w input db) = db
        /\ effects (requestSwishPayment w input db) = []
        /\ result (requestSwishPayment w input db)
           = TRPC.Throw (TRPC.mkError TRPC.BAD_REQUEST (Some "Event not found"))).
Proof.
  intros w input db.
  destruct (requestSwishPayment_run w input db)
    as [ Hp | payer rest Hp He | payer rest ev Hp He Hf
       | payer rest ev db1 created Hp He Hr Hg
       | payer rest ev db1 created url pid Hp He Hr Hg ]; simpl.
  - split; [intros data []|]. intros Hne. contradiction.
  - split; [intros data []|]. intros _ _. repeat split.
  - split; [intros data [H|[]]; discriminate|].
    intros _ Hnone. congruence.
  - split; [|intros _ Hnone; congruence].
    intros data _ _.
    destruct (runAll_signupWrites _ _ _ _ _ _ Hr)
      as (Hpart & _ & _ & Hpay & _ & _ & _ & Hst).
    exists ev, created. repeat split; assumption.
  - split; [|intros _ Hnone; congruence].
    intros data [Hd|[]] Hrej. inversion Hd; subst data.
    rewrite Hrej in Hg. discriminate.
Qed.

(** Anna and Bo sign up while the gateway is down: both rows stay, there is
    no payment row, the error is internal.  The same signup for an event
    the ledger does not have is refused before anything is stored. *)
Lemma requestSwishPayment_failures_witness :
  (exists event created,
      find (fun e => String.eqb (VastraEvent.id e) "e1")
           (Prisma.vastraEvent Trip.ledger) = Some event
      /\ Prisma.participant
           (prisma (requestSwishPayment (Trip.worldGatewayDown Trip.signupTime)
                                        Trip.signup Trip.ledger))
         = (Prisma.participant Trip.ledger ++ created)%list
      /\ Forall2 (storedFor event) [Trip.anna; Trip.bo] created
      /\ Prisma.swishPayment
           (prisma (requestSwishPayment (Trip.worldGatewayDown Trip.signupTime)
                                        Trip.signup Trip.ledger))
         = Prisma.swishPayment Trip.ledger
      /\ result (requestSwishPayment (Trip.worldGatewayDown Trip.signupTime)
                                     Trip.signup Trip.ledger)
         = TRPC.Throw (TRPC.mkError TRPC.INTERNAL_SERVER_ERROR None))
  /\ (prisma (requestSwishPayment (Trip.world Trip.signupTime "P1")
                (SignupInput.mk [Trip.anna; Trip.bo] "e2") Trip.ledger)
      = Trip.ledger
      /\ effects (requestSwishPayment (Trip.world Trip.signupTime "P1")
                    (SignupInput.mk [Trip.anna; Trip.bo] "e2") Trip.ledger) = []
      /\ result (requestSwishPayment (Trip.world Trip.signupTime "P1")
                   (SignupInput.mk [Trip.anna; Trip.bo] "e2") Trip.ledger)
         = TRPC.Throw (TRPC.mkError TRPC.BAD_REQUEST (Some "Event not found"))).
Proof.
  split.
  - apply (proj1 (requestSwishPayment_failures
                    (Trip.worldGatewayDown Trip.signupTime) Trip.signup Trip.ledger)
                 (signupPayload (Trip.worldGatewayDown Trip.signupTime)
                                Trip.event Trip.anna [Trip.anna; Trip.bo])).
    + left. vm_compute. reflexivity.
    + reflexivity.
  - apply (proj2 (requestSwishPayment_failures
                    (Trip.world Trip.signupTime "P1")
                    (SignupInput.mk [Trip.anna; Trip.bo] "e2") Trip.ledger)).
    + discriminate.
    + reflexivity.
Defined.

(** * Cancellation *)

Lemma subDays_two (date : Z) : DateFns.subDays date 2 = date - 172800000.
Proof. unfold DateFns.subDays, DateFns.msPerDay, DateFns.msPerHour. lia. Qed.

Lemma isWithinInterval_two_days (today date : Z) :
  DateFns.isWithinInterval today (DateFns.subDays date 2) date
  = Some ((date - 172800000 <=? today) && (today <=? date)).
Proof.
  unfold DateFns.isWithinInterval. rewrite subDays_two.
  destruct (date <? date - 172800000) eqn:E; [|reflexivity].
  apply Z.ltb_lt in E. lia.
Qed.

(** X1. cancelBooking refuses an attempt as too late exactly from 48 hours
    before departure up to and including the departure itself. *)
Lemma cancelBooking_too_late_iff (w : World.t) (token : nat) (db : Prisma.t)
      (participant : Participant.t) (event : VastraEvent.t) :
  find (fun p => Nat.eqb (Participant.cancellationToken p) token)
       (Prisma.participant db) = Some participant ->
  eventOf db participant = Some event ->
  result (cancelBooking w token db)
  = TRPC.Throw (TRPC.mkError TRPC.BAD_REQUEST (Some "Du kan inte avboka inom 48h"))
  <-> VastraEvent.date event - 172800000 <= World.now w <= VastraEvent.date event.
Proof.
  intros Hp He. unfold cancelBooking. rewrite Hp, He, isWithinInterval_two_days.
  destruct (VastraEvent.date event - 172800000 <=? World.now w) eqn:E1;
    destruct (World.now w <=? VastraEvent.date event) eqn:E2; simpl;
    try (apply Z.leb_le in E1); try (apply Z.leb_le in E2);
    try (apply Z.leb_gt in E1); try (apply Z.leb_gt in E2).
  1: split; [lia|reflexivity].
  all: split; [|lia]; intros H; exfalso;
    destruct (find isPaidPayment _); try discriminate H;
    destruct (Participant.payAmount participant =? 0); try discriminate H;
    destruct (World.createRefundRequest w _) as [|[url|]]; try discriminate H;
    simpl in H; destruct (JS.pop _); discriminate H.
Qed.

(** C1. An attempt made one millisecond after departure, by a participant
    with a PAID payment request and a pay-amount of 60, is not refused as
    too late: cancelBooking asks the gateway for the refund, stores the
    refund request and returns its id.  On the same ledger the attempt at
    exactly 48 hours before departure is refused and the attempt one
    second earlier is accepted. *)
Theorem cancelBooking_after_departure :
  result (cancelBooking (Trip.world (Trip.departure + 1) "R1") 1 Trip.paid)
  = TRPC.Ok "R1"
  /\ map SwishRefund.amount
         (Prisma.swishRefund
            (prisma (cancelBooking (Trip.world (Trip.departure + 1) "R1") 1 Trip.paid)))
     = [60]
  /\ result (cancelBooking (Trip.world (Trip.departure - 172800000) "R1") 1 Trip.paid)
     = TRPC.Throw (TRPC.mkError TRPC.BAD_REQUEST (Some "Du kan inte avboka inom 48h"))
  /\ result (cancelBooking (Trip.world (Trip.departure - 172800000 - 1000) "R1") 1 Trip.paid)
     = TRPC.Ok "R1".
Proof. vm_compute. repeat split. Qed.

(** C10. A participant whose stored pay-amount is 0 never gets a refund
    from cancelBooking: the call is refused, the ledger is untouched and
    the gateway is not asked.  When the cancellation window is open the
    refusal is "Payment not found", whether or not the participant has a
    PAID payment request. *)
Theorem cancelBooking_zero_payAmount :
  forall w token db participant,
    find (fun p => Nat.eqb (Participant.cancellationToken p) token)
         (Prisma.participant db) = Some participant ->
    Participant.payAmount participant = 0 ->
    (prisma (cancelBooking w token db) = db
     /\ effects (cancelBooking w token db) = []
     /\ exists e, result (cancelBooking w token db) = TRPC.Throw e)
    /\ (forall event,
           eventOf db participant = Some event ->
           World.now w < VastraEvent.date event - 172800000
           \/ VastraEvent.date event < World.now w ->
           result (cancelBooking w token db)
           = TRPC.Throw (TRPC.mkError TRPC.BAD_REQUEST (Some "Payment not found"))).
Proof.
  intros w token db participant Hp Hzero.
  unfold cancelBooking. rewrite Hp, Hzero.
  destruct (eventOf db participant) as [event|].
  - rewrite isWithinInterval_two_days.
    destruct ((VastraEvent.date event - 172800000 <=? World.now w)
              && (World.now w <=? VastraEvent.date event)) eqn:E.
    + split; [repeat split; eexists; reflexivity|].
      intros ev Hev Hopen. inversion Hev; subst ev.
      apply andb_true_iff in E. destruct E as [E1 E2].
      apply Z.leb_le in E1. apply Z.leb_le in E2. lia.
    + destruct (find isPaidPayment _); simpl.
      * split; [repeat split; eexists; reflexivity|]. intros; reflexivity.
      * split; [repeat split; eexists; reflexivity|]. intros; reflexivity.
  - split; [repeat split; eexists; reflexivity|]. intros ev Hev. discriminate.
Qed.

(** Bo travels for free and has paid; a minute before the cutoff his
    cancellation is refused with "Payment not found". *)
Lemma cancelBooking_zero_payAmount_witness :
  existsb isPaidPayment
          (swishPaymentsOf Trip.freePaid
             (Trip.boRow 0)) = true
  /\ (prisma (cancelBooking (Trip.world (Trip.cutoff - 60000) "R1") 1 Trip.freePaid)
      = Trip.freePaid
      /\ effects (cancelBooking (Trip.world (Trip.cutoff - 60000) "R1") 1 Trip.freePaid)
         = []
      /\ exists e,
          result (cancelBooking (Trip.world (Trip.cutoff - 60000) "R1") 1 Trip.freePaid)
          = TRPC.Throw e)
  /\ result (cancelBooking (Trip.world (Trip.cutoff - 60000) "R1") 1 Trip.freePaid)
     = TRPC.Throw (TRPC.mkError TRPC.BAD_REQUEST (Some "Payment not found")).
Proof.
  split; [vm_compute; reflexivity|].
  pose proof (cancelBooking_zero_payAmount
                (Trip.world (Trip.cutoff - 60000) "R1") 1 Trip.freePaid
                (Trip.boRow 0)
                eq_refl eq_refl) as [H1 H2].
  split; [exact H1|].
  apply (H2 Trip.freeEvent eq_refl).
  left. vm_compute. reflexivity.
Defined.

Lemma existsb_isPaidRefund (db : Prisma.t) (p : Participant.t) :
  existsb isPaidRefund (swishRefundsOf db p) = true <-> hasPaidRefund db p.
Proof.
  unfold hasPaidRefund, swishRefundsOf. rewrite existsb_exists.
  split; intros (r & H1 & H2).
  - apply filter_In in H1. destruct H1 as [Hin Hid].
    apply Nat.eqb_eq in Hid. exists r. repeat split; try assumption.
    unfold isPaidRefund in H2. destruct (SwishRefund.status r); now try discriminate.
  - destruct H2 as [Hid Hst]. exists r. split.
    + apply filter_In. split; [assumption|]. now apply Nat.eqb_eq.
    + unfold isPaidRefund. now rewrite Hst.
Qed.

(** C9, as stated, fails: Bo's token resolves and Bo has paid, but one
    millisecond after departure the query throws instead of returning a
    status with cancellation disabled. *)
Lemma getCancellableParticipant_past_departure :
  find (fun p => Nat.eqb (Participant.cancellationToken p) 1)
       (Prisma.participant Trip.paid)
  = Some (Trip.boRow 60)
  /\ result (getCancellableParticipant (Trip.world (Trip.departure + 1) "") 1 Trip.paid)
     = TRPC.Throw (TRPC.mkError TRPC.BAD_REQUEST
                                (Some "Can't cancel within 48 hours of departure"))
  /\ ~ cancellableStatusAsClaimed (Trip.world (Trip.departure + 1) "") 1 Trip.paid.
Proof.
  split; [vm_compute; reflexivity|]. split; [vm_compute; reflexivity|].
  intros H.
  destruct (H (Trip.boRow 60)
              Trip.event eq_refl eq_refl) as (c & Hc & _).
  vm_compute in Hc. discriminate Hc.
Qed.

(** C9, amended. For a resolvable token getCancellableParticipant leaves
    the ledger alone and has no effect outside.  Without a PAID payment
    request of the participant it fails with "Payment not found"; past the
    departure it fails with "Can't cancel within 48 hours of departure";
    otherwise it returns a status that names the participant's PAID
    payment request, with hasCancelled exactly when a refund request of
    the participant has status PAID, and cancellationDisabled exactly when
    the current time is not before the cutoff 48 hours ahead of
    departure. *)
Theorem getCancellableParticipant_status :
  forall w token db participant,
    find (fun p => Nat.eqb (Participant.cancellationToken p) token)
         (Prisma.participant db) = Some participant ->
    prisma (getCancellableParticipant w token db) = db
    /\ effects (getCancellableParticipant w token db) = []
    /\ (find isPaidPayment (swishPaymentsOf db participant) = None ->
        result (getCancellableParticipant w token db)
        = TRPC.Throw (TRPC.mkError TRPC.BAD_REQUEST (Some "Payment not found")))
    /\ (forall payment event,
           find isPaidPayment (swishPaymentsOf db participant) = Some payment ->
           eventOf db participant = Some event ->
           (VastraEvent.date event < World.now w ->
            result (getCancellableParticipant w token db)
            = TRPC.Throw
                (TRPC.mkError TRPC.BAD_REQUEST
                              (Some "Can't cancel within 48 hours of departure")))
           /\ (World.now w <= VastraEvent.date event ->
               exists c,
                 result (getCancellableParticipant w token db) = TRPC.Ok c
                 /\ Cancellable.paymentId (Cancellable.who c)
                    = SwishPayment.paymentId payment
                 /\ (Cancellable.hasCancelled c = true
                     <-> hasPaidRefund db participant)
                 /\ (Cancellable.cancellationDisabled c = true
                     <-> VastraEvent.date event - 172800000 <= World.now w))).
Proof.
  intros w token db participant Hp.
  unfold getCancellableParticipant. rewrite Hp.
  destruct (find isPaidPayment (swishPaymentsOf db participant)) as [payment|].
  - destruct (eventOf db participant) as [event|].
    + unfold DateFns.isBefore. rewrite subDays_two.
      destruct (VastraEvent.date event <? World.now w) eqn:E.
      * split; [reflexivity|]. split; [reflexivity|]. split; [discriminate|].
        intros pay ev Hpay Hev; inversion Hev; subst ev. split; [reflexivity|].
        apply Z.ltb_lt in E. lia.
      * split; [reflexivity|]. split; [reflexivity|]. split; [discriminate|].
        intros pay ev Hpay Hev; inversion Hev; inversion Hpay; subst ev pay. split.
        -- apply Z.ltb_ge in E. lia.
        -- intros _. eexists. split; [reflexivity|]. simpl.
           split; [reflexivity|]. split.
           ++ apply existsb_isPaidRefund.
           ++ rewrite negb_true_iff, Z.ltb_ge. reflexivity.
    + split; [reflexivity|]. split; [reflexivity|]. split; [discriminate|].
      intros pay ev _ Hev. discriminate.
  - split; [reflexivity|]. split; [reflexivity|]. split; [reflexivity|].
    intros pay ev Hpay. discriminate.
Qed.

(** A minute before the cutoff Bo, who has paid and not been refunded,
    may still cancel. *)
Lemma getCancellableParticipant_status_witness :
  exists c,
    result (getCancellableParticipant (Trip.world (Trip.cutoff - 60000) "") 1 Trip.paid)
    = TRPC.Ok c
    /\ Cancellable.paymentId (Cancellable.who c) = "P1"
    /\ Cancellable.hasCancelled c = false
    /\ Cancellable.cancellationDisabled c = false.
Proof.
  destruct (getCancellableParticipant_status
              (Trip.world (Trip.cutoff - 60000) "") 1 Trip.paid
              (Trip.boRow 60)
              eq_refl) as (_ & _ & _ & H).
  destruct (H Trip.paidRow Trip.event eq_refl eq_refl) as [_ Hret].
  destruct Hret as (c & Hc & _); [vm_compute; discriminate|].
  exists c. split; [exact Hc|].
  vm_compute in Hc. inversion Hc. repeat split.
Defined.

(** * The payment callback *)

Section MostRecent.

Context {A : Type} (createdAt : A -> Z).

Lemma mostRecent_snoc (rows : list A) (r : A) :
  mostRecent createdAt (rows ++ [r])
  = match mostRecent createdAt rows with
    | None => Some r
    | Some b => if createdAt b <=? createdAt r then Some r else Some b
    end.
Proof. unfold mostRecent. now rewrite fold_left_app. Qed.

Lemma mostRecent_In (rows : list A) (b : A) :
  mostRecent createdAt rows = Some b -> In b rows.
Proof.
  revert b. induction rows as [|r rows IH] using rev_ind; intros b H.
  - discriminate.
  - rewrite mostRecent_snoc in H. apply in_or_app.
    destruct (mostRecent createdAt rows) as [b0|].
    + destruct (createdAt b0 <=? createdAt r); inversion H; subst.
      * right; now left.
      * left; now apply IH.
    + inversion H; subst. right; now left.
Qed.

(** The row stored last is the most recent one when no earlier row carries
    a later timestamp. *)
Lemma mostRecent_snoc_latest (rows : list A) (r : A) :
  (forall x, In x rows -> createdAt x <= createdAt r) ->
  mostRecent createdAt (rows ++ [r]) = Some r.
Proof.
  intros H. rewrite mostRecent_snoc.
  destruct (mostRecent createdAt rows) as [b|] eqn:E; [|reflexivity].
  apply mostRecent_In in E. apply H in E.
  apply Z.leb_le in E. now rewrite E.
Qed.

End MostRecent.

Lemma find_participant_id (db : Prisma.t) (i : nat) (p : Participant.t) :
  find (fun q => Nat.eqb (Participant.id q) i) (Prisma.participant db) = Some p ->
  Participant.id p = i.
Proof. intros H. apply find_some in H. now apply Nat.eqb_eq. Qed.

(** Resolving the ids of resolved participants gives the same rows. *)
Lemma participantsOf_idem (db : Prisma.t) (ids : list nat) :
  participantsOf db (map Participant.id (participantsOf db ids))
  = participantsOf db ids.
Proof.
  unfold participantsOf. induction ids as [|i ids IH]; simpl; [reflexivity|].
  destruct (find _ (Prisma.participant db)) as [p|] eqn:E; simpl; [|exact IH].
  rewrite (find_participant_id _ _ _ E), E. simpl. now rewrite IH.
Qed.

(** Under referential integrity the resolved rows carry exactly the
    connected ids. *)
Lemma participantsOf_ids (db : Prisma.t) (ids : list nat) :
  (forall i, In i ids ->
             exists p, In p (Prisma.participant db) /\ Participant.id p = i) ->
  map Participant.id (participantsOf db ids) = ids.
Proof.
  unfold participantsOf. induction ids as [|i ids IH]; intros H; simpl;
    [reflexivity|].
  destruct (find _ (Prisma.participant db)) as [p|] eqn:E.
  - simpl. rewrite (find_participant_id _ _ _ E).
    f_equal. apply IH. intros j Hj. apply H. now right.
  - exfalso. destruct (H i (or_introl eq_refl)) as (p & Hin & Hid).
    apply (find_none _ _ E) in Hin. simpl in Hin.
    rewrite Hid, Nat.eqb_refl in Hin. discriminate.
Qed.

(** A participant is resolved at most as often as its id is connected. *)
Lemma participantsOf_count (db : Prisma.t) (ids : list nat) (i : nat) :
  (List.length (filter (fun p => Nat.eqb (Participant.id p) i) (participantsOf db ids))
   <= count_occ Nat.eq_dec ids i)%nat.
Proof.
  unfold participantsOf. induction ids as [|j ids IH]; simpl; [lia|].
  destruct (find _ (Prisma.participant db)) as [p|] eqn:E; simpl.
  - rewrite (find_participant_id _ _ _ E).
    destruct (Nat.eq_dec j i) as [->|Hne].
    + rewrite Nat.eqb_refl. simpl. lia.
    + apply Nat.eqb_neq in Hne. rewrite Hne. exact IH.
  - destruct (Nat.eq_dec j i); lia.
Qed.

Lemma emailsSent_sends (l : list Participant.t) (tail : list Effect) :
  (forall e, In e tail -> match e with EmailSent _ _ => False | _ => True end) ->
  flat_map (fun e => match e with EmailSent _ p => [p] | _ => [] end)
           (map sendConfirmationEmail l ++ tail) = l.
Proof.
  intros Htail. rewrite flat_map_app.
  assert (flat_map (fun e => match e with EmailSent _ p => [p] | _ => [] end) tail
          = []) as ->.
  { induction tail as [|e tail IH]; [reflexivity|]. simpl.
    pose proof (Htail e (or_introl eq_refl)) as He.
    destruct e; try contradiction; simpl; apply IH; intros; apply Htail; now right. }
  rewrite app_nil_r. induction l as [|p l IH]; simpl; [reflexivity|]. now rewrite IH.
Qed.

(** What a callback for a known payment id does, spelled out. *)
Lemma swishPaymentCallback_known (w : World.t) (input : SwishCallbackPayment.t)
      (db : Prisma.t) (originalPayment : SwishPayment.t) :
  find (fun p => String.eqb (SwishPayment.paymentId p) (SwishCallbackPayment.id input))
       (Prisma.swishPayment db) = Some originalPayment ->
  let linked := participantsOf db (SwishPayment.participants originalPayment) in
  let newPayment :=
    SwishPayment.mk (Prisma.nextId db) (SwishCallbackPayment.id input)
      (SwishPayment.paymentRequestUrl originalPayment)
      (Some (SwishCallbackPayment.paymentReference input))
      (SwishCallbackPayment.payerAlias input) (SwishCallbackPayment.payeeAlias input)
      (SwishCallbackPayment.amount input) (SwishCallbackPayment.message input)
      (SwishCallbackPayment.status input) (SwishCallbackPayment.errorCode input)
      (SwishCallbackPayment.errorMessage input)
      (SwishCallbackPayment.dateCreated input) (World.now w)
      (map Participant.id linked) in
  prisma (swishPaymentCallback w input db) = insertSwishPayment newPayment db
  /\ result (swishPaymentCallback w input db) = TRPC.Ok 200
  /\ emailsSent (swishPaymentCallback w input db)
     = (if isPaidPayment newPayment then linked else []).
Proof.
  intros H linked newPayment. unfold swishPaymentCallback, emailsSent.
  rewrite H. fold linked. fold newPayment. simpl prisma. simpl result. simpl effects.
  split; [reflexivity|]. split; [reflexivity|].
  destruct (isPaidPayment newPayment); [|reflexivity].
  assert (participantsOf (insertSwishPayment newPayment db)
                         (map Participant.id linked) = linked) as ->
      by exact (participantsOf_idem db (SwishPayment.participants originalPayment)).
  destruct (existsb (World.sendEmailFails w) linked).
  - apply emailsSent_sends. intros e [<-|[]]. exact I.
  - rewrite <- (app_nil_r (map _ linked)). apply emailsSent_sends. intros e [].
Qed.

(** ** The ledger invariant *)

Lemma ledgerInvariant_insertSwishRefund (r : SwishRefund.t) (db : Prisma.t) :
  ledgerInvariant db -> ledgerInvariant (insertSwishRefund r db).
Proof.
  intros (Hres & Hdis & Hfresh & Hnodup).
  repeat split; try assumption.
  intros p Hp. simpl in *. apply Hfresh in Hp. lia.
Qed.

Lemma ledgerInvariant_insertSwishPayment (r : SwishPayment.t) (db : Prisma.t) :
  ledgerInvariant db ->
  NoDup (SwishPayment.participants r) ->
  (forall i, In i (SwishPayment.participants r) ->
             exists p, In p (Prisma.participant db) /\ Participant.id p = i) ->
  ledgerInvariant (insertSwishPayment r db).
Proof.
  intros (Hres & Hdis & Hfresh & Hnodup) Hr Hin.
  split; [|split; [|split]]; simpl.
  - intros pay i Hpay Hi. simpl in *.
    apply in_app_or in Hpay. destruct Hpay as [Hpay|[<-|[]]]; eauto.
  - intros pay Hpay. simpl in *.
    apply in_app_or in Hpay. destruct Hpay as [Hpay|[<-|[]]]; auto.
  - intros p Hp. apply Hfresh in Hp. lia.
  - assumption.
Qed.

Lemma ledgerInvariant_signupWrites (w : World.t) (event : VastraEvent.t)
      (travellers : list ParticipantInput.t) (db db' : Prisma.t)
      (created : list Participant.t) :
  runAll (signupWrites w event travellers) db = Some (db', created) ->
  ledgerInvariant db ->
  ledgerInvariant db'
  /\ NoDup (map Participant.id created)
  /\ (forall p, In p created -> In p (Prisma.participant db')).
Proof.
  intros Hrun (Hres & Hdis & Hfresh & Hnodup).
  destruct (runAll_signupWrites _ _ _ _ _ _ Hrun)
    as (Hpart & _ & _ & Hpay & _ & Hnext & Hids & _).
  split; [split; [|split; [|split]]|split].
  - intros pay i Hin Hi. rewrite Hpay in Hin.
    destruct (Hres pay i Hin Hi) as (p & Hp & Hid).
    exists p. split; [|assumption]. rewrite Hpart. apply in_or_app. now left.
  - intros pay Hin. rewrite Hpay in Hin. now apply Hdis.
  - intros p Hp. rewrite Hpart in Hp. rewrite Hnext.
    apply in_app_or in Hp. destruct Hp as [Hp|Hp].
    + apply Hfresh in Hp. lia.
    + apply (in_map Participant.id) in Hp. rewrite Hids in Hp.
      apply in_seq in Hp. lia.
  - rewrite Hpart, map_app, Hids. apply NoDup_app.
    + assumption.
    + apply seq_NoDup.
    + intros i Hi Hseq. apply in_seq in Hseq.
      apply in_map_iff in Hi. destruct Hi as (p & <- & Hp).
      apply Hfresh in Hp. lia.
  - rewrite Hids. apply seq_NoDup.
  - intros p Hp. rewrite Hpart. apply in_or_app. now right.
Qed.

Lemma ledgerInvariant_requestSwishPayment (w : World.t) (input : SignupInput.t)
      (db : Prisma.t) :
  ledgerInvariant db -> ledgerInvariant (prisma (requestSwishPayment w input db)).
Proof.
  intros Hinv.
  destruct (requestSwishPayment_run w input db)
    as [ Hp | payer rest Hp He | payer rest ev Hp He Hf
       | payer rest ev db1 created Hp He Hr Hg
       | payer rest ev db1 created url pid Hp He Hr Hg ]; simpl; try assumption.
  - now destruct (ledgerInvariant_signupWrites _ _ _ _ _ _ Hr Hinv).
  - destruct (ledgerInvariant_signupWrites _ _ _ _ _ _ Hr Hinv) as (H1 & H2 & H3).
    apply ledgerInvariant_insertSwishPayment; simpl; try assumption.
    intros i Hi. apply in_map_iff in Hi. destruct Hi as (p & Hid & Hin).
    exists p. split; auto.
Qed.

Lemma ledgerInvariant_swishPaymentCallback (w : World.t)
      (input : SwishCallbackPayment.t) (db : Prisma.t) :
  ledgerInvariant db -> ledgerInvariant (prisma (swishPaymentCallback w input db)).
Proof.
  intros Hinv. unfold swishPaymentCallback.
  destruct (find _ (Prisma.swishPayment db)) as [orig|] eqn:E; simpl; [|assumption].
  pose proof Hinv as (Hres & Hdis & _).
  apply find_some in E. destruct E as [Hin _].
  apply ledgerInvariant_insertSwishPayment; simpl; try assumption.
  - rewrite participantsOf_ids; [now apply Hdis|]. intros i Hi. eapply Hres; eauto.
  - rewrite participantsOf_ids; intros i Hi; eapply Hres; eauto.
Qed.

Lemma ledgerInvariant_cancelBooking (w : World.t) (token : nat) (db : Prisma.t) :
  ledgerInvariant db -> ledgerInvariant (prisma (cancelBooking w token db)).
Proof.
  intros Hinv. unfold cancelBooking.
  destruct (find _ (Prisma.participant db)); simpl; [|assumption].
  destruct (eventOf db _); simpl; [|assumption].
  destruct (DateFns.isWithinInterval _ _ _) as [[|]|]; simpl; try assumption.
  destruct (find isPaidPayment _); simpl; [|assumption].
  destruct (_ =? 0); simpl; [assumption|].
  destruct (World.createRefundRequest w _) as [|[url|]]; simpl; try assumption.
  destruct (JS.pop _); simpl; [|assumption].
  now apply ledgerInvariant_insertSwishRefund.
Qed.

Lemma ledgerInvariant_swishRefundCallback (w : World.t)
      (input : SwishCallbackRefund.t) (db : Prisma.t) :
  ledgerInvariant db -> ledgerInvariant (prisma (swishRefundCallback w input db)).
Proof.
  intros Hinv. unfold swishRefundCallback.
  destruct (find _ (Prisma.swishRefund db)); simpl; [|assumption].
  destruct (find _ (Prisma.participant db)); simpl; [|assumption].
  now apply ledgerInvariant_insertSwishRefund.
Qed.

(** A ledger without bookings satisfies the invariant. *)
Lemma ledgerInvariant_no_bookings events buses n :
  ledgerInvariant (Prisma.mk events buses [] [] [] n).
Proof.
  split; [|split; [|split]]; simpl.
  - intros pay i [].
  - intros pay [].
  - intros p [].
  - constructor.
Qed.

(** X21. Every ledger the handlers can produce from one without bookings
    has referential integrity (a connected id is the id of a stored
    participant), a relation that holds no pair twice, and participant
    ids that are distinct and below the id source. *)
Lemma reachable_ledgerInvariant (db : Prisma.t) :
  Reachable db -> ledgerInvariant db.
Proof.
  induction 1 as [events buses n | w input db _ IH | w token db _ IH
                  | w input db _ IH | w input db _ IH].
  - apply ledgerInvariant_no_bookings.
  - now apply ledgerInvariant_requestSwishPayment.
  - now apply ledgerInvariant_cancelBooking.
  - now apply ledgerInvariant_swishPaymentCallback.
  - now apply ledgerInvariant_swishRefundCallback.
Qed.

Lemma paymentRows_insert (r : SwishPayment.t) (db : Prisma.t) (paymentId : string) :
  paymentRows (insertSwishPayment r db) paymentId
  = (paymentRows db paymentId
       ++ if String.eqb (SwishPayment.paymentId r) paymentId then [r] else [])%list.
Proof. unfold paymentRows. simpl. now rewrite filter_app. Qed.

(** C5. A callback for a gateway payment id the ledger knows stores one new
    payment request row after the existing ones, which stay as they were,
    as do the other tables.  The new row carries the callback's status and
    creation time, the participants and the request URL of the row found
    for the id, which under a consistent history are those of every
    existing row of the id.  The new row is the row stored last for the
    id, and it is the most recently created one by timestamp whenever no
    existing row of the id has a later one: its status is then the current
    status of the id. *)
Theorem swishPaymentCallback_appends :
  forall w input db originalPayment,
    find (fun p => String.eqb (SwishPayment.paymentId p) (SwishCallbackPayment.id input))
         (Prisma.swishPayment db) = Some originalPayment ->
    linksResolve db ->
    exists newPayment,
      Prisma.swishPayment (prisma (swishPaymentCallback w input db))
      = (Prisma.swishPayment db ++ [newPayment])%list
      /\ Prisma.participant (prisma (swishPaymentCallback w input db))
         = Prisma.participant db
      /\ Prisma.swishRefund (prisma (swishPaymentCallback w input db))
         = Prisma.swishRefund db
      /\ Prisma.vastraEvent (prisma (swishPaymentCallback w input db))
         = Prisma.vastraEvent db
      /\ Prisma.bus (prisma (swishPaymentCallback w input db)) = Prisma.bus db
      /\ SwishPayment.paymentId newPayment = SwishCallbackPayment.id input
      /\ SwishPayment.status newPayment = SwishCallbackPayment.status input
      /\ SwishPayment.createdAt newPayment = SwishCallbackPayment.dateCreated input
      /\ SwishPayment.updatedAt newPayment = World.now w
      /\ SwishPayment.participants newPayment
         = SwishPayment.participants originalPayment
      /\ SwishPayment.paymentRequestUrl newPayment
         = SwishPayment.paymentRequestUrl originalPayment
      /\ (historyConsistent db ->
          forall r, In r (Prisma.swishPayment db) ->
                    SwishPayment.paymentId r = SwishCallbackPayment.id input ->
                    SwishPayment.participants newPayment = SwishPayment.participants r
                    /\ SwishPayment.paymentRequestUrl newPayment
                       = SwishPayment.paymentRequestUrl r)
      /\ hd_error (rev (paymentRows (prisma (swishPaymentCallback w input db))
                                    (SwishCallbackPayment.id input)))
         = Some newPayment
      /\ ((forall r, In r (paymentRows db (SwishCallbackPayment.id input)) ->
                     SwishPayment.createdAt r <= SwishCallbackPayment.dateCreated input) ->
          mostRecent SwishPayment.createdAt
                     (paymentRows (prisma (swishPaymentCallback w input db))
                                  (SwishCallbackPayment.id input))
          = Some newPayment).
Proof.
  intros w input db originalPayment Hfind Hres.
  destruct (swishPaymentCallback_known w input db originalPayment Hfind)
    as (Hdb & _ & _).
  rewrite Hdb. clear Hdb.
  pose proof (find_some _ _ Hfind) as [Hin Hid]. apply String.eqb_eq in Hid.
  assert (map Participant.id
              (participantsOf db (SwishPayment.participants originalPayment))
          = SwishPayment.participants originalPayment) as Hlink.
  { apply participantsOf_ids. intros i Hi. eapply Hres; eauto. }
  eexists. rewrite paymentRows_insert. simpl. rewrite String.eqb_refl, Hlink.
  repeat (split; [reflexivity|]).
  split; [|split].
  - intros Hcons r Hr Hrid.
    destruct (Hcons originalPayment r Hin Hr) as [H1 H2]; [congruence|].
    now split.
  - apply hd_error_rev_snoc.
  - intros Hlate. now apply mostRecent_snoc_latest.
Qed.

(** Anna and Bo's payment is reported PAID a minute after the signup. *)
Lemma swishPaymentCallback_appends_witness :
  exists newPayment,
    Prisma.swishPayment Trip.paid
    = (Prisma.swishPayment Trip.signedUp ++ [newPayment])%list
    /\ Prisma.participant Trip.paid = Prisma.participant Trip.signedUp
    /\ SwishPayment.status newPayment = SwishPaymentStatus.PAID
    /\ SwishPayment.participants newPayment = [0; 1]%nat
    /\ SwishPayment.paymentRequestUrl newPayment
       = "https://mss.test/api/v1/paymentrequests/P1"
    /\ hd_error (rev (paymentRows Trip.paid "P1")) = Some newPayment.
Proof.
  destruct (swishPaymentCallback_appends
              (Trip.world Trip.paidTime "")
              (Trip.callback SwishPaymentStatus.PAID Trip.paidTime)
              Trip.signedUp
              Trip.createdRow
              eq_refl)
    as (row & H1 & H2 & _ & _ & _ & _ & H3 & _ & _ & H4 & H5 & _ & H6 & _).
  - apply (ledgerInvariant_requestSwishPayment
             (Trip.world Trip.signupTime "P1") Trip.signup Trip.ledger).
    apply ledgerInvariant_no_bookings.
  - exists row. repeat split; assumption.
Defined.

(** C6. A callback for a known payment id always answers with status 200,
    whatever the mail service does.  When the row it stores is PAID, it
    attempts one confirmation mail for each participant of the payment,
    each to that participant's address, and a rejected send only leaves an
    error in the log; under referential integrity these are exactly the
    connected participants.  When the row is not PAID nothing is sent. *)
Theorem swishPaymentCallback_confirms :
  forall w input db originalPayment,
    find (fun p => String.eqb (SwishPayment.paymentId p) (SwishCallbackPayment.id input))
         (Prisma.swishPayment db) = Some originalPayment ->
    result (swishPaymentCallback w input db) = TRPC.Ok 200
    /\ (SwishCallbackPayment.status input = SwishPaymentStatus.PAID ->
        emailsSent (swishPaymentCallback w input db)
        = participantsOf db (SwishPayment.participants originalPayment)
        /\ (forall p,
               In p (participantsOf db (SwishPayment.participants originalPayment)) ->
               In (sendConfirmationEmail p) (effects (swishPaymentCallback w input db)))
        /\ (forall e,
               In e (effects (swishPaymentCallback w input db)) ->
               (exists p, e = sendConfirmationEmail p)
               \/ e = ConsoleError "Error sending confirmation email")
        /\ (forall p,
               In p (participantsOf db (SwishPayment.participants originalPayment)) ->
               World.sendEmailFails w p = true ->
               In (ConsoleError "Error sending confirmation email")
                  (effects (swishPaymentCallback w input db)))
        /\ (linksResolve db ->
            map Participant.id (emailsSent (swishPaymentCallback w input db))
            = SwishPayment.participants originalPayment))
    /\ (SwishCallbackPayment.status input <> SwishPaymentStatus.PAID ->
        effects (swishPaymentCallback w input db) = []).
Proof.
  intros w input db originalPayment Hfind.
  destruct (swishPaymentCallback_known w input db originalPayment Hfind)
    as (_ & Hres & Hsent).
  split; [exact Hres|]. split.
  - intros Hpaid. unfold isPaidPayment in Hsent. simpl in Hsent.
    rewrite Hpaid in Hsent. simpl in Hsent.
    split; [exact Hsent|]. split; [|split; [|split]].
    + intros p Hp. unfold swishPaymentCallback. rewrite Hfind. simpl.
      unfold isPaidPayment. simpl. rewrite Hpaid. simpl.
      rewrite (participantsOf_idem db (SwishPayment.participants originalPayment)
               : participantsOf (insertSwishPayment _ db) _ = _).
      destruct (existsb _ _); [apply in_or_app; left|]; now apply in_map.
    + intros e He. unfold swishPaymentCallback in He. rewrite Hfind in He.
      simpl in He. unfold isPaidPayment in He. simpl in He. rewrite Hpaid in He.
      simpl in He.
      destruct (existsb _ _);
        [apply in_app_or in He; destruct He as [He|[<-|[]]]; [|now right]|];
        apply in_map_iff in He; destruct He as (p & <- & _); left; now exists p.
    + intros p Hp Hfail. unfold swishPaymentCallback. rewrite Hfind. simpl.
      unfold isPaidPayment. simpl. rewrite Hpaid. simpl.
      rewrite (participantsOf_idem db (SwishPayment.participants originalPayment)
               : participantsOf (insertSwishPayment _ db) _ = _).
      assert (existsb (World.sendEmailFails w)
                      (participantsOf db (SwishPayment.participants originalPayment))
              = true) as ->
          by (apply existsb_exists; now exists p).
      apply in_or_app. right. now left.
    + intros Hlinks. rewrite Hsent. apply participantsOf_ids.
      intros i Hi. apply find_some in Hfind. destruct Hfind as [Hin _].
      eapply Hlinks; eauto.
  - intros Hnot. unfold swishPaymentCallback. rewrite Hfind. simpl.
    unfold isPaidPayment. simpl.
    destruct (SwishCallbackPayment.status input); try reflexivity. contradiction.
Qed.

(** The mail service rejects every send while Anna and Bo's payment is
    reported PAID: both mails were attempted, the failure is logged, and
    the gateway still gets its 200. *)
Lemma swishPaymentCallback_confirms_witness :
  result (swishPaymentCallback (Trip.worldMailDown Trip.paidTime)
            (Trip.callback SwishPaymentStatus.PAID Trip.paidTime) Trip.signedUp)
  = TRPC.Ok 200
  /\ map Participant.name
         (emailsSent (swishPaymentCallback (Trip.worldMailDown Trip.paidTime)
                        (Trip.callback SwishPaymentStatus.PAID Trip.paidTime)
                        Trip.signedUp))
     = ["Anna"; "Bo"]
  /\ In (ConsoleError "Error sending confirmation email")
        (effects (swishPaymentCallback (Trip.worldMailDown Trip.paidTime)
                    (Trip.callback SwishPaymentStatus.PAID Trip.paidTime)
                    Trip.signedUp)).
Proof.
  destruct (swishPaymentCallback_confirms
              (Trip.worldMailDown Trip.paidTime)
              (Trip.callback SwishPaymentStatus.PAID Trip.paidTime)
              Trip.signedUp
              Trip.createdRow
              eq_refl)
    as (Hok & Hpaid & _).
  destruct (Hpaid eq_refl) as (Hsent & _).
  split; [exact Hok|]. split.
  - rewrite Hsent. vm_compute. reflexivity.
  - vm_compute. right. right. left. reflexivity.
Defined.

(** Storing a second row with the timestamp and the status of the row
    stored last does not change the status of the most recent row. *)
Lemma mostRecent_redelivery {A B : Type} (createdAt : A -> Z) (status : A -> B)
      (rows : list A) (r1 r2 : A) :
  createdAt r1 = createdAt r2 ->
  status r1 = status r2 ->
  option_map status (mostRecent createdAt ((rows ++ [r1]) ++ [r2]))
  = option_map status (mostRecent createdAt (rows ++ [r1])).
Proof.
  intros Ht Hs. rewrite (mostRecent_snoc createdAt (rows ++ [r1])).
  rewrite (mostRecent_snoc createdAt rows).
  destruct (mostRecent createdAt rows) as [b|].
  - destruct (createdAt b <=? createdAt r1) eqn:E.
    + rewrite <- Ht, Z.leb_refl. simpl. now rewrite Hs.
    + rewrite <- Ht, E. reflexivity.
  - rewrite <- Ht, Z.leb_refl. simpl. now rewrite Hs.
Qed.

(** C7. The same callback payload processed a second time, on the ledger
    the first processing left, is acknowledged again and leaves the
    current status of every payment id as it was after the first
    processing, whether the most recently created row is taken by
    timestamp or by insertion.  Each of the two invocations attempts at
    most one confirmation mail per participant connected to the payment. *)
Theorem swishPaymentCallback_redelivery :
  forall w1 w2 input db originalPayment,
    find (fun p => String.eqb (SwishPayment.paymentId p) (SwishCallbackPayment.id input))
         (Prisma.swishPayment db) = Some originalPayment ->
    let first := swishPaymentCallback w1 input db in
    let second := swishPaymentCallback w2 input (prisma first) in
    result second = TRPC.Ok 200
    /\ (forall paymentId,
           currentStatus (prisma second) paymentId
           = currentStatus (prisma first) paymentId)
    /\ (forall paymentId,
           lastStoredStatus (prisma second) paymentId
           = lastStoredStatus (prisma first) paymentId)
    /\ (NoDup (SwishPayment.participants originalPayment) ->
        forall participantId,
          (emailsSentTo first participantId <= 1)%nat
          /\ (emailsSentTo second participantId <= 1)%nat).
Proof.
  intros w1 w2 input db originalPayment Hfind first second.
  destruct (swishPaymentCallback_known w1 input db originalPayment Hfind)
    as (Hdb1 & _ & Hsent1).
  assert (find (fun p => String.eqb (SwishPayment.paymentId p)
                                    (SwishCallbackPayment.id input))
               (Prisma.swishPayment (prisma first)) = Some originalPayment)
    as Hfind2.
  { subst first. rewrite Hdb1. simpl. now apply find_app_some. }
  destruct (swishPaymentCallback_known w2 input (prisma first) originalPayment Hfind2)
    as (Hdb2 & Hres2 & Hsent2).
  fold second in Hdb2, Hres2, Hsent2. fold first in Hdb1, Hsent1.
  split; [exact Hres2|].
  assert (forall pid,
             paymentRows (prisma second) pid
             = (paymentRows (prisma first) pid
                  ++ if String.eqb (SwishCallbackPayment.id input) pid
                     then [SwishPayment.mk (Prisma.nextId (prisma first))
                             (SwishCallbackPayment.id input)
                             (SwishPayment.paymentRequestUrl originalPayment)
                             (Some (SwishCallbackPayment.paymentReference input))
                             (SwishCallbackPayment.payerAlias input)
                             (SwishCallbackPayment.payeeAlias input)
                             (SwishCallbackPayment.amount input)
                             (SwishCallbackPayment.message input)
                             (SwishCallbackPayment.status input)
                             (SwishCallbackPayment.errorCode input)
                             (SwishCallbackPayment.errorMessage input)
                             (SwishCallbackPayment.dateCreated input)
                             (World.now w2)
                             (map Participant.id
                                  (participantsOf (prisma first)
                                     (SwishPayment.participants originalPayment)))]
                     else [])%list) as Hrows2.
  { intros pid. rewrite Hdb2. now rewrite paymentRows_insert. }
  assert (forall pid,
             paymentRows (prisma first) pid
             = (paymentRows db pid
                  ++ if String.eqb (SwishCallbackPayment.id input) pid
                     then [SwishPayment.mk (Prisma.nextId db)
                             (SwishCallbackPayment.id input)
                             (SwishPayment.paymentRequestUrl originalPayment)
                             (Some (SwishCallbackPayment.paymentReference input))
                             (SwishCallbackPayment.payerAlias input)
                             (SwishCallbackPayment.payeeAlias input)
                             (SwishCallbackPayment.amount input)
                             (SwishCallbackPayment.message input)
                             (SwishCallbackPayment.status input)
                             (SwishCallbackPayment.errorCode input)
                             (SwishCallbackPayment.errorMessage input)
                             (SwishCallbackPayment.dateCreated input)
                             (World.now w1)
                             (map Participant.id
                                  (participantsOf db
                                     (SwishPayment.participants originalPayment)))]
                     else [])%list) as Hrows1.
  { intros pid. rewrite Hdb1. now rewrite paymentRows_insert. }
  split; [|split].
  - intros pid. unfold currentStatus. rewrite Hrows2, Hrows1.
    destruct (String.eqb (SwishCallbackPayment.id input) pid).
    + now apply mostRecent_redelivery.
    + now rewrite !app_nil_r.
  - intros pid. unfold lastStoredStatus. rewrite Hrows2, Hrows1.
    destruct (String.eqb (SwishCallbackPayment.id input) pid).
    + now rewrite !hd_error_rev_snoc.
    + now rewrite !app_nil_r.
  - intros Hnodup i. unfold emailsSentTo. rewrite Hsent1, Hsent2.
    pose proof (proj1 (NoDup_count_occ Nat.eq_dec _) Hnodup i) as Hone.
    split.
    + destruct (isPaidPayment _); simpl; [|lia].
      eapply Nat.le_trans; [apply participantsOf_count|exact Hone].
    + destruct (isPaidPayment _); simpl; [|lia].
      eapply Nat.le_trans; [apply participantsOf_count|exact Hone].
Qed.

(** Anna and Bo's PAID callback is delivered twice, five seconds apart:
    the current status is PAID after the first delivery and after the
    second, and the second delivery mails Bo once. *)
Lemma swishPaymentCallback_redelivery_witness :
  currentStatus Trip.paid "P1" = Some SwishPaymentStatus.PAID
  /\ result (swishPaymentCallback (Trip.world (Trip.paidTime + 5000) "")
               (Trip.callback SwishPaymentStatus.PAID Trip.paidTime) Trip.paid)
     = TRPC.Ok 200
  /\ currentStatus
       (prisma (swishPaymentCallback (Trip.world (Trip.paidTime + 5000) "")
                  (Trip.callback SwishPaymentStatus.PAID Trip.paidTime) Trip.paid))
       "P1"
     = currentStatus Trip.paid "P1"
  /\ (emailsSentTo
        (swishPaymentCallback (Trip.world (Trip.paidTime + 5000) "")
           (Trip.callback SwishPaymentStatus.PAID Trip.paidTime) Trip.paid)
        1 <= 1)%nat.
Proof.
  split; [vm_compute; reflexivity|].
  destruct (swishPaymentCallback_redelivery
              (Trip.world Trip.paidTime "") (Trip.world (Trip.paidTime + 5000) "")
              (Trip.callback SwishPaymentStatus.PAID Trip.paidTime)
              Trip.signedUp
              Trip.createdRow
              eq_refl)
    as (Hok & Hcur & _ & Hmail).
  split; [exact Hok|]. split; [exact (Hcur "P1")|].
  apply Hmail.
  apply (proj1 (proj2 (ledgerInvariant_requestSwishPayment
                         (Trip.world Trip.signupTime "P1") Trip.signup Trip.ledger
                         (ledgerInvariant_no_bookings _ _ _)))).
  left. reflexivity.
Defined.

(** * The capacity read model *)

Lemma filter_filter_length {A : Type} (f g : A -> bool) (l : list A) :
  List.length (filter f (filter g l))
  = List.length (filter (fun x => g x && f x) l).
Proof.
  induction l as [|x l IH]; simpl; [reflexivity|].
  destruct (g x); simpl; [destruct (f x); simpl; now rewrite IH|exact IH].
Qed.

Lemma existsb_isPaidPayment (db : Prisma.t) (p : Participant.t) :
  existsb isPaidPayment (swishPaymentsOf db p) = true <-> hasPaidPayment db p.
Proof.
  unfold hasPaidPayment, swishPaymentsOf. rewrite existsb_exists.
  split; intros (pay & H1 & H2).
  - apply filter_In in H1. destruct H1 as [Hin Hid].
    apply existsb_exists in Hid. destruct Hid as (i & Hi & Heq).
    apply Nat.eqb_eq in Heq. subst i.
    exists pay. repeat split; try assumption.
    unfold isPaidPayment in H2.
    destruct (SwishPayment.status pay); now try discriminate.
  - destruct H2 as [Hid Hst]. exists pay. split.
    + apply filter_In. split; [assumption|].
      apply existsb_exists. exists (Participant.id p). split; [assumption|].
      apply Nat.eqb_refl.
    + unfold isPaidPayment. now rewrite Hst.
Qed.

Lemma paidPassenger_iff (db : Prisma.t) (p : Participant.t) :
  paidPassenger db p = true <-> hasPaidPayment db p /\ ~ hasPaidRefund db p.
Proof.
  unfold paidPassenger.
  rewrite andb_true_iff, negb_true_iff, existsb_isPaidPayment,
    <- existsb_isPaidRefund, not_true_iff_false.
  reflexivity.
Qed.

Lemma busesWithPaidPassengers_counts (db : Prisma.t) (event : VastraEvent.t) :
  map BusWithCount.bus (busesWithPaidPassengers db event) = busesOf db event
  /\ Forall (countsPaidPassengers db) (busesWithPaidPassengers db event).
Proof.
  unfold busesWithPaidPassengers. split.
  - rewrite map_map. simpl. apply map_id.
  - apply Forall_forall. intros b Hb. apply in_map_iff in Hb.
    destruct Hb as (bus & <- & _).
    exists (fun p => String.eqb (Participant.busId p) (Bus.id bus)
                     && paidPassenger db p).
    simpl. split.
    + unfold passengersOf. now rewrite filter_filter_length.
    + intros p. rewrite andb_true_iff, String.eqb_eq, paidPassenger_iff.
      reflexivity.
Qed.

(** C2, as stated, fails.  Bo paid, cancelled and was refunded, and then
    the cancellation link was used once more: his most recent refund
    request is CREATED, not PAID, and his most recent payment request is
    PAID, so the rule on most recent statuses counts him; the read model
    does not, because one of his refund requests is PAID. *)
Lemma capacity_most_recent_status_differs :
  result (getAwayGame "e1" Trip.cancelledAgain)
  = TRPC.Ok (Trip.event, [BusWithCount.mk Trip.bus 1])
  /\ latestStatusSeats Trip.cancelledAgain Trip.bus = 2
  /\ map SwishRefund.status
         (swishRefundsOf Trip.cancelledAgain
            (Trip.boRow 60))
     = [SwishRefundStatus.CREATED; SwishRefundStatus.PAID; SwishRefundStatus.CREATED]
  /\ map SwishRefund.createdAt
         (swishRefundsOf Trip.cancelledAgain
            (Trip.boRow 60))
     = [1699740800000; 1699740860000; 1699740920000].
Proof. vm_compute. repeat split. Qed.

(** C2, amended. The read model reports, for each bus of an event, the
    number of stored participants on that bus that have at least one
    payment request with status PAID and no refund request with status
    PAID; getAwayGames adds per event the sum of the seats and the sum of
    these counts as maxSeats and bookedSeats; neither query changes the
    ledger. *)
Theorem capacity_counts_paid_passengers :
  forall w db,
    (forall id event buses,
        result (getAwayGame id db) = TRPC.Ok (event, buses) ->
        map BusWithCount.bus buses = busesOf db event
        /\ Forall (countsPaidPassengers db) buses)
    /\ (forall games game,
           result (getAwayGames w db) = TRPC.Ok games ->
           In game games ->
           map BusWithCount.bus (AwayGame.buses game)
           = busesOf db (AwayGame.event game)
           /\ Forall (countsPaidPassengers db) (AwayGame.buses game)
           /\ AwayGame.maxSeats game
              = sumZ (map (fun b => Bus.seats (BusWithCount.bus b))
                          (AwayGame.buses game))
           /\ AwayGame.bookedSeats game
              = sumZ (map BusWithCount.count_passengers (AwayGame.buses game)))
    /\ prisma (getAwayGames w db) = db
    /\ (forall id, prisma (getAwayGame id db) = db).
Proof.
  intros w db. split; [|split; [|split]].
  - intros id event buses H. unfold getAwayGame in H.
    destruct (find _ (Prisma.vastraEvent db)) as [res|]; [|discriminate].
    simpl in H. inversion H; subst.
    apply busesWithPaidPassengers_counts.
  - intros games game H Hin. unfold getAwayGames in H. simpl in H.
    inversion H; subst games; clear H.
    apply in_map_iff in Hin. destruct Hin as (event & <- & _).
    unfold withSeatCounts. simpl.
    rewrite !fold_left_add_sumZ.
    destruct (busesWithPaidPassengers_counts db event) as [H1 H2].
    repeat split; try assumption; lia.
  - reflexivity.
  - intros id. unfold getAwayGame.
    now destruct (find _ (Prisma.vastraEvent db)).
Qed.

(** Nine travellers paid for the ten-seat bus and two of them were
    refunded: the trip is listed with 10 seats of which 7 are booked. *)
Lemma capacity_counts_paid_passengers_witness :
  exists game,
    result (getAwayGames (Trip.world Trip.cancelTime "") Trip.sevenLeft)
    = TRPC.Ok [game]
    /\ List.length (Prisma.participant Trip.sevenLeft) = 9%nat
    /\ AwayGame.maxSeats game = 10
    /\ AwayGame.bookedSeats game = 7
    /\ map BusWithCount.count_passengers (AwayGame.buses game) = [7]
    /\ Forall (countsPaidPassengers Trip.sevenLeft) (AwayGame.buses game).
Proof.
  exists (withSeatCounts Trip.event
            (busesWithPaidPassengers Trip.sevenLeft Trip.event)).
  split; [vm_compute; reflexivity|].
  split; [vm_compute; reflexivity|].
  destruct (proj1 (proj2 (capacity_counts_paid_passengers
                            (Trip.world Trip.cancelTime "") Trip.sevenLeft))
                  [withSeatCounts Trip.event
                     (busesWithPaidPassengers Trip.sevenLeft Trip.event)]
                  (withSeatCounts Trip.event
                     (busesWithPaidPassengers Trip.sevenLeft Trip.event)))
    as (_ & Hcounts & Hmax & Hbooked).
  - vm_compute. reflexivity.
  - left. reflexivity.
  - split; [rewrite Hmax; vm_compute; reflexivity|].
    split; [rewrite Hbooked; vm_compute; reflexivity|].
    split; [vm_compute; reflexivity|exact Hcounts].
Defined.

(** * Further properties of the handlers *)

(** ** Cancellation *)

(** Every cancellation goes one of the three ways. *)
Lemma cancelBooking_run (w : World.t) (token : nat) (db : Prisma.t) :
  CancelRun w token db (cancelBooking w token db).
Proof.
  unfold cancelBooking.
  destruct (find _ (Prisma.participant db)) as [participant|] eqn:Hp;
    [|apply CancelRefused].
  destruct (eventOf db participant) as [event|] eqn:He; [|apply CancelRefused].
  rewrite isWithinInterval_two_days.
  destruct ((VastraEvent.date event - 172800000 <=? World.now w)
            && (World.now w <=? VastraEvent.date event)) eqn:Hw;
    [apply CancelRefused|].
  destruct (find isPaidPayment _) as [payment|] eqn:Hpay; [|apply CancelRefused].
  destruct (Participant.payAmount participant =? 0) eqn:Hz; [apply CancelRefused|].
  fold (refundDataFor w event participant payment).
  destruct (World.createRefundRequest w _) as [|[url|]] eqn:Hg.
  - eapply CancelGatewayFailed; eauto. now rewrite Hg.
  - destruct (JS.pop (JS.split "/"%char url)) as [refundId|] eqn:Hpop.
    + apply (CancelRefunded w token db participant event payment url refundId);
        auto.
      * intros [H1 H2]. apply Z.leb_le in H1. apply Z.leb_le in H2.
        rewrite H1, H2 in Hw. discriminate.
      * now apply Z.eqb_neq.
      * rewrite Hg. simpl. now rewrite Hpop.
    + eapply CancelGatewayFailed; eauto. rewrite Hg. simpl. now rewrite Hpop.
  - eapply CancelGatewayFailed; eauto. now rewrite Hg.
Qed.

(** On the trip the attempt exactly 48 hours before departure falls in the
    refused window. *)
Lemma cancelBooking_too_late_iff_witness :
  result (cancelBooking (Trip.world Trip.cutoff "R1") 1 Trip.paid)
  = TRPC.Throw (TRPC.mkError TRPC.BAD_REQUEST (Some "Du kan inte avboka inom 48h")).
Proof.
  apply (proj2 (cancelBooking_too_late_iff (Trip.world Trip.cutoff "R1") 1 Trip.paid
                  (Trip.boRow 60) Trip.event eq_refl eq_refl)).
  vm_compute. split; discriminate.
Defined.

(** X2. cancelBooking changes the ledger only when it returns a refund id,
    and then only by storing one refund request after the existing ones:
    CREATED, for the participant the token names, over that participant's
    stored pay-amount (not the amount of the payment), pointing at the
    participant's first PAID payment request, which is also the payment
    the gateway was asked to refund.  A refused or failed cancellation
    leaves the ledger as it was. *)
Theorem cancelBooking_stores_one_refund :
  forall w token db,
    (forall e, result (cancelBooking w token db) = TRPC.Throw e ->
               prisma (cancelBooking w token db) = db)
    /\ (forall refundId,
           result (cancelBooking w token db) = TRPC.Ok refundId ->
           exists participant payment row data,
             find (fun p => Nat.eqb (Participant.cancellationToken p) token)
                  (Prisma.participant db) = Some participant
             /\ find isPaidPayment (swishPaymentsOf db participant) = Some payment
             /\ Prisma.swishRefund (prisma (cancelBooking w token db))
                = (Prisma.swishRefund db ++ [row])%list
             /\ Prisma.swishPayment (prisma (cancelBooking w token db))
                = Prisma.swishPayment db
             /\ Prisma.participant (prisma (cancelBooking w token db))
                = Prisma.participant db
             /\ SwishRefund.refundId row = refundId
             /\ SwishRefund.status row = SwishRefundStatus.CREATED
             /\ SwishRefund.amount row = Participant.payAmount participant
             /\ SwishRefund.participantId row = Participant.id participant
             /\ SwishRefund.paymentId row = SwishPayment.id payment
             /\ effects (cancelBooking w token db) = [RefundRequested data]
             /\ RefundData.amount data = Participant.payAmount participant
             /\ RefundData.originalPaymentReference data
                = SwishPayment.paymentId payment
             /\ Participant.payAmount participant <> 0).
Proof.
  intros w token db.
  destruct (cancelBooking_run w token db)
    as [ code message | participant event payment Hp He Hpay Hg
       | participant event payment url rid Hp He Hw Hpay Hz Hg ]; simpl.
  - split; [reflexivity|]. intros rid H. discriminate.
  - split; [reflexivity|]. intros rid H. discriminate.
  - split; [intros e H; discriminate|].
    intros refundId H. inversion H; subst rid.
    exists participant, payment,
      (refundRowFor w db event participant payment refundId),
      (refundDataFor w event participant payment).
    simpl. repeat (split; [first [assumption|reflexivity]|]). assumption.
Qed.

(** Bo cancels three days ahead: 60 is refunded, his own fare, out of the
    payment of 140 made for Anna and him. *)
Lemma cancelBooking_stores_one_refund_witness :
  exists participant payment row data,
    find (fun p => Nat.eqb (Participant.cancellationToken p) 1)
         (Prisma.participant Trip.paid) = Some participant
    /\ find isPaidPayment (swishPaymentsOf Trip.paid participant) = Some payment
    /\ SwishPayment.amount payment = 140
    /\ Prisma.swishRefund
         (prisma (cancelBooking (Trip.world Trip.cancelTime "R1") 1 Trip.paid))
       = (Prisma.swishRefund Trip.paid ++ [row])%list
    /\ SwishRefund.amount row = 60
    /\ RefundData.amount data = 60.
Proof.
  destruct (proj2 (cancelBooking_stores_one_refund
                     (Trip.world Trip.cancelTime "R1") 1 Trip.paid) "R1" eq_refl)
    as (participant & payment & row & data
        & Hp & Hpay & Hr & _ & _ & _ & _ & Ha & _ & _ & _ & Hd & _ & _).
  exists participant, payment, row, data.
  vm_compute in Hp. inversion Hp; subst participant.
  vm_compute in Hpay. inversion Hpay; subst payment.
  repeat (split; [first [assumption|reflexivity]|]). assumption.
Defined.

(** A stored refund request, whatever its status, does not change what
    cancelBooking answers or asks of the gateway. *)
Lemma cancelBooking_ignores_refunds (w : World.t) (token : nat) (db : Prisma.t)
      (r : SwishRefund.t) :
  result (cancelBooking w token (insertSwishRefund r db))
  = result (cancelBooking w token db)
  /\ effects (cancelBooking w token (insertSwishRefund r db))
     = effects (cancelBooking w token db).
Proof.
  unfold cancelBooking. simpl.
  destruct (find _ (Prisma.participant db)) as [participant|]; [|now split].
  change (eventOf (insertSwishRefund r db) participant) with (eventOf db participant).
  destruct (eventOf db participant) as [event|]; [|now split].
  destruct (DateFns.isWithinInterval _ _ _) as [[|]|]; try now split.
  change (swishPaymentsOf (insertSwishRefund r db) participant)
    with (swishPaymentsOf db participant).
  destruct (find isPaidPayment _) as [payment|]; [|now split].
  destruct (_ =? 0); [now split|].
  destruct (World.createRefundRequest w _) as [|[url|]]; try now split.
  destruct (JS.pop _); now split.
Qed.

Lemma cancelBooking_ok_prisma (w : World.t) (token : nat) (db : Prisma.t)
      (refundId : string) :
  result (cancelBooking w token db) = TRPC.Ok refundId ->
  exists row, prisma (cancelBooking w token db) = insertSwishRefund row db.
Proof.
  destruct (cancelBooking_run w token db); simpl; intros Hok;
    try discriminate Hok.
  eexists. reflexivity.
Qed.

Lemma swishRefundCallback_ignored_by_cancelBooking (w w' : World.t) (token : nat)
      (input : SwishCallbackRefund.t) (db : Prisma.t) :
  result (cancelBooking w token (prisma (swishRefundCallback w' input db)))
  = result (cancelBooking w token db)
  /\ effects (cancelBooking w token (prisma (swishRefundCallback w' input db)))
     = effects (cancelBooking w token db)
  /\ (List.length (Prisma.swishRefund db)
      <= List.length (Prisma.swishRefund (prisma (swishRefundCallback w' input db))))%nat.
Proof.
  unfold swishRefundCallback.
  destruct (find _ (Prisma.swishRefund db)); simpl; [|repeat split; lia].
  destruct (find _ (Prisma.participant db)); simpl; [|repeat split; lia].
  split; [apply cancelBooking_ignores_refunds|].
  split; [apply cancelBooking_ignores_refunds|].
  rewrite length_app. simpl. lia.
Qed.

(** X3. Nothing stops a second refund: when a cancellation returned a
    refund id, the same call made again after the gateway's callback for
    that refund, whatever status it reports, is answered with a refund id
    again, asks the gateway for the same refund once more and stores a
    second refund request. *)
Theorem cancelBooking_again_after_refund :
  forall w token db refundId w' input,
    result (cancelBooking w token db) = TRPC.Ok refundId ->
    let refunded :=
      prisma (swishRefundCallback w' input (prisma (cancelBooking w token db))) in
    result (cancelBooking w token refunded) = TRPC.Ok refundId
    /\ effects (cancelBooking w token refunded) = effects (cancelBooking w token db)
    /\ (List.length (Prisma.swishRefund db) + 2
        <= List.length (Prisma.swishRefund (prisma (cancelBooking w token refunded))))%nat.
Proof.
  intros w token db refundId w' input Hok refunded.
  destruct (cancelBooking_ok_prisma w token db refundId Hok) as [row Hrow].
  destruct (swishRefundCallback_ignored_by_cancelBooking
              w w' token input (prisma (cancelBooking w token db)))
    as (Hres & Hfx & Hlen).
  fold refunded in Hres, Hfx, Hlen.
  rewrite Hrow in Hres, Hfx, Hlen.
  destruct (cancelBooking_ignores_refunds w token db row) as [Hres1 Hfx1].
  rewrite Hres1 in Hres. rewrite Hfx1 in Hfx. rewrite Hok in Hres.
  split; [exact Hres|]. split; [exact Hfx|].
  destruct (cancelBooking_ok_prisma w token refunded refundId Hres) as [row2 Hrow2].
  rewrite Hrow2. simpl in *. rewrite length_app in *. simpl in *. lia.
Qed.

(** Bo is refunded and the gateway reports the refund PAID; the link used
    again gets a refund id again, and the ledger then has three refund
    requests for him. *)
Lemma cancelBooking_again_after_refund_witness :
  result (cancelBooking (Trip.world Trip.cancelTime "R1") 1
            (prisma (swishRefundCallback (Trip.world (Trip.cancelTime + 60000) "")
                       (Trip.refundCallback "R1" SwishRefundStatus.PAID
                                            (Trip.cancelTime + 60000))
                       (prisma (cancelBooking (Trip.world Trip.cancelTime "R1") 1
                                              Trip.paid)))))
  = TRPC.Ok "R1"
  /\ List.length
       (Prisma.swishRefund
          (prisma (cancelBooking (Trip.world Trip.cancelTime "R1") 1
             (prisma (swishRefundCallback (Trip.world (Trip.cancelTime + 60000) "")
                        (Trip.refundCallback "R1" SwishRefundStatus.PAID
                                             (Trip.cancelTime + 60000))
                        (prisma (cancelBooking (Trip.world Trip.cancelTime "R1") 1
                                               Trip.paid)))))))
     = 3%nat.
Proof.
  destruct (cancelBooking_again_after_refund
              (Trip.world Trip.cancelTime "R1") 1 Trip.paid "R1"
              (Trip.world (Trip.cancelTime + 60000) "")
              (Trip.refundCallback "R1" SwishRefundStatus.PAID (Trip.cancelTime + 60000))
              eq_refl) as (Hres & _ & _).
  split; [exact Hres|]. vm_compute. reflexivity.
Defined.

(** X4. The status query and the cancellation agree.  Whenever
    getCancellableParticipant returns a status, cancelBooking at the same
    moment is refused as too late if the status says cancellation is
    disabled; if it says enabled and the pay-amount shown is not 0,
    cancelBooking asks the gateway to refund exactly the amount and the
    payment the status showed, and returns the refund id the gateway
    names. *)
Theorem status_agrees_with_cancelBooking :
  forall w token db c,
    result (getCancellableParticipant w token db) = TRPC.Ok c ->
    (Cancellable.cancellationDisabled c = true ->
     result (cancelBooking w token db)
     = TRPC.Throw (TRPC.mkError TRPC.BAD_REQUEST (Some "Du kan inte avboka inom 48h")))
    /\ (Cancellable.cancellationDisabled c = false ->
        Cancellable.payAmount (Cancellable.who c) <> 0 ->
        exists data,
          In (RefundRequested data) (effects (cancelBooking w token db))
          /\ RefundData.amount data = Cancellable.payAmount (Cancellable.who c)
          /\ RefundData.originalPaymentReference data
             = Cancellable.paymentId (Cancellable.who c)
          /\ forall url refundId,
              createdResource (World.createRefundRequest w data)
              = Some (url, refundId) ->
              result (cancelBooking w token db) = TRPC.Ok refundId).
Proof.
  intros w token db c. unfold getCancellableParticipant, cancelBooking.
  destruct (find _ (Prisma.participant db)) as [participant|]; [|discriminate].
  destruct (find isPaidPayment _) as [payment|]; [|discriminate].
  destruct (eventOf db participant) as [event|]; [|discriminate].
  unfold DateFns.isBefore. rewrite isWithinInterval_two_days, subDays_two.
  destruct (VastraEvent.date event <? World.now w) eqn:Epast; [discriminate|].
  apply Z.ltb_ge in Epast. apply Z.leb_le in Epast. rewrite Epast, andb_true_r.
  simpl. intros H. inversion H; subst c; clear H. simpl.
  destruct (World.now w <? VastraEvent.date event - 172800000) eqn:Ecut; simpl.
  - apply Z.ltb_lt in Ecut.
    assert ((VastraEvent.date event - 172800000 <=? World.now w) = false) as ->
        by (apply Z.leb_gt; lia).
    split; [discriminate|]. intros _ Hz. apply Z.eqb_neq in Hz. rewrite Hz.
    fold (refundDataFor w event participant payment).
    exists (refundDataFor w event participant payment).
    split; [|split; [reflexivity|split; [reflexivity|]]].
    + destruct (World.createRefundRequest w _) as [|[url|]]; simpl; auto.
      destruct (JS.pop _); simpl; auto.
    + intros url refundId Hg.
      destruct (World.createRefundRequest w _) as [|[u|]]; simpl in Hg;
        try discriminate Hg.
      destruct (JS.pop _); simpl in Hg; [|discriminate Hg].
      now inversion Hg.
  - apply Z.ltb_ge in Ecut. apply Z.leb_le in Ecut. rewrite Ecut.
    split; [reflexivity|discriminate].
Qed.

(** Three days ahead the status shows Bo 60 to get back on payment P1, and
    cancelBooking asks for exactly that. *)
Lemma status_agrees_with_cancelBooking_witness :
  exists data,
    In (RefundRequested data)
       (effects (cancelBooking (Trip.world Trip.cancelTime "R1") 1 Trip.paid))
    /\ RefundData.amount data = 60
    /\ RefundData.originalPaymentReference data = "P1"
    /\ result (cancelBooking (Trip.world Trip.cancelTime "R1") 1 Trip.paid)
       = TRPC.Ok "R1".
Proof.
  destruct (proj2 (status_agrees_with_cancelBooking
                     (Trip.world Trip.cancelTime "R1") 1 Trip.paid
                     (Cancellable.mk
                        (Cancellable.mkParticipant "Bo" "Bo@mail.test" 1
                           "Norrby/IF borta" 60 "10:13" None "P1")
                        false false)
                     eq_refl) eq_refl)
    as (data & Hin & Ha & Hr & Hok).
  - vm_compute. discriminate.
  - exists data. repeat (split; [assumption|]).
    vm_compute. reflexivity.
Defined.

(** ** The ledger only grows *)

Lemma extends_refl (db : Prisma.t) : extends db db.
Proof.
  repeat split; exists []; now rewrite app_nil_r.
Qed.

Lemma extends_trans (a b c : Prisma.t) : extends a b -> extends b c -> extends a c.
Proof.
  intros (He & Hb & [p Hp] & [s Hs] & [r Hr]) (He' & Hb' & [p' Hp'] & [s' Hs'] & [r' Hr']).
  split; [congruence|]. split; [congruence|].
  split; [exists (p ++ p')%list; now rewrite Hp', Hp, app_assoc|].
  split; [exists (s ++ s')%list; now rewrite Hs', Hs, app_assoc|].
  exists (r ++ r')%list; now rewrite Hr', Hr, app_assoc.
Qed.

Lemma extends_insertSwishPayment (r : SwishPayment.t) (db : Prisma.t) :
  extends db (insertSwishPayment r db).
Proof.
  split; [reflexivity|]. split; [reflexivity|].
  split; [exists []; simpl; now rewrite app_nil_r|].
  split; [now exists [r]|]. exists []; simpl; now rewrite app_nil_r.
Qed.

Lemma extends_insertSwishRefund (r : SwishRefund.t) (db : Prisma.t) :
  extends db (insertSwishRefund r db).
Proof.
  split; [reflexivity|]. split; [reflexivity|].
  split; [exists []; simpl; now rewrite app_nil_r|].
  split; [exists []; simpl; now rewrite app_nil_r|]. now exists [r].
Qed.

Lemma extends_signupWrites (w : World.t) (event : VastraEvent.t)
      (travellers : list ParticipantInput.t) (db db' : Prisma.t)
      (created : list Participant.t) :
  runAll (signupWrites w event travellers) db = Some (db', created) ->
  extends db db'.
Proof.
  intros H. destruct (runAll_signupWrites _ _ _ _ _ _ H)
    as (Hp & He & Hb & Hs & Hr & _).
  split; [assumption|]. split; [assumption|].
  split; [now exists created|].
  split; [exists []; now rewrite app_nil_r|]. exists []; now rewrite app_nil_r.
Qed.

Lemma extends_requestSwishPayment (w : World.t) (input : SignupInput.t)
      (db : Prisma.t) :
  extends db (prisma (requestSwishPayment w input db)).
Proof.
  destruct (requestSwishPayment_run w input db)
    as [ Hp | payer rest Hp He | payer rest ev Hp He Hf
       | payer rest ev db1 created Hp He Hr Hg
       | payer rest ev db1 created url pid Hp He Hr Hg ]; simpl;
    try apply extends_refl.
  - eapply extends_signupWrites; eauto.
  - eapply extends_trans; [eapply extends_signupWrites; eauto|].
    apply extends_insertSwishPayment.
Qed.

Lemma extends_cancelBooking (w : World.t) (token : nat) (db : Prisma.t) :
  extends db (prisma (cancelBooking w token db)).
Proof.
  destruct (cancelBooking_run w token db); simpl;
    first [apply extends_refl | apply extends_insertSwishRefund].
Qed.

Lemma extends_swishPaymentCallback (w : World.t) (input : SwishCallbackPayment.t)
      (db : Prisma.t) :
  extends db (prisma (swishPaymentCallback w input db)).
Proof.
  unfold swishPaymentCallback.
  destruct (find _ (Prisma.swishPayment db)); simpl;
    first [apply extends_insertSwishPayment | apply extends_refl].
Qed.

Lemma extends_swishRefundCallback (w : World.t) (input : SwishCallbackRefund.t)
      (db : Prisma.t) :
  extends db (prisma (swishRefundCallback w input db)).
Proof.
  unfold swishRefundCallback.
  destruct (find _ (Prisma.swishRefund db)); simpl; [|apply extends_refl].
  destruct (find _ (Prisma.participant db)); simpl;
    first [apply extends_insertSwishRefund | apply extends_refl].
Qed.

Lemma later_extends (db db' : Prisma.t) : Later db db' -> extends db db'.
Proof.
  induction 1 as [ | w input db' _ IH | w token db' _ IH
                   | w input db' _ IH | w input db' _ IH ].
  - apply extends_refl.
  - eapply extends_trans; [exact IH|apply extends_requestSwishPayment].
  - eapply extends_trans; [exact IH|apply extends_cancelBooking].
  - eapply extends_trans; [exact IH|apply extends_swishPaymentCallback].
  - eapply extends_trans; [exact IH|apply extends_swishRefundCallback].
Qed.

(** X5. The ledger is append-only under every sequence of handler calls:
    events and buses stay as they are, and each of the participant,
    payment request and refund request tables keeps all its rows, unchanged
    and in place, with any new rows after them; no handler deletes or
    rewrites a row.  So a participant that has a PAID payment request keeps
    having one, and a participant that has a PAID refund request never
    counts as a paid passenger again, whatever is called afterwards. *)
Theorem handlers_append_only :
  forall db db',
    Later db db' ->
    extends db db'
    /\ (forall q, hasPaidPayment db q -> hasPaidPayment db' q)
    /\ (forall q, hasPaidRefund db q -> paidPassenger db' q = false).
Proof.
  intros db db' H. apply later_extends in H.
  split; [exact H|].
  destruct H as (_ & _ & _ & [pays Hpays] & [refs Hrefs]).
  split.
  - intros q (pay & Hin & Hrest). exists pay.
    split; [|exact Hrest]. rewrite Hpays. apply in_or_app. now left.
  - intros q (r & Hin & Hrest). apply not_true_is_false. intros Hpaid.
    apply paidPassenger_iff in Hpaid. destruct Hpaid as [_ Hno]. apply Hno.
    exists r. split; [|exact Hrest]. rewrite Hrefs. apply in_or_app. now left.
Qed.

(** Bo was refunded, then the link was used again and the payment was
    reported PAID once more: the rows of the signup are still in place and
    Bo still does not count. *)
Lemma handlers_append_only_witness :
  extends Trip.refunded
          (prisma (swishPaymentCallback (Trip.world (Trip.cancelTime + 180000) "")
                     (Trip.callback SwishPaymentStatus.PAID Trip.paidTime)
                     Trip.cancelledAgain))
  /\ paidPassenger
       (prisma (swishPaymentCallback (Trip.world (Trip.cancelTime + 180000) "")
                  (Trip.callback SwishPaymentStatus.PAID Trip.paidTime)
                  Trip.cancelledAgain))
       (Trip.boRow 60) = false.
Proof.
  destruct (handlers_append_only Trip.refunded
              (prisma (swishPaymentCallback (Trip.world (Trip.cancelTime + 180000) "")
                         (Trip.callback SwishPaymentStatus.PAID Trip.paidTime)
                         Trip.cancelledAgain)))
    as (Hext & _ & Hnever).
  - apply LaterPaymentCallback. unfold Trip.cancelledAgain.
    apply LaterCancel, LaterNow.
  - split; [exact Hext|]. apply Hnever.
    eexists. split; [right; left; reflexivity|]. split; reflexivity.
Defined.

(** ** How bookings move the seat counts *)

Lemma swishPaymentsOf_insertSwishPayment (r : SwishPayment.t) (db : Prisma.t)
      (q : Participant.t) :
  swishPaymentsOf (insertSwishPayment r db) q
  = (swishPaymentsOf db q
       ++ if existsb (Nat.eqb (Participant.id q)) (SwishPayment.participants r)
          then [r] else [])%list.
Proof. unfold swishPaymentsOf. simpl. now rewrite filter_app. Qed.

Lemma swishRefundsOf_insertSwishRefund (r : SwishRefund.t) (db : Prisma.t)
      (q : Participant.t) :
  swishRefundsOf (insertSwishRefund r db) q
  = (swishRefundsOf db q
       ++ if Nat.eqb (SwishRefund.participantId r) (Participant.id q)
          then [r] else [])%list.
Proof. unfold swishRefundsOf. simpl. now rewrite filter_app. Qed.

(** Whether a passenger counts depends on the payment and refund tables
    only. *)
Lemma paidPassenger_same_tables (db db' : Prisma.t) (q : Participant.t) :
  Prisma.swishPayment db' = Prisma.swishPayment db ->
  Prisma.swishRefund db' = Prisma.swishRefund db ->
  paidPassenger db' q = paidPassenger db q.
Proof.
  intros Hs Hr. unfold paidPassenger, swishPaymentsOf, swishRefundsOf.
  now rewrite Hs, Hr.
Qed.

(** The seat counts are determined by the buses, the passengers of each bus
    and who of them counts. *)
Lemma busesWithPaidPassengers_ext (db db' : Prisma.t) (event : VastraEvent.t) :
  Prisma.bus db' = Prisma.bus db ->
  (forall b, filter (paidPassenger db') (passengersOf db' b)
             = filter (paidPassenger db) (passengersOf db b)) ->
  busesWithPaidPassengers db' event = busesWithPaidPassengers db event.
Proof.
  intros Hb H. unfold busesWithPaidPassengers, busesOf. rewrite Hb.
  apply map_ext. intros b. now rewrite H.
Qed.

Lemma read_model_ext (db db' : Prisma.t) :
  Prisma.vastraEvent db' = Prisma.vastraEvent db ->
  (forall event, busesWithPaidPassengers db' event = busesWithPaidPassengers db event) ->
  (forall w, result (getAwayGames w db') = result (getAwayGames w db))
  /\ (forall id, result (getAwayGame id db') = result (getAwayGame id db)).
Proof.
  intros He H. split.
  - intros w. unfold getAwayGames. simpl. rewrite He. f_equal.
    apply map_ext. intros event. now rewrite H.
  - intros id. unfold getAwayGame. rewrite He.
    destruct (find _ (Prisma.vastraEvent db)); simpl; [|reflexivity].
    now rewrite H.
Qed.

(** A participant stored by a signup is connected to no payment request
    that was there before. *)
Lemma created_has_no_payment (w : World.t) (event : VastraEvent.t)
      (travellers : list ParticipantInput.t) (db db' : Prisma.t)
      (created : list Participant.t) (q : Participant.t) :
  runAll (signupWrites w event travellers) db = Some (db', created) ->
  ledgerInvariant db ->
  In q created ->
  swishPaymentsOf db q = [].
Proof.
  intros Hrun (Hres & _ & Hfresh & _) Hq.
  destruct (runAll_signupWrites _ _ _ _ _ _ Hrun)
    as (_ & _ & _ & _ & _ & _ & Hids & _).
  apply (in_map Participant.id) in Hq. rewrite Hids in Hq. apply in_seq in Hq.
  unfold swishPaymentsOf.
  destruct (filter _ (Prisma.swishPayment db)) as [|pay l] eqn:E; [reflexivity|].
  exfalso.
  assert (In pay (pay :: l)) as Hin by now left.
  rewrite <- E in Hin. apply filter_In in Hin. destruct Hin as [Hpay Hlink].
  apply existsb_exists in Hlink. destruct Hlink as (i & Hi & Heq).
  apply Nat.eqb_eq in Heq. subst i.
  destruct (Hres pay _ Hpay Hi) as (p & Hp & Hid).
  apply Hfresh in Hp. lia.
Qed.

Lemma signupWrites_keeps_counted (w : World.t) (event : VastraEvent.t)
      (travellers : list ParticipantInput.t) (db db' : Prisma.t)
      (created : list Participant.t) :
  runAll (signupWrites w event travellers) db = Some (db', created) ->
  ledgerInvariant db ->
  forall b, filter (paidPassenger db') (passengersOf db' b)
            = filter (paidPassenger db) (passengersOf db b).
Proof.
  intros Hrun Hinv b.
  destruct (runAll_signupWrites _ _ _ _ _ _ Hrun)
    as (Hp & _ & _ & Hs & Hr & _).
  unfold passengersOf. rewrite Hp, !filter_app.
  assert (filter (paidPassenger db')
                 (filter (fun p => String.eqb (Participant.busId p) (Bus.id b)) created)
          = []) as ->.
  { set (l := filter _ created).
    assert (forall x, In x l -> paidPassenger db' x = false) as Hall.
    { intros x Hx. subst l. apply filter_In in Hx. destruct Hx as [Hx _].
      rewrite (paidPassenger_same_tables db db' x Hs Hr).
      unfold paidPassenger.
      now rewrite (created_has_no_payment _ _ _ _ _ _ x Hrun Hinv Hx). }
    clearbody l. induction l as [|x l IHl]; [reflexivity|]. simpl.
    rewrite (Hall x (or_introl eq_refl)). apply IHl.
    intros y Hy. apply Hall. now right. }
  rewrite app_nil_r. apply filter_ext. intros q.
  now apply paidPassenger_same_tables.
Qed.

Lemma paidPassenger_insert_unpaid (r : SwishPayment.t) (db : Prisma.t)
      (q : Participant.t) :
  isPaidPayment r = false ->
  paidPassenger (insertSwishPayment r db) q = paidPassenger db q.
Proof.
  intros Hr. unfold paidPassenger.
  rewrite swishPaymentsOf_insertSwishPayment, existsb_app.
  change (swishRefundsOf (insertSwishPayment r db) q) with (swishRefundsOf db q).
  destruct (existsb (Nat.eqb _) _); simpl; [rewrite Hr|]; now rewrite orb_false_r.
Qed.

(** X6. A signup alone takes no seat.  On a ledger that satisfies the
    invariant, whatever requestSwishPayment does (refuse, roll back, fail
    at the gateway after storing the travellers, or store them with a
    CREATED payment request), the away-game queries answer afterwards
    exactly as before: every bus keeps its count and every event its
    bookedSeats. *)
Theorem signup_takes_no_seat :
  forall w input db,
    ledgerInvariant db ->
    (forall w', result (getAwayGames w' (prisma (requestSwishPayment w input db)))
                = result (getAwayGames w' db))
    /\ (forall id, result (getAwayGame id (prisma (requestSwishPayment w input db)))
                   = result (getAwayGame id db)).
Proof.
  intros w input db Hinv.
  pose proof (extends_requestSwishPayment w input db) as (He & Hb & _).
  apply read_model_ext; [exact He|].
  intros event. apply busesWithPaidPassengers_ext; [exact Hb|]. clear He Hb.
  destruct (requestSwishPayment_run w input db)
    as [ Hp | payer rest Hp He | payer rest ev Hp He Hf
       | payer rest ev db1 created Hp He Hr Hg
       | payer rest ev db1 created url pid Hp He Hr Hg ]; simpl; try reflexivity.
  - now apply (signupWrites_keeps_counted _ _ _ _ _ _ Hr).
  - intros b. rewrite <- (signupWrites_keeps_counted _ _ _ _ _ _ Hr Hinv b).
    apply filter_ext. intros q. now apply paidPassenger_insert_unpaid.
Qed.

(** Anna and Bo have paid; a third traveller signs up: the bus still counts
    two. *)
Lemma signup_takes_no_seat_witness :
  result (getAwayGame "e1"
            (prisma (requestSwishPayment (Trip.world (Trip.paidTime + 1000) "P2")
                       (SignupInput.mk [Trip.traveller "Cia" true true] "e1")
                       Trip.paid)))
  = TRPC.Ok (Trip.event, [BusWithCount.mk Trip.bus 2])
  /\ List.length
       (Prisma.participant
          (prisma (requestSwishPayment (Trip.world (Trip.paidTime + 1000) "P2")
                     (SignupInput.mk [Trip.traveller "Cia" true true] "e1")
                     Trip.paid)))
     = 3%nat.
Proof.
  split; [|vm_compute; reflexivity].
  rewrite (proj2 (signup_takes_no_seat
                    (Trip.world (Trip.paidTime + 1000) "P2")
                    (SignupInput.mk [Trip.traveller "Cia" true true] "e1")
                    Trip.paid
                    (ledgerInvariant_swishPaymentCallback _ _ _
                       (ledgerInvariant_requestSwishPayment _ _ _
                          (ledgerInvariant_no_bookings _ _ _))))).
  vm_compute. reflexivity.
Defined.

(** X7. What a payment callback does to the seat counts.  For a known
    payment id on a ledger with referential integrity: when the callback
    reports PAID, a participant counts afterwards exactly if it counted
    before or is connected to the payment and has no PAID refund request;
    when it reports any other status, the away-game queries answer as
    before. *)
Theorem payment_callback_books_seats :
  forall w input db originalPayment,
    find (fun p => String.eqb (SwishPayment.paymentId p) (SwishCallbackPayment.id input))
         (Prisma.swishPayment db) = Some originalPayment ->
    linksResolve db ->
    (SwishCallbackPayment.status input = SwishPaymentStatus.PAID ->
     forall q,
       paidPassenger (prisma (swishPaymentCallback w input db)) q = true
       <-> paidPassenger db q = true
           \/ (In (Participant.id q) (SwishPayment.participants originalPayment)
               /\ ~ hasPaidRefund db q))
    /\ (SwishCallbackPayment.status input <> SwishPaymentStatus.PAID ->
        (forall w', result (getAwayGames w' (prisma (swishPaymentCallback w input db)))
                    = result (getAwayGames w' db))
        /\ (forall id, result (getAwayGame id (prisma (swishPaymentCallback w input db)))
                       = result (getAwayGame id db))).
Proof.
  intros w input db originalPayment Hfind Hres.
  destruct (swishPaymentCallback_known w input db originalPayment Hfind)
    as (Hdb & _ & _).
  rewrite Hdb. clear Hdb.
  assert (map Participant.id
              (participantsOf db (SwishPayment.participants originalPayment))
          = SwishPayment.participants originalPayment) as Hlink.
  { apply participantsOf_ids. intros i Hi.
    apply find_some in Hfind. destruct Hfind as [Hin _]. eapply Hres; eauto. }
  rewrite Hlink. split.
  - intros Hpaid q. unfold paidPassenger at 1.
    rewrite swishPaymentsOf_insertSwishPayment, existsb_app. simpl.
    change (swishRefundsOf (insertSwishPayment _ db) q) with (swishRefundsOf db q).
    unfold paidPassenger.
    rewrite !andb_true_iff, orb_true_iff, !negb_true_iff.
    rewrite <- (existsb_isPaidRefund db q), not_true_iff_false.
    destruct (existsb (Nat.eqb (Participant.id q))
                      (SwishPayment.participants originalPayment)) eqn:E.
    + simpl. unfold isPaidPayment at 2. simpl. rewrite Hpaid. simpl.
      apply existsb_exists in E. destruct E as (i & Hi & Heq).
      apply Nat.eqb_eq in Heq. subst i. intuition auto.
    + simpl. split; [intuition (auto; discriminate)|]. intros [H|[Hin Hno]]; [intuition auto|].
      exfalso. assert (existsb (Nat.eqb (Participant.id q))
                               (SwishPayment.participants originalPayment) = true)
        as Habs
          by (apply existsb_exists; exists (Participant.id q);
              split; [assumption|apply Nat.eqb_refl]).
      congruence.
  - intros Hnot. apply read_model_ext; [reflexivity|].
    intros event. apply busesWithPaidPassengers_ext; [reflexivity|].
    intros b. apply filter_ext. intros q. apply paidPassenger_insert_unpaid.
    unfold isPaidPayment. simpl.
    destruct (SwishCallbackPayment.status input); try reflexivity. contradiction.
Qed.

(** Before the callback nobody on the trip counts; the PAID callback makes
    Bo count. *)
Lemma payment_callback_books_seats_witness :
  paidPassenger Trip.signedUp (Trip.boRow 60) = false
  /\ paidPassenger Trip.paid (Trip.boRow 60) = true.
Proof.
  split; [vm_compute; reflexivity|].
  apply (proj1 (payment_callback_books_seats
                  (Trip.world Trip.paidTime "")
                  (Trip.callback SwishPaymentStatus.PAID Trip.paidTime)
                  Trip.signedUp Trip.createdRow eq_refl
                  (proj1 (ledgerInvariant_requestSwishPayment _ _ _
                            (ledgerInvariant_no_bookings _ _ _))))
               eq_refl (Trip.boRow 60)).
  right. split.
  - right. left. reflexivity.
  - intros (r & Hr & _). vm_compute in Hr. exact Hr.
Defined.

(** X8. What a refund callback does to the seat counts.  For a known
    refund id whose participant is stored the callback is answered "ok";
    when it reports PAID, that participant no longer counts and everybody
    else counts as before; when it reports any other status, the away-game
    queries answer as before.  An unknown refund id is refused and leaves
    the ledger as it was. *)
Theorem refund_callback_frees_seat :
  forall w input db,
    (find (fun r => String.eqb (SwishRefund.refundId r) (SwishCallbackRefund.id input))
          (Prisma.swishRefund db) = None ->
     result (swishRefundCallback w input db)
     = TRPC.Throw (TRPC.mkError TRPC.BAD_REQUEST (Some "Refund not found"))
     /\ prisma (swishRefundCallback w input db) = db)
    /\ (forall refundIntent participant,
           find (fun r => String.eqb (SwishRefund.refundId r)
                                     (SwishCallbackRefund.id input))
                (Prisma.swishRefund db) = Some refundIntent ->
           find (fun p => Nat.eqb (Participant.id p)
                                  (SwishRefund.participantId refundIntent))
                (Prisma.participant db) = Some participant ->
           result (swishRefundCallback w input db) = TRPC.Ok "ok"
           /\ (SwishCallbackRefund.status input = SwishRefundStatus.PAID ->
               forall q,
                 paidPassenger (prisma (swishRefundCallback w input db)) q = true
                 <-> paidPassenger db q = true
                     /\ Participant.id q <> SwishRefund.participantId refundIntent)
           /\ (SwishCallbackRefund.status input <> SwishRefundStatus.PAID ->
               (forall w', result (getAwayGames w'
                                     (prisma (swishRefundCallback w input db)))
                           = result (getAwayGames w' db))
               /\ (forall id, result (getAwayGame id
                                        (prisma (swishRefundCallback w input db)))
                              = result (getAwayGame id db)))).
Proof.
  intros w input db. unfold swishRefundCallback. split.
  - intros ->. split; reflexivity.
  - intros refundIntent participant Hr Hp. rewrite Hr, Hp. simpl.
    pose proof (find_participant_id db _ _ Hp) as Hid.
    split; [reflexivity|].
    set (row := SwishRefund.mk _ _ _ _ _ _ _ _ _ _ _ _).
    assert (forall q,
               paidPassenger (insertSwishRefund row db) q
               = paidPassenger db q
                 && negb (Nat.eqb (SwishRefund.participantId refundIntent)
                                  (Participant.id q)
                          && isPaidRefund row)) as Hq.
    { intros q. unfold paidPassenger.
      rewrite swishRefundsOf_insertSwishRefund, existsb_app.
      change (swishPaymentsOf (insertSwishRefund row db) q)
        with (swishPaymentsOf db q).
      change (SwishRefund.participantId row) with (Participant.id participant).
      rewrite Hid.
      destruct (existsb isPaidPayment _), (existsb isPaidRefund _),
        (Nat.eqb _ _); simpl; try reflexivity;
        destruct (isPaidRefund row); reflexivity. }
    split.
    + intros Hpaid q. rewrite Hq, andb_true_iff, negb_true_iff.
      assert (isPaidRefund row = true) as ->
          by (unfold isPaidRefund; subst row; simpl; now rewrite Hpaid).
      rewrite andb_true_r, Nat.eqb_neq.
      split; intros [H1 H2]; split; auto.
    + intros Hnot. apply (read_model_ext db (insertSwishRefund row db)); [reflexivity|].
      intros event. apply busesWithPaidPassengers_ext; [reflexivity|].
      intros b. apply filter_ext. intros q. rewrite Hq.
      assert (isPaidRefund row = false) as ->
          by (unfold isPaidRefund; subst row; simpl;
              destruct (SwishCallbackRefund.status input);
              try reflexivity; contradiction).
      now rewrite andb_false_r, andb_true_r.
Qed.

(** Bo's refund is reported PAID: he no longer counts, Anna still does. *)
Lemma refund_callback_frees_seat_witness :
  paidPassenger Trip.refunded (Trip.boRow 60) = false
  /\ paidPassenger Trip.refunded
       (Participant.mk 0 "Anna" "Anna@mail.test" "46701234567" None "b1"
                       true false 80 "e1" 0) = true.
Proof.
  pose proof (proj2 (refund_callback_frees_seat
                       (Trip.world (Trip.cancelTime + 60000) "")
                       (Trip.refundCallback "R1" SwishRefundStatus.PAID
                                            (Trip.cancelTime + 60000))
                       (prisma (cancelBooking (Trip.world Trip.cancelTime "R1") 1
                                              Trip.paid)))
                    (hd (SwishRefund.mk 0 "" 0 None "" "" 0 ""
                                        SwishRefundStatus.ERROR 0 0 0)
                        (Prisma.swishRefund
                           (prisma (cancelBooking (Trip.world Trip.cancelTime "R1") 1
                                                  Trip.paid))))
                    (Trip.boRow 60) eq_refl eq_refl) as (_ & Hpaid & _).
  specialize (Hpaid eq_refl). split.
  - apply not_true_is_false. intros H. apply Hpaid in H.
    destruct H as [_ H]. apply H. reflexivity.
  - apply Hpaid. split; [vm_compute; reflexivity|]. vm_compute. discriminate.
Defined.

(** ** Strings the handlers build and take apart *)

Lemma length_substring0_le (n : nat) (s : string) :
  (String.length (substring 0 n s) <= n)%nat.
Proof.
  revert s; induction n as [|n IH]; intros [|c s]; simpl; try lia.
  specialize (IH s). lia.
Qed.

Lemma substring0_all (n : nat) (s : string) :
  (String.length s <= n)%nat -> substring 0 n s = s.
Proof.
  revert s; induction n as [|n IH]; intros [|c s]; simpl; intros H;
    try reflexivity; try lia.
  f_equal. apply IH. lia.
Qed.

Lemma substring0_append (n : nat) (s t : string) :
  (n <= String.length s)%nat -> substring 0 n (s ++ t) = substring 0 n s.
Proof.
  revert s; induction n as [|n IH]; intros [|c s]; simpl; intros H;
    try reflexivity; try lia.
  - now destruct t.
  - f_equal. apply IH. lia.
Qed.

Lemma length_replaceAll (a b : ascii) (s : string) :
  String.length (JS.replaceAll a b s) = String.length s.
Proof. induction s as [|c s IH]; simpl; [reflexivity|]. now rewrite IH. Qed.

Lemma replaceAll_removes (a b : ascii) (s : string) :
  a <> b -> ~ In a (list_ascii_of_string (JS.replaceAll a b s)).
Proof.
  intros Hab. induction s as [|c s IH]; simpl; [tauto|].
  intros [H|H]; [|now apply IH].
  destruct (Ascii.eqb c a) eqn:E; [congruence|].
  apply Ascii.eqb_neq in E. congruence.
Qed.

(** X9. The payer-facing message of a signup is at most 50 characters long
    and contains no slash.  A text that fits is kept whole apart from the
    replaced slashes; an event name of 50 characters or more fills the
    message alone, and the number of travellers is cut off. *)
Theorem signupMessage_capped :
  forall event n,
    (String.length (signupMessage event n) <= 50)%nat
    /\ ~ In "/"%char (list_ascii_of_string (signupMessage event n))
    /\ ((String.length (VastraEvent.name event ++ ". " ++ JS.ofNat n ++ " resen"
                          ++ String (ascii_of_nat 228) "rer") <= 50)%nat ->
        signupMessage event n
        = JS.replaceAll "/"%char "-"%char
            (VastraEvent.name event ++ ". " ++ JS.ofNat n ++ " resen"
               ++ String (ascii_of_nat 228) "rer"))
    /\ ((50 <= String.length (VastraEvent.name event))%nat ->
        signupMessage event n
        = JS.replaceAll "/"%char "-"%char (JS.slice0 50 (VastraEvent.name event))).
Proof.
  intros event n. unfold signupMessage, JS.slice0.
  split; [rewrite length_replaceAll; apply length_substring0_le|].
  split; [apply replaceAll_removes; discriminate|].
  split.
  - intros H. now rewrite substring0_all.
  - intros H. now rewrite substring0_append.
Qed.

(** The trip's message for two travellers, and the message of an event with
    a long name. *)
Lemma signupMessage_capped_witness :
  signupMessage Trip.event 2
  = "Norrby-IF borta. 2 resen" ++ String (ascii_of_nat 228) "rer"
  /\ signupMessage
       (VastraEvent.mk "e9" "Svenska Cupen kvartsfinal: Degerfors IF - Norrby IF"
                       0 0 0 0 0) 12
     = "Svenska Cupen kvartsfinal: Degerfors IF - Norrby I".
Proof.
  split.
  - rewrite (proj1 (proj2 (proj2 (signupMessage_capped Trip.event 2)))).
    + reflexivity.
    + vm_compute. repeat constructor.
  - rewrite (proj2 (proj2 (proj2 (signupMessage_capped
              (VastraEvent.mk "e9" "Svenska Cupen kvartsfinal: Degerfors IF - Norrby IF"
                              0 0 0 0 0) 12)))).
    + reflexivity.
    + vm_compute. repeat constructor.
Defined.

Lemma split_nonempty (sep : ascii) (s : string) : JS.split sep s <> [].
Proof.
  destruct s as [|c s]; simpl; [discriminate|].
  destruct (Ascii.eqb c sep); [discriminate|].
  destruct (JS.split sep s); discriminate.
Qed.

(** Joining the segments with the separator gives the string back. *)
Lemma concat_split (sep : ascii) (s : string) :
  String.concat (String sep "") (JS.split sep s) = s.
Proof.
  induction s as [|c s IH]; simpl; [reflexivity|].
  destruct (Ascii.eqb c sep) eqn:E.
  - apply Ascii.eqb_eq in E. subst c.
    pose proof (split_nonempty sep s) as Hne.
    destruct (JS.split sep s) as [|seg segs]; [contradiction|].
    change (String.concat (String sep "") ("" :: seg :: segs))
      with ("" ++ String sep "" ++ String.concat (String sep "") (seg :: segs))%string.
    rewrite IH. reflexivity.
  - pose proof (split_nonempty sep s) as Hne.
    destruct (JS.split sep s) as [|seg segs]; [contradiction|].
    destruct segs as [|seg' segs]; simpl in *; now rewrite <- IH.
Qed.

(** No segment contains the separator. *)
Lemma split_segments (sep : ascii) (s : string) :
  Forall (fun seg => ~ In sep (list_ascii_of_string seg)) (JS.split sep s).
Proof.
  induction s as [|c s IH]; simpl.
  - constructor; [simpl; tauto|constructor].
  - destruct (Ascii.eqb c sep) eqn:E.
    + constructor; [simpl; tauto|exact IH].
    + apply Ascii.eqb_neq in E.
      destruct (JS.split sep s) as [|seg segs]; [repeat constructor; simpl; intuition congruence|].
      inversion IH; subst. constructor; [|assumption].
      simpl. intros [H|H]; [congruence|contradiction].
Qed.

Lemma append_assoc (a b c : string) : ((a ++ b) ++ c = a ++ (b ++ c))%string.
Proof. induction a as [|x a IH]; simpl; [reflexivity|]. now rewrite IH. Qed.

Lemma concat_snoc (sep : string) (l : list string) (x : string) :
  l <> [] ->
  String.concat sep (l ++ [x]) = (String.concat sep l ++ sep ++ x)%string.
Proof.
  induction l as [|y l IH]; [contradiction|]. intros _.
  destruct l as [|z l].
  - reflexivity.
  - change (String.concat sep ((y :: z :: l) ++ [x]))
      with (y ++ sep ++ String.concat sep ((z :: l) ++ [x]))%string.
    rewrite IH by discriminate.
    change (String.concat sep (y :: z :: l))
      with (y ++ sep ++ String.concat sep (z :: l))%string.
    now rewrite !append_assoc.
Qed.

(** The popped segment is what follows the last separator. *)
Lemma pop_split (sep : ascii) (s id : string) :
  JS.pop (JS.split sep s) = Some id ->
  ~ In sep (list_ascii_of_string id)
  /\ (s = id \/ exists before, s = (before ++ String sep id)%string).
Proof.
  unfold JS.pop. intros H.
  pose proof (concat_split sep s) as Hcat.
  pose proof (split_segments sep s) as Hseg.
  destruct (rev (JS.split sep s)) as [|x l] eqn:E; [discriminate|].
  inversion H; subst x; clear H.
  assert (JS.split sep s = (rev l ++ [id])%list) as Hsplit
      by (rewrite <- (rev_involutive (JS.split sep s)), E; reflexivity).
  rewrite Hsplit in Hcat, Hseg. split.
  - apply Forall_app in Hseg. destruct Hseg as [_ Hid]. now inversion Hid.
  - destruct (rev l) as [|y l'] eqn:El.
    + left. simpl in Hcat. congruence.
    + right. rewrite concat_snoc in Hcat by discriminate.
      exists (String.concat (String sep "") (y :: l')). now rewrite <- Hcat.
Qed.

Lemma createdResource_some (reply : Gateway.Reply) (url id : string) :
  createdResource reply = Some (url, id) ->
  reply = Gateway.Accepted (Some url)
  /\ JS.pop (JS.split "/"%char url) = Some id.
Proof.
  destruct reply as [|[u|]]; simpl; try discriminate.
  destruct (JS.pop _) as [i|] eqn:E; simpl; [|discriminate].
  intros H; inversion H; subst. now split.
Qed.

(** X10. The id a handler takes from the gateway is the part of the
    Location after its last slash.  A payment id returned by
    requestSwishPayment contains no slash, and the request URL stored with
    it is that id, or ends with a slash followed by it; a refund id
    returned by cancelBooking contains no slash either. *)
Theorem gateway_id_is_last_segment :
  forall w,
    (forall input db paymentId,
        result (requestSwishPayment w input db) = TRPC.Ok paymentId ->
        exists row,
          hd_error (rev (Prisma.swishPayment (prisma (requestSwishPayment w input db))))
          = Some row
          /\ SwishPayment.paymentId row = paymentId
          /\ ~ In "/"%char (list_ascii_of_string paymentId)
          /\ (SwishPayment.paymentRequestUrl row = paymentId
              \/ exists before,
                  SwishPayment.paymentRequestUrl row
                  = (before ++ String "/"%char paymentId)%string))
    /\ (forall token db refundId,
           result (cancelBooking w token db) = TRPC.Ok refundId ->
           ~ In "/"%char (list_ascii_of_string refundId)).
Proof.
  intros w. split.
  - intros input db paymentId Hok.
    destruct (requestSwishPayment_run w input db)
      as [ | | | | payer rest event db1 created url pid Hp He Hr Hg ];
      try discriminate Hok.
    simpl in Hok. inversion Hok; subst pid.
    apply createdResource_some in Hg. destruct Hg as [_ Hpop].
    apply pop_split in Hpop. destruct Hpop as [Hno Hurl].
    eexists. simpl. rewrite hd_error_rev_snoc.
    split; [reflexivity|]. simpl. repeat split; assumption.
  - intros token db refundId Hok.
    destruct (cancelBooking_run w token db)
      as [ | | participant event payment url rid Hp He Hw Hpay Hz Hg ];
      try discriminate Hok.
    simpl in Hok. inversion Hok; subst rid.
    apply createdResource_some in Hg. destruct Hg as [_ Hpop].
    now apply pop_split in Hpop.
Qed.

(** The trip's signup: the gateway answered with a Location ending in
    /P1. *)
Lemma gateway_id_is_last_segment_witness :
  exists row,
    hd_error (rev (Prisma.swishPayment Trip.signedUp)) = Some row
    /\ SwishPayment.paymentId row = "P1"
    /\ SwishPayment.paymentRequestUrl row
       = "https://mss.test/api/v1/paymentrequests/P1".
Proof.
  destruct (proj1 (gateway_id_is_last_segment (Trip.world Trip.signupTime "P1"))
                  Trip.signup Trip.ledger "P1" eq_refl)
    as (row & Hrow & Hid & _).
  exists row. split; [exact Hrow|]. split; [exact Hid|].
  vm_compute in Hrow. inversion Hrow. reflexivity.
Defined.

(** ** Cost of a booking *)

(** X11. The total cost of a signup does not depend on the order of the
    travellers, is the sum of the totals of any split of the list, and lies
    between the number of travellers times the cheapest and times the
    dearest of the event's four prices. *)
Theorem calculateCost_order_and_bounds :
  forall event participants,
    (forall reordered,
        Permutation participants reordered ->
        calculateCost reordered event = calculateCost participants event)
    /\ (forall first rest,
           participants = (first ++ rest)%list ->
           calculateCost participants event
           = calculateCost first event + calculateCost rest event)
    /\ (forall lo hi,
           lo <= VastraEvent.defaultPrice event <= hi ->
           lo <= VastraEvent.memberPrice event <= hi ->
           lo <= VastraEvent.youthPrice event <= hi ->
           lo <= VastraEvent.youthMemberPrice event <= hi ->
           Z.of_nat (List.length participants) * lo
           <= calculateCost participants event
           <= Z.of_nat (List.length participants) * hi).
Proof.
  intros event participants. split; [|split].
  - intros reordered Hperm. rewrite !calculateCost_sum.
    induction Hperm; simpl; lia.
  - intros first rest ->. rewrite !calculateCost_sum, map_app.
    induction first as [|p first IH]; simpl; lia.
  - intros lo hi Hd Hm Hy Hym. rewrite calculateCost_sum.
    induction participants as [|p ps IH]; [simpl; lia|].
    cbn [map sumZ fold_right List.length].
    assert (lo <= getParticipantCost p event <= hi) as Hp.
    { unfold getParticipantCost.
      destruct (ParticipantInput.youth p), (ParticipantInput.member p);
        simpl; assumption. }
    unfold sumZ in IH. lia.
Qed.

(** Anna and Bo in either order pay 140 on the trip, between 2 x 40 and
    2 x 100. *)
Lemma calculateCost_order_and_bounds_witness :
  calculateCost [Trip.bo; Trip.anna] Trip.event
  = calculateCost [Trip.anna; Trip.bo] Trip.event
  /\ 2 * 40 <= calculateCost [Trip.anna; Trip.bo] Trip.event <= 2 * 100.
Proof.
  destruct (calculateCost_order_and_bounds Trip.event [Trip.anna; Trip.bo])
    as (Hperm & _ & Hbounds).
  split.
  - apply Hperm. apply perm_swap.
  - apply (Hbounds 40 100); vm_compute; split; discriminate.
Defined.

(** ** The departure time shown *)

Lemma format_hh_mm_half_day (date : Z) :
  DateFns.format_hh_mm (date + 43200000) = DateFns.format_hh_mm date.
Proof.
  unfold DateFns.format_hh_mm.
  replace (date + 43200000) with (date + 720 * 60000) by lia.
  rewrite Z.div_add by lia.
  set (m := date / 60000).
  assert ((((m + 720) mod 1440) / 60) mod 12 = ((m mod 1440) / 60) mod 12) as ->.
  { Z.div_mod_to_equations. lia. }
  assert (((m + 720) mod 1440) mod 60 = (m mod 1440) mod 60) as ->.
  { Z.div_mod_to_equations. lia. }
  reflexivity.
Qed.

Lemma twoDigits_length (n : Z) :
  0 <= n < 60 -> String.length (JS.twoDigits n) = 2%nat.
Proof.
  intros H. rewrite <- (Z2Nat.id n) by lia.
  assert (Z.to_nat n < 60)%nat as Hk by lia.
  generalize dependent (Z.to_nat n). clear. intros k Hk.
  do 60 (destruct k as [|k]; [reflexivity|]). lia.
Qed.

Lemma length_append (a b : string) :
  String.length (a ++ b) = (String.length a + String.length b)%nat.
Proof. induction a as [|c a IH]; simpl; [reflexivity|]. now rewrite IH. Qed.

Lemma format_hh_mm_length (date : Z) :
  String.length (DateFns.format_hh_mm date) = 5%nat.
Proof.
  unfold DateFns.format_hh_mm.
  set (m := (date / 60000) mod 1440).
  assert (0 <= m < 1440) as Hm by (apply Z.mod_pos_bound; lia).
  rewrite !length_append, !twoDigits_length; [reflexivity| |].
  - apply Z.mod_pos_bound. lia.
  - pose proof (Z.mod_pos_bound (m / 60) 12 ltac:(lia)).
    destruct (_ =? 0) eqn:E; [lia|]. apply Z.eqb_neq in E. lia.
Qed.

(** X12. The departure time getCancellableParticipant shows is five
    characters, hh:mm on the 12-hour clock without a day period: an event
    departing twelve hours earlier or later is shown with the same time,
    so a morning and an evening departure cannot be told apart. *)
Theorem departureTime_is_twelve_hour :
  forall w token db c,
    result (getCancellableParticipant w token db) = TRPC.Ok c ->
    exists event,
      In event (Prisma.vastraEvent db)
      /\ Cancellable.eventName (Cancellable.who c) = VastraEvent.name event
      /\ Cancellable.departureTime (Cancellable.who c)
         = DateFns.format_hh_mm (VastraEvent.date event)
      /\ String.length (Cancellable.departureTime (Cancellable.who c)) = 5%nat
      /\ DateFns.format_hh_mm (VastraEvent.date event + 43200000)
         = Cancellable.departureTime (Cancellable.who c)
      /\ DateFns.format_hh_mm (VastraEvent.date event - 43200000)
         = Cancellable.departureTime (Cancellable.who c).
Proof.
  intros w token db c. unfold getCancellableParticipant.
  destruct (find _ (Prisma.participant db)) as [participant|]; [|discriminate].
  destruct (find isPaidPayment _) as [payment|]; [|discriminate].
  destruct (eventOf db participant) as [event|] eqn:He; [|discriminate].
  destruct (DateFns.isBefore _ _); [discriminate|].
  simpl. intros H. inversion H; subst c; clear H. simpl.
  exists event. apply find_some in He. destruct He as [Hin _].
  split; [exact Hin|]. split; [reflexivity|]. split; [reflexivity|].
  split; [apply format_hh_mm_length|]. split; [apply format_hh_mm_half_day|].
  rewrite <- (format_hh_mm_half_day (VastraEvent.date event - 43200000)).
  f_equal. lia.
Qed.

(** The trip leaves at 22:13 UTC and is shown as 10:13, as a departure at
    10:13 would be. *)
Lemma departureTime_is_twelve_hour_witness :
  exists event,
    In event (Prisma.vastraEvent Trip.paid)
    /\ VastraEvent.date event = 1700000000000
    /\ DateFns.format_hh_mm (VastraEvent.date event) = "10:13"
    /\ DateFns.format_hh_mm (VastraEvent.date event - 43200000) = "10:13".
Proof.
  destruct (departureTime_is_twelve_hour
              (Trip.world Trip.cancelTime "") 1 Trip.paid
              (Cancellable.mk
                 (Cancellable.mkParticipant "Bo" "Bo@mail.test" 1
                    "Norrby/IF borta" 60 "10:13" None "P1")
                 false false)
              eq_refl)
    as (event & Hin & _ & Htime & _ & _ & Hminus).
  exists event. split; [exact Hin|].
  destruct Hin as [<-|[]]. split; [reflexivity|].
  split; [symmetry; exact Htime|exact Hminus].
Defined.

(** ** The start page *)

Lemma find_hd_error_filter {A : Type} (f : A -> bool) (l : list A) :
  find f l = hd_error (filter f l).
Proof.
  induction l as [|x l IH]; simpl; [reflexivity|]. now destruct (f x).
Qed.

(** X13. The start page shows the first game of the away-games list, with
    the same seat counts, and no game exactly when that list is empty; the
    member count is passed through and the ledger is not touched. *)
Theorem getStartPage_shows_first_away_game :
  forall memberCount w db,
    exists games,
      result (getAwayGames w db) = TRPC.Ok games
      /\ result (getStartPage memberCount w db)
         = TRPC.Ok (StartPage.mk memberCount (hd_error games))
      /\ prisma (getStartPage memberCount w db) = db.
Proof.
  intros memberCount w db. unfold getAwayGames, getStartPage. simpl.
  eexists. split; [reflexivity|].
  rewrite find_hd_error_filter.
  destruct (filter _ (Prisma.vastraEvent db)); simpl; split; reflexivity.
Qed.

(** ** From signup to confirmation *)

Lemma find_unique_id (l : list Participant.t) (q : Participant.t) :
  NoDup (map Participant.id l) ->
  In q l ->
  find (fun p => Nat.eqb (Participant.id p) (Participant.id q)) l = Some q.
Proof.
  induction l as [|x l IH]; intros Hnd Hin; [contradiction|].
  simpl in *. inversion Hnd as [|? ? Hx Hl]; subst.
  destruct Hin as [->|Hin].
  - now rewrite Nat.eqb_refl.
  - destruct (Nat.eqb (Participant.id x) (Participant.id q)) eqn:E.
    + apply Nat.eqb_eq in E. exfalso. apply Hx. rewrite E. now apply in_map.
    + now apply IH.
Qed.

Lemma participantsOf_own_ids (db : Prisma.t) (rows : list Participant.t) :
  NoDup (map Participant.id (Prisma.participant db)) ->
  (forall q, In q rows -> In q (Prisma.participant db)) ->
  participantsOf db (map Participant.id rows) = rows.
Proof.
  intros Hnd Hin. unfold participantsOf.
  induction rows as [|q rows IH]; simpl; [reflexivity|].
  rewrite (find_unique_id _ q Hnd (Hin q (or_introl eq_refl))). simpl.
  f_equal. apply IH. intros x Hx. apply Hin. now right.
Qed.

Lemma find_app_none {A : Type} (f : A -> bool) (l l' : list A) :
  (forall x, In x l -> f x = false) -> find f (l ++ l') = find f l'.
Proof.
  induction l as [|y l IH]; intros H; simpl; [reflexivity|].
  rewrite (H y (or_introl eq_refl)). apply IH. intros x Hx. apply H. now right.
Qed.

(** X14. From signup to confirmation.  On a ledger that satisfies the
    invariant, when requestSwishPayment returns a payment id that no
    earlier payment request carries, the gateway's PAID callback for that
    id is acknowledged and attempts a confirmation mail to exactly the
    participants that signup stored, one per traveller of the request and
    in their order, and to nobody else. *)
Theorem signup_then_paid_mails_the_travellers :
  forall w input db paymentId w' callback,
    ledgerInvariant db ->
    result (requestSwishPayment w input db) = TRPC.Ok paymentId ->
    (forall r, In r (Prisma.swishPayment db) -> SwishPayment.paymentId r <> paymentId) ->
    SwishCallbackPayment.id callback = paymentId ->
    SwishCallbackPayment.status callback = SwishPaymentStatus.PAID ->
    exists event created,
      Prisma.participant (prisma (requestSwishPayment w input db))
      = (Prisma.participant db ++ created)%list
      /\ Forall2 (storedFor event) (SignupInput.participants input) created
      /\ result (swishPaymentCallback w' callback
                   (prisma (requestSwishPayment w input db))) = TRPC.Ok 200
      /\ emailsSent (swishPaymentCallback w' callback
                       (prisma (requestSwishPayment w input db))) = created.
Proof.
  intros w input db paymentId w' callback Hinv Hok Hfresh Hid Hpaid.
  pose proof (ledgerInvariant_requestSwishPayment w input db Hinv)
    as (_ & _ & _ & Hnodup).
  destruct (requestSwishPayment_run w input db)
    as [ | | | | payer rest event db1 created url pid Hp He Hr Hg ];
    try discriminate Hok.
  simpl in Hok. inversion Hok; subst pid. clear Hok.
  destruct (runAll_signupWrites _ _ _ _ _ _ Hr)
    as (Hpart & _ & _ & Hpay & _ & _ & _ & Hst).
  exists event, created. simpl prisma in *.
  split; [exact Hpart|]. split; [exact Hst|].
  set (row := SwishPayment.mk _ _ _ _ _ _ _ _ _ _ _ _ _ _) in *.
  assert (find (fun p => String.eqb (SwishPayment.paymentId p)
                                    (SwishCallbackPayment.id callback))
               (Prisma.swishPayment (insertSwishPayment row db1)) = Some row)
    as Hfind.
  { simpl. rewrite Hpay, find_app_none.
    - simpl. subst row. simpl. now rewrite Hid, String.eqb_refl.
    - intros r Hin. apply String.eqb_neq. rewrite Hid. now apply Hfresh. }
  destruct (swishPaymentCallback_known w' callback _ row Hfind)
    as (_ & Hres & Hsent).
  split; [exact Hres|]. rewrite Hsent.
  unfold isPaidPayment. simpl. rewrite Hpaid. simpl.
  apply participantsOf_own_ids; [exact Hnodup|].
  intros q Hq. simpl. rewrite Hpart. apply in_or_app. now right.
Qed.

(** Anna and Bo sign up on the empty trip and the payment is reported
    PAID: the two mails go to Anna and Bo. *)
Lemma signup_then_paid_mails_the_travellers_witness :
  map Participant.name
      (emailsSent (swishPaymentCallback (Trip.world Trip.paidTime "")
                     (Trip.callback SwishPaymentStatus.PAID Trip.paidTime)
                     Trip.signedUp))
  = ["Anna"; "Bo"].
Proof.
  destruct (signup_then_paid_mails_the_travellers
              (Trip.world Trip.signupTime "P1") Trip.signup Trip.ledger "P1"
              (Trip.world Trip.paidTime "")
              (Trip.callback SwishPaymentStatus.PAID Trip.paidTime)
              (ledgerInvariant_no_bookings _ _ _) eq_refl)
    as (event & created & Hpart & _ & _ & Hsent).
  - intros r [].
  - reflexivity.
  - reflexivity.
  - unfold Trip.signedUp. rewrite Hsent.
    vm_compute in Hpart. inversion Hpart. reflexivity.
Defined.

(** The ledger after Bo was refunded and the link was used again is
    reachable from the empty trip, and so satisfies the invariant. *)
Lemma reachable_ledgerInvariant_witness :
  ledgerInvariant Trip.cancelledAgain.
Proof.
  apply reachable_ledgerInvariant.
  unfold Trip.cancelledAgain, Trip.refunded, Trip.paid, Trip.signedUp, Trip.ledger.
  apply ReachCancel, ReachRefundCallback, ReachCancel, ReachPaymentCallback,
    ReachSignup, ReachStart.
Defined.

(** ** The passenger forms *)

Lemma addPassenger_iter (k : nat) :
  Nat.iter k AwayGameForm.addPassenger AwayGameForm.initialPassengers
  = (0 :: seq 2 k)%nat.
Proof.
  induction k as [|k IH]; [reflexivity|].
  rewrite Nat.iter_succ, IH. unfold AwayGameForm.addPassenger.
  rewrite seq_S. cbn [List.length app]. rewrite length_seq.
  do 3 f_equal. lia.
Qed.

Lemma removePassenger_length (x : nat) (l : list nat) :
  NoDup l -> In x l ->
  S (List.length (AwayGameForm.removePassenger x l)) = List.length l.
Proof.
  unfold AwayGameForm.removePassenger.
  induction l as [|y l IH]; intros Hnd Hin; [contradiction|].
  inversion Hnd as [|? ? Hy Hl]; subst. simpl.
  destruct (Nat.eqb y x) eqn:E; simpl.
  - apply Nat.eqb_eq in E. subst y. f_equal.
    clear IH Hin Hnd Hl. induction l as [|z l IH]; [reflexivity|]. simpl.
    destruct (Nat.eqb z x) eqn:Ez.
    + apply Nat.eqb_eq in Ez. subst z. exfalso. apply Hy. now left.
    + simpl. f_equal. apply IH. intros H. apply Hy. now right.
  - f_equal. apply IH; [assumption|].
    destruct Hin as [->|Hin]; [|assumption].
    rewrite Nat.eqb_refl in E. discriminate.
Qed.

(** X15. The indices of the passenger forms.  Adding passengers alone never
    gives two forms the same index.  But once a passenger other than the
    last has been removed, the next added passenger gets the index of the
    last form: two forms then share index, React key and field names. *)
Theorem passenger_indices_collide :
  forall k,
    NoDup (Nat.iter k AwayGameForm.addPassenger AwayGameForm.initialPassengers)
    /\ (forall x,
           (2 <= x <= k + 1)%nat ->
           AwayGameForm.removable x = true
           /\ In x (Nat.iter (S k) AwayGameForm.addPassenger
                             AwayGameForm.initialPassengers)
           /\ ~ NoDup (AwayGameForm.addPassenger
                         (AwayGameForm.removePassenger x
                            (Nat.iter (S k) AwayGameForm.addPassenger
                                      AwayGameForm.initialPassengers)))).
Proof.
  intros k. rewrite !addPassenger_iter.
  assert (forall n, NoDup (0 :: seq 2 n)%nat) as Hnd.
  { intros n. constructor; [|apply seq_NoDup].
    intros H. apply in_seq in H. lia. }
  split; [apply Hnd|].
  intros x Hx.
  assert (In x (0 :: seq 2 (S k))%nat) as Hin
      by (right; apply in_seq; lia).
  split; [apply Nat.ltb_lt; lia|]. split; [exact Hin|].
  assert (S (List.length (AwayGameForm.removePassenger x (0 :: seq 2 (S k))%nat))
          = S (S k)) as Hlen.
  { rewrite (removePassenger_length x _ (Hnd (S k)) Hin).
    cbn [List.length]. now rewrite length_seq. }
  unfold AwayGameForm.addPassenger.
  assert (List.length (AwayGameForm.removePassenger x (0 :: seq 2 (S k))%nat)
          = S k) as -> by (apply eq_add_S; exact Hlen).
  intros Hdup. apply NoDup_remove_2 in Hdup. rewrite app_nil_r in Hdup.
  apply Hdup. unfold AwayGameForm.removePassenger. apply filter_In. split.
  - right. apply in_seq. lia.
  - apply negb_true_iff, Nat.eqb_neq. lia.
Qed.

(** Two passengers are added, the first of them is removed, one more is
    added: the forms have the indices 0, 3 and 3. *)
Lemma passenger_indices_collide_witness :
  AwayGameForm.addPassenger
    (AwayGameForm.removePassenger 2
       (Nat.iter 2 AwayGameForm.addPassenger AwayGameForm.initialPassengers))
  = [0; 3; 3]%nat
  /\ ~ NoDup (AwayGameForm.addPassenger
                (AwayGameForm.removePassenger 2
                   (Nat.iter 2 AwayGameForm.addPassenger
                             AwayGameForm.initialPassengers))).
Proof.
  split; [reflexivity|].
  apply (proj2 (passenger_indices_collide 1) 2%nat). lia.
Defined.

(** ** The buttons of a listed game *)

(** X16. Every game getAwayGames lists gets at least one button, whenever
    the page is rendered.  It gets the signup button exactly when booked
    seats are below the seats, also after departure: a game that has
    departed and is not full shows both the signup button and "already
    departed", and getAwayGames keeps listing a game until eight hours
    after its departure. *)
Theorem listed_game_buttons :
  forall w db games game renderTime,
    result (getAwayGames w db) = TRPC.Ok games ->
    In game games ->
    World.now w - 28800000 <= VastraEvent.date (AwayGame.event game)
    /\ Home.buttons renderTime game <> []
    /\ (In Home.SignUp (Home.buttons renderTime game)
        <-> AwayGame.bookedSeats game < AwayGame.maxSeats game)
    /\ (AwayGame.bookedSeats game < AwayGame.maxSeats game ->
        VastraEvent.date (AwayGame.event game) < renderTime ->
        Home.buttons renderTime game = [Home.SignUp; Home.AlreadyDeparted]).
Proof.
  intros w db games game renderTime H Hin. unfold getAwayGames in H. simpl in H.
  inversion H; subst games; clear H.
  apply in_map_iff in Hin. destruct Hin as (event & <- & Hev).
  apply filter_In in Hev. destruct Hev as [_ Hdate].
  apply Z.leb_le in Hdate.
  unfold DateFns.subHours, DateFns.msPerHour in Hdate.
  split; [simpl; lia|].
  unfold Home.buttons.
  set (game := withSeatCounts event _).
  destruct (AwayGame.bookedSeats game <? AwayGame.maxSeats game) eqn:Efree;
    destruct (AwayGame.maxSeats game <=? AwayGame.bookedSeats game) eqn:Efull;
    destruct (VastraEvent.date (AwayGame.event game) <? renderTime) eqn:Epast;
    try apply Z.ltb_lt in Efree; try apply Z.ltb_ge in Efree;
    try apply Z.leb_le in Efull; try apply Z.leb_gt in Efull;
    try apply Z.ltb_lt in Epast; try apply Z.ltb_ge in Epast;
    try (exfalso; lia); cbn [andb negb app].
  - split; [discriminate|]. split; [split; [auto|intros; now left]|reflexivity].
  - split; [discriminate|]. split; [split; [auto|intros; now left]|intros; lia].
  - split; [discriminate|]. split; [|intros; lia].
    split; [intros [H|[]]; discriminate H|intros; lia].
  - split; [discriminate|]. split; [|intros; lia].
    split; [intros [H|[]]; discriminate H|intros; lia].
Qed.

(** Nine seats of ten are taken on the trip; listed an hour after
    departure and rendered three hours after it, the game has the signup
    button. *)
Lemma listed_game_buttons_witness :
  exists game,
    result (getAwayGames (Trip.world (Trip.departure + 3600000) "") Trip.ninePaid)
    = TRPC.Ok [game]
    /\ AwayGame.bookedSeats game = 9
    /\ Home.buttons (Trip.departure + 10800000) game
       = [Home.SignUp; Home.AlreadyDeparted].
Proof.
  exists (withSeatCounts Trip.event
            (busesWithPaidPassengers Trip.ninePaid Trip.event)).
  split; [vm_compute; reflexivity|]. split; [vm_compute; reflexivity|].
  apply (proj2 (proj2 (proj2 (listed_game_buttons
           (Trip.world (Trip.departure + 3600000) "") Trip.ninePaid
           [withSeatCounts Trip.event
              (busesWithPaidPassengers Trip.ninePaid Trip.event)]
           (withSeatCounts Trip.event
              (busesWithPaidPassengers Trip.ninePaid Trip.event))
           (Trip.departure + 10800000)
           ltac:(vm_compute; reflexivity) (or_introl eq_refl))))).
  - vm_compute. reflexivity.
  - vm_compute. reflexivity.
Defined.

(** ** Stripping tags *)

Lemma chars_append (a b : string) : list_ascii_of_string (a ++ b) = (list_ascii_of_string a ++ list_ascii_of_string b)%list.
Proof. induction a as [|c a IH]; simpl; [reflexivity|]. now rewrite IH. Qed.

Lemma afterGt_none (s : string) :
  Wordpress.afterGt s = None <-> ~ In ">"%char (list_ascii_of_string s).
Proof.
  induction s as [|c s IH]; simpl; [tauto|].
  destruct (Ascii.eqb c ">"%char) eqn:E.
  - apply Ascii.eqb_eq in E. subst c. split; [discriminate|]. intros H. exfalso. auto.
  - apply Ascii.eqb_neq in E. rewrite IH. split.
    + intros H [Hc|Hc]; [congruence|contradiction].
    + intros H Hc. apply H. now right.
Qed.

Lemma afterGt_some (s rest : string) :
  Wordpress.afterGt s = Some rest <->
  exists inner, s = (inner ++ String ">"%char rest)%string /\ ~ In ">"%char (list_ascii_of_string inner).
Proof.
  revert rest. induction s as [|c s IH]; intros rest; simpl.
  - split; [discriminate|]. intros ([|x inner] & H & _); discriminate.
  - destruct (Ascii.eqb c ">"%char) eqn:E.
    + apply Ascii.eqb_eq in E. subst c. split.
      * intros H. inversion H. exists ""%string. split; [reflexivity|]. simpl. tauto.
      * intros ([|x inner] & H & Hno); simpl in H; inversion H; [reflexivity|].
        subst x. exfalso. apply Hno. now left.
    + apply Ascii.eqb_neq in E. rewrite IH. split.
      * intros (inner & -> & Hno). exists (String c inner). split; [reflexivity|].
        simpl. intros [H|H]; [congruence|contradiction].
      * intros ([|x inner] & H & Hno); simpl in H; inversion H; [congruence|].
        subst. exists inner. split; [reflexivity|]. intros Hin. apply Hno. now right.
Qed.

(** A tag starts a string exactly when the string is an opening bracket, a
    non-empty inside without closing bracket, a closing bracket, and a
    rest. *)
Lemma matchTag_some (s rest : string) :
  Wordpress.matchTag s = Some rest <->
  exists inner,
    s = String "<"%char (inner ++ String ">"%char rest)
    /\ inner <> ""%string /\ ~ In ">"%char (list_ascii_of_string inner).
Proof.
  unfold Wordpress.matchTag. destruct s as [|c [|d s]].
  - split; [discriminate|]. intros (inner & H & _). discriminate.
  - split; [discriminate|]. intros ([|x [|y inner]] & H & Hne & _);
      try discriminate; contradiction.
  - destruct (Ascii.eqb_spec c "<"%char) as [Ec|Ec];
      destruct (Ascii.eqb_spec d ">"%char) as [Ed|Ed]; simpl; subst.
    + split; [discriminate|].
      intros ([|x inner] & H & Hne & Hno); [contradiction|].
      simpl in H. inversion H; subst. exfalso. apply Hno. now left.
    + rewrite afterGt_some. split.
      * intros (inner & -> & Hno). exists (String d inner).
        split; [reflexivity|]. split; [discriminate|].
        simpl. intros [H|H]; [congruence|contradiction].
      * intros ([|x inner] & H & Hne & Hno); [contradiction|].
        simpl in H. inversion H; subst. exists inner. split; [reflexivity|].
        intros Hin. apply Hno. now right.
    + split; [discriminate|]. intros (inner & H & _). inversion H. congruence.
    + split; [discriminate|]. intros (inner & H & _). inversion H. congruence.
Qed.

Lemma afterGt_shorter (s rest : string) :
  Wordpress.afterGt s = Some rest -> (String.length rest < String.length s)%nat.
Proof.
  revert rest. induction s as [|c s IH]; intros rest; simpl; [discriminate|].
  destruct (Ascii.eqb c ">"%char).
  - intros H. inversion H. lia.
  - intros H. apply IH in H. lia.
Qed.

Lemma matchTag_shorter (s rest : string) :
  Wordpress.matchTag s = Some rest -> (String.length rest < String.length s)%nat.
Proof.
  unfold Wordpress.matchTag. destruct s as [|c [|d s]]; try discriminate.
  destruct (_ && _); [|discriminate].
  intros H. apply afterGt_shorter in H. simpl. lia.
Qed.

Lemma replaceTags_tagFree (fuel : nat) (s : string) :
  tagFree s -> Wordpress.replaceTags fuel s = s.
Proof.
  revert s. induction fuel as [|fuel IH]; intros s H; [reflexivity|].
  destruct s as [|c s]; [reflexivity|].
  cbn [tagFree] in H. destruct H as [Hm Hrest].
  cbn [Wordpress.replaceTags]. rewrite Hm. f_equal. now apply IH.
Qed.

Lemma tagFree_no_closing (s : string) : ~ In ">"%char (list_ascii_of_string s) -> tagFree s.
Proof.
  induction s as [|c s IH]; intros H; cbn [tagFree].
  - split; [reflexivity|exact I].
  - split.
    + destruct (Wordpress.matchTag (String c s)) as [rest|] eqn:E; [|reflexivity].
      apply matchTag_some in E. destruct E as (inner & Hs & _ & _).
      exfalso. apply H. rewrite Hs. simpl. right. rewrite chars_append.
      apply in_or_app. right. now left.
    + apply IH. intros Hin. apply H. simpl. now right.
Qed.

Lemma replaceTags_is_tagFree (fuel : nat) (s : string) :
  (String.length s <= fuel)%nat -> tagFree (Wordpress.replaceTags fuel s).
Proof.
  revert s. induction fuel as [|fuel IH]; intros s Hlen.
  - destruct s; simpl in Hlen; [|lia]. simpl. split; [reflexivity|exact I].
  - cbn [Wordpress.replaceTags].
    destruct (Wordpress.matchTag s) as [rest|] eqn:Em.
    + apply IH. apply matchTag_shorter in Em. lia.
    + destruct s as [|c s]; [simpl; split; [reflexivity|exact I]|].
      simpl in Hlen. cbn [tagFree]. split; [|apply IH; lia].
      (* no tag starts at the kept character *)
      destruct (Wordpress.matchTag (String c (Wordpress.replaceTags fuel s)))
        as [rest|] eqn:E; [|reflexivity].
      exfalso. apply matchTag_some in E.
      destruct E as (inner & Hs & Hne & Hno). inversion Hs as [[Hc Hrest]].
      subst c. clear Hs.
      destruct s as [|d s'].
      * destruct fuel; simpl in Hrest; destruct inner; discriminate.
      * destruct (Ascii.eqb d ">"%char) eqn:Ed.
        -- apply Ascii.eqb_eq in Ed. subst d.
           destruct fuel as [|fuel']; [simpl in Hlen; lia|].
           cbn [Wordpress.replaceTags] in Hrest.
           assert (Wordpress.matchTag (String ">"%char s') = None) as Hgt
               by (now destruct s').
           rewrite Hgt in Hrest.
           destruct inner as [|x inner]; [contradiction|].
           simpl in Hrest. inversion Hrest. subst x. apply Hno. now left.
        -- assert (Wordpress.afterGt s' = None) as Hnone.
           { unfold Wordpress.matchTag in Em. simpl in Em. rewrite Ed in Em.
             exact Em. }
           apply afterGt_none in Hnone.
           assert (~ In ">"%char (list_ascii_of_string (String d s'))) as Hfree.
           { simpl. intros [H|H]; [|contradiction].
             apply Ascii.eqb_neq in Ed. congruence. }
           rewrite (replaceTags_tagFree fuel _ (tagFree_no_closing _ Hfree)) in Hrest.
           apply Hfree. rewrite Hrest, chars_append. apply in_or_app. right. now left.
Qed.

Lemma replaceTags_length (fuel : nat) (s : string) :
  (String.length (Wordpress.replaceTags fuel s) <= String.length s)%nat.
Proof.
  revert s. induction fuel as [|fuel IH]; intros s; [simpl; lia|].
  cbn [Wordpress.replaceTags].
  destruct (Wordpress.matchTag s) as [rest|] eqn:Em.
  - apply matchTag_shorter in Em. specialize (IH rest). lia.
  - destruct s as [|c s]; simpl; [lia|]. specialize (IH s). lia.
Qed.

Lemma tagFree_suffix (before rest : string) :
  tagFree (before ++ rest) -> tagFree rest.
Proof.
  induction before as [|c before IH]; simpl; [auto|]. intros [_ H]. now apply IH.
Qed.

(** X17. stripHtmlTags removes every tag: its result holds no opening
    bracket followed by a non-empty text without closing bracket and a
    closing bracket.  The result is never longer than the input, a text
    without closing bracket is returned as it is, and stripping twice is
    stripping once. *)
Theorem stripHtmlTags_removes_tags :
  forall html,
    (forall before inner rest,
        Wordpress.stripHtmlTags html
        = (before ++ String "<"%char (inner ++ String ">"%char rest))%string ->
        inner = ""%string \/ In ">"%char (list_ascii_of_string inner))
    /\ (String.length (Wordpress.stripHtmlTags html) <= String.length html)%nat
    /\ (~ In ">"%char (list_ascii_of_string html) -> Wordpress.stripHtmlTags html = html)
    /\ Wordpress.stripHtmlTags (Wordpress.stripHtmlTags html)
       = Wordpress.stripHtmlTags html.
Proof.
  intros html. unfold Wordpress.stripHtmlTags.
  pose proof (replaceTags_is_tagFree (String.length html) html (Nat.le_refl _))
    as Hfree.
  split; [|split; [|split]].
  - intros before inner rest Heq. rewrite Heq in Hfree.
    apply tagFree_suffix in Hfree. destruct Hfree as [Hm _].
    destruct inner as [|c inner]; [now left|]. right.
    destruct (in_dec ascii_dec ">"%char (list_ascii_of_string (String c inner))) as [Hin|Hno];
      [exact Hin|].
    exfalso.
    assert (Wordpress.matchTag
              (String "<"%char (String c inner ++ String ">"%char rest))
            = Some rest) as Hsome.
    { apply matchTag_some. exists (String c inner).
      split; [reflexivity|]. split; [discriminate|exact Hno]. }
    congruence.
  - apply replaceTags_length.
  - intros Hno. apply replaceTags_tagFree. now apply tagFree_no_closing.
  - now apply replaceTags_tagFree.
Qed.

(** A paragraph is stripped of its tags; a comparison without closing
    bracket is left alone. *)
Lemma stripHtmlTags_removes_tags_witness :
  Wordpress.stripHtmlTags "<p>Hej <b>du</b>.</p>" = "Hej du."
  /\ Wordpress.stripHtmlTags "a < b" = "a < b".
Proof.
  split; [reflexivity|].
  apply (proj1 (proj2 (proj2 (stripHtmlTags_removes_tags "a < b")))).
  vm_compute. intuition discriminate.
Defined.

(** ** Excerpts *)

Lemma concat_chars (sep : string) (l : list string) (c : ascii) :
  In c (list_ascii_of_string (String.concat sep l)) ->
  In c (list_ascii_of_string sep)
  \/ exists seg, In seg l /\ In c (list_ascii_of_string seg).
Proof.
  induction l as [|x l IH]; [intros []|].
  destruct l as [|y l].
  - simpl. intros H. right. exists x. split; [now left|exact H].
  - change (String.concat sep (x :: y :: l))
      with (x ++ sep ++ String.concat sep (y :: l))%string.
    rewrite !chars_append. intros H.
    apply in_app_or in H. destruct H as [H|H].
    + right. exists x. split; [now left|exact H].
    + apply in_app_or in H. destruct H as [H|H]; [now left|].
      destruct (IH H) as [H'|(seg & Hseg & Hc)]; [now left|].
      right. exists seg. split; [now right|exact Hc].
Qed.

Lemma split_without_separator (sep : ascii) (s : string) :
  ~ In sep (list_ascii_of_string s) -> JS.split sep s = [s].
Proof.
  induction s as [|c s IH]; intros H; [reflexivity|]. simpl.
  destruct (Ascii.eqb_spec c sep) as [->|Hne].
  - exfalso. apply H. now left.
  - rewrite IH; [reflexivity|]. intros Hin. apply H. now right.
Qed.

(** X18. An excerpt ends with a period and holds no other: it is a text
    without periods followed by one period.  With no sentence asked for it
    is the period alone; and a text that, stripped of its tags, has no
    period at all is kept whole, with the period added. *)
Theorem excerpt_has_one_period :
  forall n text,
    (exists body,
        Wordpress.excerpt n text = (body ++ ".")%string
        /\ ~ In "."%char (list_ascii_of_string body))
    /\ Wordpress.excerpt 0 text = "."%string
    /\ (~ In "."%char (list_ascii_of_string (Wordpress.stripHtmlTags text)) ->
        Wordpress.excerpt (S n) text
        = (Wordpress.stripHtmlTags text ++ ".")%string).
Proof.
  intros n text. unfold Wordpress.excerpt. split; [|split].
  - eexists. split; [reflexivity|].
    intros Hin. apply concat_chars in Hin.
    destruct Hin as [Hin|(seg & Hseg & Hc)].
    + simpl in Hin. destruct Hin as [H|[]]. discriminate H.
    + assert (In seg (JS.split "."%char (Wordpress.stripHtmlTags text))) as Hseg'
          by (rewrite <- (firstn_skipn n); apply in_or_app; now left).
      clear Hseg. rename Hseg' into Hseg.
      pose proof (split_segments "."%char (Wordpress.stripHtmlTags text)) as Hall.
      rewrite Forall_forall in Hall. exact (Hall seg Hseg Hc).
  - reflexivity.
  - intros Hno. rewrite split_without_separator by exact Hno.
    simpl. now destruct n.
Qed.

(** A news text of five sentences gives an excerpt of four, joined by the
    blank that follows each period and the blank of the join. *)
Lemma excerpt_has_one_period_witness :
  Wordpress.excerpt 4 "<p>Ett. Tv. Tre. Fyra. Fem.</p>" = "Ett  Tv  Tre  Fyra."
  /\ Wordpress.excerpt 3 "<h1>Rubrik</h1>" = "Rubrik.".
Proof.
  split; [reflexivity|].
  apply (proj2 (proj2 (excerpt_has_one_period 2 "<h1>Rubrik</h1>"))).
  vm_compute. intuition discriminate.
Defined.

(** ** Away guides *)

Lemma byDivision_groups (divisions : list string) (guides : list Wordpress.AwayGuide)
      (group : string * list Wordpress.AwayGuide) :
  In group (Wordpress.byDivision divisions guides)
  <-> In (fst group) divisions
      /\ snd group
         = filter (fun guide => String.eqb (Wordpress.division guide) (fst group)) guides
      /\ snd group <> [].
Proof.
  unfold Wordpress.byDivision. rewrite filter_In, in_map_iff. split.
  - intros ((d & <- & Hd) & Hlen). simpl in *.
    repeat split; try assumption.
    intros Hnil. rewrite Hnil in Hlen. discriminate.
  - intros (Hd & Hg & Hne). destruct group as [d gs]. simpl in *. split.
    + exists d. split; [now rewrite Hg|assumption].
    + destruct gs; [contradiction|reflexivity].
Qed.

(** X19. Grouping the away guides by division.  The groups come in the
    order of the division list and only for divisions that have a guide;
    each group holds exactly the guides of its division, in their order.
    A guide is in some group exactly when its division is in the list: a
    guide of a division the list does not name is dropped. *)
Theorem byDivision_partitions :
  forall divisions guides,
    map fst (Wordpress.byDivision divisions guides)
    = filter (fun d => existsb (fun guide => String.eqb (Wordpress.division guide) d)
                               guides)
             divisions
    /\ (forall group,
           In group (Wordpress.byDivision divisions guides) ->
           snd group <> []
           /\ snd group
              = filter (fun guide => String.eqb (Wordpress.division guide) (fst group))
                       guides)
    /\ (forall guide,
           In guide guides ->
           (exists group,
               In group (Wordpress.byDivision divisions guides)
               /\ In guide (snd group))
           <-> In (Wordpress.division guide) divisions).
Proof.
  intros divisions guides. split; [|split].
  - unfold Wordpress.byDivision.
    induction divisions as [|d divisions IH]; [reflexivity|]. simpl.
    destruct (filter _ guides) as [|g gs] eqn:E; simpl.
    + assert (existsb (fun guide => String.eqb (Wordpress.division guide) d) guides
              = false) as ->; [|exact IH].
      apply not_true_is_false. intros H. apply existsb_exists in H.
      destruct H as (x & Hx & Hd).
      assert (In x (filter (fun guide => String.eqb (Wordpress.division guide) d)
                           guides)) as Hin by (apply filter_In; now split).
      rewrite E in Hin. contradiction.
    + assert (existsb (fun guide => String.eqb (Wordpress.division guide) d) guides
              = true) as ->; [|now rewrite IH].
      apply existsb_exists. exists g.
      assert (In g (g :: gs)) as Hin by now left.
      rewrite <- E in Hin. now apply filter_In in Hin.
  - intros group Hin. apply byDivision_groups in Hin. tauto.
  - intros guide Hguide. split.
    + intros (group & Hin & Hg). apply byDivision_groups in Hin.
      destruct Hin as (Hd & Heq & _). rewrite Heq in Hg.
      apply filter_In in Hg. destruct Hg as [_ Hg].
      apply String.eqb_eq in Hg. now rewrite Hg.
    + intros Hd.
      exists (Wordpress.division guide,
              filter (fun g => String.eqb (Wordpress.division g)
                                          (Wordpress.division guide)) guides).
      assert (In guide (filter (fun g => String.eqb (Wordpress.division g)
                                                    (Wordpress.division guide))
                               guides)) as Hin
          by (apply filter_In; split; [assumption|apply String.eqb_refl]).
      split; [|exact Hin].
      apply byDivision_groups. simpl. repeat split; try assumption.
      intros Hnil. rewrite Hnil in Hin. contradiction.
Qed.

(** Two football divisions are known; the guide of a third division is in
    no group. *)
Lemma byDivision_partitions_witness :
  Wordpress.byDivision ["Allsvenskan"; "Superettan"]
    [Wordpress.mkGuide "gais" "Fotboll" "Superettan";
     Wordpress.mkGuide "motala" "Fotboll" "Division 2";
     Wordpress.mkGuide "orgryte" "Fotboll" "Superettan"]
  = [("Superettan", [Wordpress.mkGuide "gais" "Fotboll" "Superettan";
                     Wordpress.mkGuide "orgryte" "Fotboll" "Superettan"])]
  /\ ~ exists group,
        In group (Wordpress.byDivision ["Allsvenskan"; "Superettan"]
                    [Wordpress.mkGuide "gais" "Fotboll" "Superettan";
                     Wordpress.mkGuide "motala" "Fotboll" "Division 2";
                     Wordpress.mkGuide "orgryte" "Fotboll" "Superettan"])
        /\ In (Wordpress.mkGuide "motala" "Fotboll" "Division 2") (snd group).
Proof.
  split; [reflexivity|].
  intros H.
  apply (proj2 (proj2 (byDivision_partitions ["Allsvenskan"; "Superettan"]
                         [Wordpress.mkGuide "gais" "Fotboll" "Superettan";
                          Wordpress.mkGuide "motala" "Fotboll" "Division 2";
                          Wordpress.mkGuide "orgryte" "Fotboll" "Superettan"]))
               (Wordpress.mkGuide "motala" "Fotboll" "Division 2")) in H.
  - simpl in H. intuition discriminate.
  - right. left. reflexivity.
Defined.

Lemma fetchMore_pages (query : option string -> Wordpress.Page) :
  forall k fuel acc page,
    endsAfter k query page = true ->
    (k <= fuel)%nat ->
    Wordpress.fetchMore fuel query acc (Wordpress.hasNextPage page)
                        (Wordpress.endCursor page)
    = Some (acc ++ flat_map Wordpress.nodes (tl (pagesFrom k query page)))%list.
Proof.
  induction k as [|k IH]; intros fuel acc page Hend Hfuel; simpl in Hend.
  - apply negb_true_iff in Hend.
    destruct fuel; simpl; rewrite Hend, app_nil_r; reflexivity.
  - apply andb_true_iff in Hend. destruct Hend as [Hnext Hend].
    destruct fuel as [|fuel]; [lia|].
    cbn [Wordpress.fetchMore]. rewrite Hnext.
    rewrite (IH fuel _ _ Hend) by lia.
    cbn [pagesFrom tl]. f_equal. rewrite <- app_assoc. f_equal.
    destruct k; reflexivity.
Qed.

Lemma fetchMore_forever (query : option string -> Wordpress.Page) :
  (forall cursor, Wordpress.hasNextPage (query cursor) = true) ->
  forall fuel acc cursor, Wordpress.fetchMore fuel query acc true cursor = None.
Proof.
  intros Hmore. induction fuel as [|fuel IH]; intros acc cursor; [reflexivity|].
  cbn [Wordpress.fetchMore]. rewrite Hmore. apply IH.
Qed.

(** X20. getAwayGuides follows the cursors.  When the content system
    announces no next page after [k] further pages, the loop ends after
    [k] queries and the guides of all [k + 1] pages are grouped, while the
    slugs returned are those of the first page alone.  When the content
    system announces a next page on every answer, the loop never ends,
    however many pages are allowed. *)
Theorem getAwayGuides_follows_cursors :
  forall query fotballDivisions bandyDivisions,
    (forall k fuel,
        endsAfter k query (query None) = true ->
        (k <= fuel)%nat ->
        exists guides,
          Wordpress.getAwayGuides fuel query fotballDivisions bandyDivisions
          = Some guides
          /\ Wordpress.fotball guides
             = Wordpress.byDivision fotballDivisions
                 (filter (fun g => String.eqb (Wordpress.sport g) "Fotboll")
                         (flat_map Wordpress.nodes (pagesFrom k query (query None))))
          /\ Wordpress.bandy guides
             = Wordpress.byDivision bandyDivisions
                 (filter (fun g => String.eqb (Wordpress.sport g) "Bandy")
                         (flat_map Wordpress.nodes (pagesFrom k query (query None))))
          /\ Wordpress.slugs guides
             = map Wordpress.slug (Wordpress.nodes (query None)))
    /\ ((forall cursor, Wordpress.hasNextPage (query cursor) = true) ->
        forall fuel,
          Wordpress.getAwayGuides fuel query fotballDivisions bandyDivisions = None).
Proof.
  intros query fd bd. split.
  - intros k fuel Hend Hfuel. unfold Wordpress.getAwayGuides.
    rewrite (fetchMore_pages query k fuel _ _ Hend Hfuel).
    assert ((Wordpress.nodes (query None)
               ++ flat_map Wordpress.nodes (tl (pagesFrom k query (query None))))%list
            = flat_map Wordpress.nodes (pagesFrom k query (query None))) as ->
        by (destruct k; reflexivity).
    eexists. split; [reflexivity|]. simpl. repeat split.
  - intros Hmore fuel. unfold Wordpress.getAwayGuides.
    rewrite Hmore. now rewrite fetchMore_forever.
Qed.

(** A content system with two pages of one guide each: both guides are
    grouped, one slug is returned. *)
Lemma getAwayGuides_follows_cursors_witness :
  exists guides,
    Wordpress.getAwayGuides 5
      (fun cursor =>
         match cursor with
         | None => Wordpress.mkPage [Wordpress.mkGuide "gais" "Fotboll" "Superettan"]
                                    true (Some "c1")
         | Some _ => Wordpress.mkPage [Wordpress.mkGuide "orgryte" "Fotboll" "Superettan"]
                                      false None
         end)
      ["Superettan"] ["Elitserien"]
    = Some guides
    /\ Wordpress.fotball guides
       = [("Superettan", [Wordpress.mkGuide "gais" "Fotboll" "Superettan";
                          Wordpress.mkGuide "orgryte" "Fotboll" "Superettan"])]
    /\ Wordpress.slugs guides = ["gais"].
Proof.
  destruct (proj1 (getAwayGuides_follows_cursors
                     (fun cursor =>
                        match cursor with
                        | None => Wordpress.mkPage
                                    [Wordpress.mkGuide "gais" "Fotboll" "Superettan"]
                                    true (Some "c1")
                        | Some _ => Wordpress.mkPage
                                      [Wordpress.mkGuide "orgryte" "Fotboll" "Superettan"]
                                      false None
                        end)
                     ["Superettan"] ["Elitserien"]) 1%nat 5%nat eq_refl)
    as (guides & Hg & Hf & _ & Hs); [lia|].
  exists guides. split; [exact Hg|]. split; [exact Hf|exact Hs].
Defined.
